(** * Verraco: exam assembly, choice shuffling, answer-key resolution, grading

    A shallow embedding of the scoring core of the Verraco backend:

    - [services/shuffle_service.py]  (module [ShuffleService], and with
      object identity in [ShuffleHeap]),
    - [services/grader.py]           (module [Grader]),
    - [routes/exam_routes.py]        (module [ExamRoutes]),
    - [services/exam_services.py]    (module [ExamServices]).

    Python values are JSON-like trees ([pyval]); dictionaries are
    insertion-ordered association lists, as Python dictionaries iterate.
    A character is a code point below 256, and the string functions of
    [Py] are Python's on ASCII text, the code points below 128. Of the
    others the model knows the three that [str.isdigit] accepts and [int]
    rejects, the superscripts of [Py.str_isdigit], which make the grader
    raise. The values that the model reads as Python does are the plain
    ones ([Py.plain_scalar], [Py.plain_answer], [Py.plain_val]): ASCII text,
    integers that [str] prints under every digit limit, containers nested
    no deeper than [repr] follows them. *)

From Stdlib Require Import String Ascii.
From Stdlib Require Import ZArith List Bool Lia Permutation DecimalString.
From Stdlib Require PrimFloat FloatOps SpecFloat Uint63.
From stdpp Require Import base list strings.

#[local] Set Warnings "-register-all".
Import ListNotations.

Local Open Scope string_scope.
Local Open Scope list_scope.

(* ===================================================================== *)
(** * Python built-ins used by the backend *)
(* ===================================================================== *)

Module Py.

(** ** Characters and strings *)

(** [str.isspace] on one ASCII character: tab, LF, VT, FF, CR, the four
    separators 0x1c-0x1f, and space. *)
Definition is_space (c : ascii) : bool :=
  let n := nat_of_ascii c in
  (n =? 32)%nat || ((9 <=? n)%nat && (n <=? 13)%nat)
  || ((28 <=? n)%nat && (n <=? 31)%nat).

Definition is_digit (c : ascii) : bool :=
  let n := nat_of_ascii c in (48 <=? n)%nat && (n <=? 57)%nat.

Definition upper_char (c : ascii) : ascii :=
  let n := nat_of_ascii c in
  if (97 <=? n)%nat && (n <=? 122)%nat then ascii_of_nat (n - 32) else c.

Definition lower_char (c : ascii) : ascii :=
  let n := nat_of_ascii c in
  if (65 <=? n)%nat && (n <=? 90)%nat then ascii_of_nat (n + 32) else c.

Fixpoint map_string (f : ascii -> ascii) (s : string) : string :=
  match s with
  | EmptyString => EmptyString
  | String c r => String (f c) (map_string f r)
  end.

(** [s.upper()], [s.lower()] *)
Definition upper (s : string) : string := map_string upper_char s.
Definition lower (s : string) : string := map_string lower_char s.

(** [s.lstrip()] *)
Fixpoint lstrip (s : string) : string :=
  match s with
  | String c r => if is_space c then lstrip r else s
  | EmptyString => EmptyString
  end.

Fixpoint all_space (s : string) : bool :=
  match s with
  | EmptyString => true
  | String c r => is_space c && all_space r
  end.

(** [s.rstrip()] *)
Fixpoint rstrip (s : string) : string :=
  match s with
  | EmptyString => EmptyString
  | String c r => if all_space s then EmptyString else String c (rstrip r)
  end.

(** [s.strip()] *)
Definition strip (s : string) : string := rstrip (lstrip s).

(** [s.replace(c, "")] for a one-character [c] *)
Fixpoint remove_char (c : ascii) (s : string) : string :=
  match s with
  | EmptyString => EmptyString
  | String x r =>
      if Ascii.eqb x c then remove_char c r else String x (remove_char c r)
  end.

Fixpoint all_chars (p : ascii -> bool) (s : string) : bool :=
  match s with
  | EmptyString => true
  | String c r => p c && all_chars p r
  end.

(** Non-empty and made of the decimal digits [0-9]: a full match of
    [\d+], and [s.isdigit()] on ASCII text. *)
Definition isdigit (s : string) : bool :=
  match s with
  | EmptyString => false
  | _ => all_chars is_digit s
  end.

(** The characters below 256 that [str.isdigit] accepts: the decimal
    digits and the superscripts two, three and one (U+00B2, U+00B3,
    U+00B9), which [int] rejects. *)
Definition is_digit_or_superscript (c : ascii) : bool :=
  let n := nat_of_ascii c in
  is_digit c || (n =? 178)%nat || (n =? 179)%nat || (n =? 185)%nat.

(** [s.isdigit()] *)
Definition str_isdigit (s : string) : bool :=
  match s with
  | EmptyString => false
  | _ => all_chars is_digit_or_superscript s
  end.

(** ASCII text: every character is a code point below 128. *)
Definition ascii_char (c : ascii) : bool := (nat_of_ascii c <? 128)%nat.

Definition ascii_str (s : string) : bool := all_chars ascii_char s.

(** [s.startswith(p)] *)
Definition startswith (p s : string) : bool := String.prefix p s.

(** [int(ch)] for a decimal digit [ch] *)
Definition digit_val (c : ascii) : Z := Z.of_nat (nat_of_ascii c - 48).

(** [int(s)] for a string of decimal digits *)
Definition int_of_digits (s : string) : Z :=
  fold_left (fun acc c => 10 * acc + digit_val c)%Z (list_ascii_of_string s) 0%Z.

(** [str(n)] for an integer *)
Definition str_of_int (n : Z) : string := NilZero.string_of_int (Z.to_int n).

(** [x in l] for a list of strings *)
Definition str_in (x : string) (l : list string) : bool :=
  existsb (String.eqb x) l.

(** [l.index(x)], when [x in l] *)
Fixpoint str_index (x : string) (l : list string) : nat :=
  match l with
  | [] => 0
  | y :: r => if String.eqb x y then 0 else S (str_index x r)
  end.

(** ** Dictionaries: insertion-ordered association lists *)

Section Dict.
Context {K V : Type} (eqb : K -> K -> bool).

(** [d.get(k)] *)
Fixpoint dict_get (k : K) (d : list (K * V)) : option V :=
match d with
| [] => None
| (k', v) :: r => if eqb k k' then Some v else dict_get k r
end.

(** [k in d] *)
Definition dict_mem (k : K) (d : list (K * V)) : bool :=
match dict_get k d with Some _ => true | None => false end.

(** [d[k] = v]: an existing key keeps its position *)
Fixpoint dict_set (k : K) (v : V) (d : list (K * V)) : list (K * V) :=
match d with
| [] => [(k, v)]
| (k', v') :: r =>
    if eqb k k' then (k, v) :: r else (k', v') :: dict_set k v r
end.

(** [d.pop(k, None)]: no entry of key [k] is left *)
Fixpoint dict_pop (k : K) (d : list (K * V)) : list (K * V) :=
match d with
| [] => []
| (k', v') :: r =>
    if eqb k k' then dict_pop k r else (k', v') :: dict_pop k r
end.
End Dict.

(** ** Values *)

Inductive pyval : Type :=
| VNone
| VBool (b : bool)
| VInt (n : Z)
| VStr (s : string)
| VList (l : list pyval)
| VTuple (l : list pyval)
| VDict (d : list (string * pyval)).

Definition dict : Type := list (string * pyval).

(** [d.get(k)] on a string-keyed dictionary; a missing key reads [None] *)
Definition get (k : string) (d : dict) : pyval :=
  match dict_get String.eqb k d with Some v => v | None => VNone end.

(** [d.get(k, dflt)] *)
Definition get_default (k : string) (dflt : pyval) (d : dict) : pyval :=
  match dict_get String.eqb k d with Some v => v | None => dflt end.

Definition set (k : string) (v : pyval) (d : dict) : dict :=
  dict_set String.eqb k v d.

Definition pop (k : string) (d : dict) : dict := dict_pop String.eqb k d.

Definition mem (k : string) (d : dict) : bool := dict_mem String.eqb k d.

(** Truth value of an object: [None], [False], [0], and empty strings and
    containers are false. *)
Definition truthy (v : pyval) : bool :=
  match v with
  | VNone => false
  | VBool b => b
  | VInt n => negb (n =? 0)%Z
  | VStr s => negb (String.eqb s "")
  | VList l | VTuple l => match l with [] => false | _ => true end
  | VDict d => match d with [] => false | _ => true end
  end.

(** [a or b] *)
Definition py_or (a b : pyval) : pyval := if truthy a then a else b.

(** [isinstance(v, int)], with the integer held; [bool] is a subclass of
    [int] in Python. *)
Definition as_int (v : pyval) : option Z :=
  match v with
  | VInt n => Some n
  | VBool b => Some (if b then 1 else 0)%Z
  | _ => None
  end.

(** ** Exceptions *)

Inductive exn : Type :=
| TypeError
| AttributeError
| ValueError
| IndexError
| KeyError
| OSError
| RecursionError
| OverflowError.

(** The outcome of a call that can raise. *)
Inductive result (A : Type) : Type :=
| Ok (a : A)
| Raise (e : exn).

Arguments Ok {A} a.
Arguments Raise {A} e.

(** ** [str(v)] and [repr(v)] *)

Definition hex_digit (n : nat) : ascii :=
  if (n <? 10)%nat then ascii_of_nat (48 + n) else ascii_of_nat (87 + n).

Definition dquote : ascii := ascii_of_nat 34.

Definition has_char (c : ascii) (s : string) : bool :=
  existsb (Ascii.eqb c) (list_ascii_of_string s).

(** One character of a string literal written between quotes [q]. *)
Definition repr_char (q : ascii) (c : ascii) : string :=
  let n := nat_of_ascii c in
  if Ascii.eqb c "\"%char then "\\"
  else if Ascii.eqb c q then String "\"%char (String q EmptyString)
  else if (n =? 9)%nat then "\t"
  else if (n =? 10)%nat then "\n"
  else if (n =? 13)%nat then "\r"
  else if (n <? 32)%nat || (127 <=? n)%nat then
    String "\"%char (String "x"%char
      (String (hex_digit (n / 16)) (String (hex_digit (n mod 16)) EmptyString)))
  else String c EmptyString.

(** [repr(s)]: single quotes unless the string holds a single quote and no
    double quote. *)
Definition repr_str (s : string) : string :=
  let q : ascii :=
    if has_char "'"%char s && negb (has_char dquote s)
    then dquote else "'"%char in
  String q (String.concat "" (map (repr_char q) (list_ascii_of_string s)))
    +:+ String q EmptyString.

Fixpoint repr (v : pyval) : string :=
  match v with
  | VNone => "None"
  | VBool true => "True"
  | VBool false => "False"
  | VInt n => str_of_int n
  | VStr s => repr_str s
  | VList l => "[" +:+ String.concat ", " (map repr l) +:+ "]"
  | VTuple l =>
      match l with
      | [x] => "(" +:+ repr x +:+ ",)"
      | _ => "(" +:+ String.concat ", " (map repr l) +:+ ")"
      end
  | VDict d =>
      "{" +:+ String.concat ", "
               (map (fun kv => repr_str (fst kv) +:+ ": " +:+ repr (snd kv)) d)
          +:+ "}"
  end.

(** [str(v)] *)
Definition str (v : pyval) : string :=
  match v with
  | VStr s => s
  | _ => repr v
  end.

(** ** Plain values

    [str] of an integer and [int] of a string of digits raise [ValueError]
    beyond a limit on the number of digits, 4300 unless the interpreter is
    told otherwise, and never below 640. *)
Definition small_int (n : Z) : bool := (Z.abs n <? 10 ^ 640)%Z.

(** [None], a boolean, an integer within the digit limit, or a string of
    ASCII text *)
Definition plain_scalar (v : pyval) : bool :=
  match v with
  | VNone | VBool _ => true
  | VInt n => small_int n
  | VStr s => ascii_str s
  | _ => false
  end.

(** An answer as it is submitted or kept in a key: a plain scalar or a
    list of plain scalars *)
Definition plain_answer (v : pyval) : bool :=
  match v with
  | VList l => forallb plain_scalar l
  | _ => plain_scalar v
  end.

(** A value nested less than [depth] deep, whose strings, keys included,
    are ASCII text and whose integers are within the digit limit *)
Fixpoint plain_upto (depth : nat) (v : pyval) : bool :=
  match depth with
  | O => false
  | S depth =>
      match v with
      | VNone | VBool _ => true
      | VInt n => small_int n
      | VStr s => ascii_str s
      | VList l | VTuple l => forallb (plain_upto depth) l
      | VDict d =>
          forallb (fun kv => ascii_str (fst kv) && plain_upto depth (snd kv)) d
      end
  end.

(** [repr] follows a container some hundred levels deep before it raises
    [RecursionError]; 64 levels are within every setting. *)
Definition plain_val (v : pyval) : bool := plain_upto 64 v.

End Py.

(* ===================================================================== *)
(** * The [random] module *)
(* ===================================================================== *)

(** The backend uses Python's [random] only through its interface: seeded
    generators [random.Random(seed)], [rng.shuffle(x)] (in place),
    [randint(a, b)] and [randrange(n)]. A generator is a state; every draw returns the next
    state. *)
Record PyRandom : Type := {
  rng : Type;
  Random : Z -> rng;
  shuffle : forall A : Type, list A -> rng -> list A * rng;
  randint : Z -> Z -> rng -> Z * rng;
  randrange : Z -> rng -> Z * rng
}.

Arguments shuffle _ {A} _ _.

(** [rng.shuffle(x)] rearranges the elements of [x]. *)
Definition shuffle_permutes (R : PyRandom) : Prop :=
  forall (A : Type) (x : list A) (g : rng R), Permutation x (fst (shuffle R x g)).

(** [randint(a, b)] returns an integer of [[a, b]]. *)
Definition randint_in_range (R : PyRandom) : Prop :=
  forall (a b : Z) (g : rng R), (a <= b)%Z ->
    (a <= fst (randint R a b g) <= b)%Z.

(** A small generator to run the model on: a linear congruential state,
    [_randbelow(n)] as the state modulo [n], and the library's shuffle loop
    [for i in reversed(range(1, len(x))): j = randbelow(i + 1); swap]. *)
Module Lcg.

Definition next (g : Z) : Z := ((g * 1103515245 + 12345) mod 2147483648)%Z.

Definition randbelow (n : nat) (g : Z) : nat * Z :=
  (Z.to_nat (next g mod Z.of_nat n), next g).

Definition swap {A : Type} (i j : nat) (x : list A) : list A :=
  match x !! i, x !! j with
  | Some a, Some b => <[i := b]> (<[j := a]> x)
  | _, _ => x
  end.

Fixpoint shuffle_from {A : Type} (i : nat) (x : list A) (g : Z) : list A * Z :=
  match i with
  | O => (x, g)
  | S i' =>
      let '(j, g') := randbelow (i + 1) g in
      shuffle_from i' (swap i j x) g'
  end.

Definition shuffle {A : Type} (x : list A) (g : Z) : list A * Z :=
  shuffle_from (length x - 1) x g.

Definition randint (a b : Z) (g : Z) : Z * Z :=
  ((a + next g mod (b - a + 1))%Z, next g).

Definition randrange (n : Z) (g : Z) : Z * Z := ((next g mod n)%Z, next g).

Definition R : PyRandom :=
  Build_PyRandom Z (fun seed => seed) (@shuffle) randint randrange.

End Lcg.

(* ===================================================================== *)
(** * services/shuffle_service.py *)
(* ===================================================================== *)

Module ShuffleService.
Import Py.

Definition _LETTERS : list string := ["A"; "B"; "C"; "D"].

(** [_LETTERS[i]]; the indices used below are positions of a 4-element
    list. *)
Definition letter_at (i : nat) : string := nth i _LETTERS "".

(** [enumerate(l)] *)
Definition enumerate {A : Type} (l : list A) : list (nat * A) :=
  combine (seq 0 (length l)) l.

(** [[s] if s else []] *)
Definition nonempty_singleton (s : string) : list string :=
  if String.eqb s "" then [] else [s].

Definition _as_letter_list (v : pyval) : list string :=
  match v with
  | VNone => []
  | VStr s => nonempty_singleton (upper (strip s))
  | VList l =>
      flat_map (fun x =>
                  match x with
                  | VNone => []
                  | _ => nonempty_singleton (upper (strip (str x)))
                  end) l
  | _ => nonempty_singleton (upper (strip (str v)))
  end.

(** [for key in keys: lst = _as_letter_list(d.get(key)); if lst: return lst];
    the empty list when the loop falls through. *)
Fixpoint first_letter_list (keys : list string) (d : dict) : list string :=
  match keys with
  | [] => []
  | key :: rest =>
      match _as_letter_list (get key d) with
      | [] => first_letter_list rest d
      | lst => lst
      end
  end.

(** [ci = d.get("correct_index"); isinstance(ci, int) and 0 <= ci < 4] *)
Definition correct_index_letter (d : dict) : option string :=
  match as_int (get "correct_index" d) with
  | Some ci =>
      if (0 <=? ci)%Z && (ci <? 4)%Z then Some (letter_at (Z.to_nat ci))
      else None
  | None => None
  end.

(** The lookups [_get_correct_letters] runs on [q], and again on [q["meta"]];
    [None] when they all fall through. *)
Definition correct_letters_of (d : dict) : option (list string) :=
  match first_letter_list ["correct_letters"] d with
  | [] =>
      match first_letter_list ["correct"; "answer"; "correct_letter"] d with
      | [] =>
          match correct_index_letter d with
          | Some l => Some [l]
          | None => None
          end
      | lst => Some lst
      end
  | lst => Some lst
  end.

Definition _get_correct_letters (q : dict) : list string :=
  match correct_letters_of q with
  | Some lst => lst
  | None =>
      match get "meta" q with
      | VDict meta =>
          match correct_letters_of meta with
          | Some lst => lst
          | None => []
          end
      | _ => []
      end
  end.

Definition _set_correct_letters (q : dict) (new_letters : list string) : dict :=
  let qtype := lower (strip (str (py_or (get "type" q) (VStr "single")))) in
  let is_multi := String.eqb qtype "multi" || (1 <? length new_letters)%nat in
  if is_multi then
    let q := set "correct_letters" (VList (map VStr new_letters)) q in
    let q := set "correct" (VList (map VStr new_letters)) q in
    let q := pop "correct_letter" q in
    pop "correct_index" q
  else
    let letter := match new_letters with x :: _ => x | [] => "A" end in
    let q := set "correct_letter" (VStr letter) q in
    let q := set "correct" (VList [VStr letter]) q in
    let q := set "correct_index"
               (VInt (if str_in letter _LETTERS
                      then Z.of_nat (str_index letter _LETTERS) else 0)) q in
    pop "correct_letters" q.

(** One entry of [parsed]: a (label, text) pair read from a choice item. *)
Definition parse_choice (item : pyval) : string * string :=
  match item with
  | VList [a; b] | VTuple [a; b] => (upper (strip (str a)), str b)
  | VDict d =>
      if mem "label" d && mem "text" d
      then (upper (strip (str (get "label" d))), str (get "text" d))
      else ("", str item)
  | _ => ("", str item)
  end.

(** ** What is read off a question and an exam set *)

(** The (label, text) pairs of the choices of a question, as
    [_shuffle_choices_one] reads them. *)
Definition parsed_choices (q : dict) : list (string * string) :=
  match get "choices" q with
  | VList l => map parse_choice l
  | _ => []
  end.

(** The texts of the choices that carry the letter [lab]. *)
Definition texts_at (q : dict) (lab : string) : list string :=
  map snd (List.filter (fun p => String.eqb (fst p) lab) (parsed_choices q)).

(** The texts marked correct: those at the correct letters, letter by
    letter. *)
Definition correct_texts (q : dict) : list string :=
  flat_map (texts_at q) (_get_correct_letters q).

(** The questions of an exam set that are objects. *)
Definition dict_questions (exam_set : dict) : list dict :=
  match get "questions" exam_set with
  | VList qs => flat_map (fun q => match q with VDict d => [d] | _ => [] end) qs
  | _ => []
  end.

(** [len(choices) == 4] for a list of choices *)
Definition four_choices (q : dict) : Prop :=
  exists c0 c1 c2 c3, get "choices" q = VList [c0; c1; c2; c3].
(** The choices carry distinct letters of A-D. *)
Definition well_lettered (q : dict) : Prop :=
  NoDup (map fst (parsed_choices q))
  /\ Forall (fun p => str_in (fst p) _LETTERS = true) (parsed_choices q).

Section WithRandom.
Context (R : PyRandom).

(** [old_index_to_new_index[old_i] = new_i] over [enumerate(indexed)] *)
Definition old_index_to_new_index_of {A : Type} (indexed : list (nat * A))
: list (nat * nat) :=
fold_left (fun d e => dict_set Nat.eqb (fst (snd e)) (fst e) d)
          (enumerate indexed) [].

(** [label_to_old_index]: a label of A-D keys its own position, any other
  label keys the position under the positional letter. *)
Definition label_to_old_index_of (parsed : list (string * string))
: list (string * nat) :=
fold_left (fun d e =>
             let lab := fst (snd e) in
             if str_in lab _LETTERS
             then dict_set String.eqb lab (fst e) d
             else dict_set String.eqb (letter_at (fst e)) (fst e) d)
          (enumerate parsed) [].

Definition new_correct_of (correct_before : list string)
  (label_to_old_index : list (string * nat))
  (old_index_to_new_index : list (nat * nat)) : list string :=
flat_map (fun lab =>
            if negb (str_in lab _LETTERS) then []
            else match dict_get String.eqb lab label_to_old_index with
                 | None => []
                 | Some old_i =>
                     match dict_get Nat.eqb old_i old_index_to_new_index with
                     | None => []
                     | Some new_i => [letter_at new_i]
                     end
                 end) correct_before.

Definition new_choices_of (indexed : list (nat * (string * string)))
: list pyval :=
map (fun e => VTuple [VStr (letter_at (fst e)); VStr (snd (snd (snd e)))])
    (enumerate indexed).

(** [old_to_new] and [new_to_old], filled over
  [old_index_to_new_index.items()]. *)
Definition old_to_new_of (old_index_to_new_index : list (nat * nat)) : dict :=
fold_left (fun d e => set (letter_at (fst e)) (VStr (letter_at (snd e))) d)
          old_index_to_new_index [].

Definition new_to_old_of (old_index_to_new_index : list (nat * nat)) : dict :=
fold_left (fun d e => set (letter_at (snd e)) (VStr (letter_at (fst e))) d)
          old_index_to_new_index [].

Definition _shuffle_choices_one (q : dict) (g : rng R) : dict * rng R :=
let q2 := q in
match get "choices" q2 with
| VList ([_; _; _; _] as choices) =>
    let parsed := map parse_choice choices in
    let correct_before := _get_correct_letters q2 in
    let '(indexed, g) := shuffle R (enumerate parsed) g in
    let old_index_to_new_index := old_index_to_new_index_of indexed in
    let label_to_old_index := label_to_old_index_of parsed in
    let new_correct :=
      new_correct_of correct_before label_to_old_index
                     old_index_to_new_index in
    let new_choices := new_choices_of indexed in
    let q2 := set "choices" (VList new_choices) q2 in
    let q2 := _set_correct_letters q2
                (match new_correct with [] => ["A"] | _ => new_correct end) in
    let meta := match get "meta" q2 with VDict m => m | _ => [] end in
    let meta := set "shuffled_choices" (VBool true) meta in
    let meta := set "old_to_new_letter"
                    (VDict (old_to_new_of old_index_to_new_index)) meta in
    let meta := set "new_to_old_letter"
                    (VDict (new_to_old_of old_index_to_new_index)) meta in
    (set "meta" (VDict meta) q2, g)
| _ => (q2, g)
end.

(** The closing loop of [shuffle_exam_set] on one question:
  [meta["seq"] = i] unless a [seq] is recorded. *)
Definition set_seq (i : nat) (q : dict) : dict :=
let meta := match get "meta" q with VDict m => m | _ => [] end in
let meta := if mem "seq" meta then meta
            else set "seq" (VInt (Z.of_nat i)) meta in
set "meta" (VDict meta) q.

Definition shuffle_exam_set (exam_set : dict) (seed : Z) : dict :=
let out := exam_set in
match get "questions" out with
| VList ((_ :: _) as qs) =>
    let normalized_qs :=
      flat_map (fun q => match q with VDict d => [d] | _ => [] end) qs in
    let shuffled_questions :=
      map (fun e =>
             let q_seed := (seed * 1000003 + Z.of_nat (fst e))%Z in
             fst (_shuffle_choices_one (snd e) (Random R q_seed)))
          (enumerate normalized_qs) in
    let final :=
      map (fun e => VDict (set_seq (S (fst e)) (snd e)))
          (enumerate shuffled_questions) in
    set "questions" (VList final) out
| _ => out
end.

(** The order [rng.shuffle] gives to the enumerated choices of [q]. *)
Definition indexed_of (q : dict) (g : rng R) : list (nat * (string * string)) :=
fst (shuffle R (enumerate (parsed_choices q)) g).

(** The letters [_shuffle_choices_one] hands to [_set_correct_letters]. *)
Definition new_letters_of (q : dict) (g : rng R) : list string :=
let new_correct :=
  new_correct_of (_get_correct_letters q)
    (label_to_old_index_of (parsed_choices q))
    (old_index_to_new_index_of (indexed_of q g)) in
match new_correct with [] => ["A"] | _ => new_correct end.

End WithRandom.

End ShuffleService.

(* ===================================================================== *)
(** * services/grader.py *)
(* ===================================================================== *)

Module Grader.
Import Py.

Definition LETTERS : list string := ["A"; "B"; "C"; "D"; "E"; "F"].

(** [sorted(list(set(l)))] on strings *)
Fixpoint insert_sorted (x : string) (l : list string) : list string :=
  match l with
  | [] => [x]
  | y :: r =>
      match String.compare x y with
      | Lt => x :: l
      | Eq => l
      | Gt => y :: insert_sorted x r
      end
  end.

Definition sorted_set (l : list string) : list string :=
  fold_right insert_sorted [] l.

(** [set(a) == set(b)] *)
Definition set_eqb (a b : list string) : bool :=
  forallb (fun x => str_in x b) a && forallb (fun x => str_in x a) b.

(** The characters of a string, each as a one-character string *)
Definition chars (s : string) : list string :=
  map (fun c => String c EmptyString) (list_ascii_of_string s).

(** [re.fullmatch(r"[A-F]{2,}", s)] *)
Definition is_letter_run (s : string) : bool :=
  (2 <=? String.length s)%nat
  && all_chars (fun c => let n := nat_of_ascii c in
                         (65 <=? n)%nat && (n <=? 70)%nat) s.

(** The letters of a string of decimal digits: each digit [i] with
    [0 <= i < 6] gives [LETTERS[i]]. *)
Definition digit_letters (s : string) : list string :=
  flat_map (fun c =>
              let i := digit_val c in
              if (0 <=? i)%Z && (i <? Z.of_nat (length LETTERS))%Z
              then [nth (Z.to_nat i) LETTERS ""] else [])
           (list_ascii_of_string s).

(** [for ch in s2: i = int(ch); ...], run on a string that [s2.isdigit()]
    accepts: [int] raises [ValueError] on a digit that is not decimal, and
    the letters are returned only when the loop has ended. *)
Definition digit_letters_of (s : string) : result (list string) :=
  if all_chars is_digit s then Ok (digit_letters s) else Raise ValueError.

Definition _normalize_letter_list (v : pyval) : result (list string) :=
  match v with
  | VNone => Ok []
  | VList l =>
      let out :=
        flat_map (fun x =>
                    match x with
                    | VNone => []
                    | _ => let s := upper (strip (str x)) in
                           if String.eqb s "" then [] else [s]
                    end) l in
      let out2 := List.filter (fun x => str_in x LETTERS) out in
      Ok (sorted_set out2)
  | _ =>
      let s := upper (strip (str v)) in
      if String.eqb s "" then Ok []
      else
        let s2 := remove_char " " (remove_char "," s) in
        if str_isdigit s2 then
          match digit_letters_of s2 with
          | Raise e => Raise e
          | Ok out => Ok (sorted_set out)
          end
        else if is_letter_run s2
             then Ok (sorted_set
                        (List.filter (fun ch => str_in ch LETTERS) (chars s2)))
        else if str_in s2 LETTERS then Ok [s2]
        else Ok []
  end.

(** The [form] argument of the legacy entry point: absent, a multi-valued
    form with [getlist], or an object read with [get]. *)
Inductive form_t : Type :=
| NoForm
| FormData (fields : list (string * pyval))
| FormGet (fields : dict).

(** A form whose values are plain: every value of a multi-valued form a
    plain scalar, every value of an object a plain answer *)
Definition plain_form (form : form_t) : bool :=
  match form with
  | NoForm => true
  | FormData fields => forallb (fun kv => plain_scalar (snd kv)) fields
  | FormGet fields => forallb (fun kv => plain_answer (snd kv)) fields
  end.

(** A mapping from question ids to plain answers, or no mapping at all *)
Definition plain_answers (answers : pyval) : bool :=
  match answers with
  | VDict d => forallb (fun kv => plain_answer (snd kv)) d
  | _ => true
  end.

(** [form.getlist(key)] *)
Definition getlist (key : string) (fields : list (string * pyval)) : list pyval :=
  map snd (List.filter (fun kv => String.eqb (fst kv) key) fields).

Definition _get_user_answer_from_sources
    (qid : string) (answers : pyval) (form : form_t) : result (list string) :=
  let qid_u := upper (strip qid) in
  if String.eqb qid_u "" then Ok []
  else
    match answers with
    | VDict answers =>
        let v := py_or (get qid answers) (get qid_u answers) in
        _normalize_letter_list v
    | _ =>
        match form with
        | NoForm => Ok []
        | FormData fields =>
            _normalize_letter_list (VList (getlist ("ans_" +:+ qid) fields))
        | FormGet fields =>
            let vv := get ("ans_" +:+ qid) fields in
            let raw := match vv with
                       | VList _ => vv
                       | VNone => VList []
                       | _ => VList [vv]
                       end in
            _normalize_letter_list raw
        end
    end.

Definition is_none (v : pyval) : bool :=
  match v with VNone => true | _ => false end.

(** The value that [_get_correct_answer] normalises: the entry of the
    mapping when there is one, else the answer the question carries. *)
Definition correct_value (q : dict) (correct_answers : pyval) : pyval :=
  let qid := strip (str (get_default "id" (VStr "") q)) in
  let qid_u := upper qid in
  let from_map :=
    match correct_answers with
    | VDict ca =>
        let v := get qid ca in
        let v := if is_none v then get qid_u ca else v in
        if is_none v then None else Some v
    | _ => None
    end in
  match from_map with
  | Some v => v
  | None =>
      let v2 := get "correct" q in
      if is_none v2
      then py_or (get "correct_letters" q) (get "correct_letter" q)
      else v2
  end.

Definition _get_correct_answer (q : dict) (correct_answers : pyval)
  : result (list string) :=
  _normalize_letter_list (correct_value q correct_answers).

(** [(points, max_points, ok)] *)
Definition _score_single (user correct : list string) : Z * Z * bool :=
  let max_points := 1%Z in
  match correct with
  | [] => (0%Z, max_points, false)
  | c0 :: _ =>
      match user with
      | [u0] =>
          let ok := if (length correct =? 1)%nat then String.eqb u0 c0
                    else str_in u0 correct in
          ((if ok then 1 else 0)%Z, max_points, ok)
      | _ => (0%Z, max_points, false)
      end
  end.

Definition _score_multi_exact (user correct : list string) : Z * Z * bool :=
  let max_points := 1%Z in
  match correct with
  | [] => (0%Z, max_points, false)
  | _ =>
      let ok := set_eqb user correct && (0 <? length user)%nat in
      ((if ok then 1 else 0)%Z, max_points, ok)
  end.

Definition _score_summary_q10 (user correct : list string) : Z * Z * bool :=
  let max_points := 2%Z in
  match correct with
  | [] => (0%Z, max_points, false)
  | _ =>
      if (length user =? 0)%nat then (0%Z, max_points, false)
      else
        let ok := set_eqb user correct in
        ((if ok then 2 else 0)%Z, max_points, ok)
  end.

(** The table of [scale_reading_score]; [table.get(k, 0)] *)
Definition table_11 (k : Z) : Z :=
  if (k =? 11)%Z then 30 else if (k =? 10)%Z then 29
  else if (k =? 9)%Z then 28 else if (k =? 8)%Z then 27
  else if (k =? 7)%Z then 26 else if (k =? 6)%Z then 25
  else if (k =? 5)%Z then 23 else if (k =? 4)%Z then 20
  else if (k =? 3)%Z then 16 else if (k =? 2)%Z then 12
  else if (k =? 1)%Z then 7 else 0.

(** The integer nearest to the quotient [a / b] of integers [a >= 0] and
    [b > 0], a tie going to the even one. *)
Definition round_half_even (a b : Z) : Z :=
  let q := (a / b)%Z in
  let r := (a mod b)%Z in
  if (2 * r <? b)%Z then q
  else if (b <? 2 * r)%Z then (q + 1)%Z
  else if Z.even q then q else (q + 1)%Z.

(** [float(n)], also the conversion of the integer in [n * 11.0]: the
    binary64 number nearest to [n], a tie going to the even mantissa, and
    [OverflowError] when [n] is beyond the range of binary64. *)
Definition float_of_int (n : Z) : result PrimFloat.float :=
  match SpecFloat.binary_normalize FloatOps.prec FloatOps.emax n 0 false with
  | SpecFloat.S754_infinity _ => Raise OverflowError
  | x => Ok (FloatOps.SF2Prim x)
  end.

(** [round(x)] of a binary64 number: the integer nearest to it, a tie
    going to the even one; [OverflowError] on an infinity and [ValueError]
    on a NaN. *)
Definition round_float (x : PrimFloat.float) : result Z :=
  match FloatOps.Prim2SF x with
  | SpecFloat.S754_finite s m e =>
      let v := if (0 <=? e)%Z then (Z.pos m * 2 ^ e)%Z
               else round_half_even (Z.pos m) (2 ^ (- e)) in
      Ok (if s then (- v)%Z else v)
  | SpecFloat.S754_zero _ => Ok 0%Z
  | SpecFloat.S754_infinity _ => Raise OverflowError
  | SpecFloat.S754_nan => Raise ValueError
  end.

(** [scale_reading_score]: the quotient [sp * 11.0 / float(total_points)]
    is computed in binary64, the product and the quotient each rounded to
    the nearest binary64 number. *)
Definition scale_reading_score (score_points total_points : Z) : result Z :=
  if (total_points =? 11)%Z then
    let s := table_11 score_points in
    Ok (Z.max 0 (Z.min 30 s))
  else if (total_points <=? 0)%Z then Ok 0%Z
  else
    let sp := Z.max 0 (Z.min score_points total_points) in
    match float_of_int sp with
    | Raise e => Raise e
    | Ok fsp =>
        let product := PrimFloat.mul fsp (PrimFloat.of_uint63 (Uint63.of_Z 11)) in
        match float_of_int total_points with
        | Raise e => Raise e
        | Ok ftotal =>
            match round_float (PrimFloat.div product ftotal) with
            | Raise e => Raise e
            | Ok eq_raw_11 =>
                let s := table_11 eq_raw_11 in
                Ok (Z.max 0 (Z.min 30 s))
            end
        end
    end.

(** One entry of the feedback list; the display id, a rendering of [qid],
    is left out. *)
Record feedback : Type := {
  fb_qid : string;
  fb_prompt : pyval;
  fb_qtype : string;
  fb_user : list string;
  fb_correct : list string;
  fb_ok : bool;
  fb_points : Z;
  fb_max_points : Z;
  fb_explanation : pyval
}.

(** [(q.get("type") or "single").strip().lower()]: only a string has
    [strip]. *)
Definition question_type (q : dict) : result string :=
  match py_or (get "type" q) (VStr "single") with
  | VStr s => Ok (lower (strip s))
  | _ => Raise AttributeError
  end.

(** The body of the loop of [_grade_core] on one question. *)
Definition grade_question (q : dict) (answers correct_answers : pyval)
    (form : form_t) : result feedback :=
  let qid := str (get_default "id" (VStr "unknown") q) in
  let prompt := get_default "prompt" (VStr "[No prompt provided]") q in
  match question_type q with
  | Raise e => Raise e
  | Ok qtype =>
      let explanation :=
        py_or (get_default "explanation" (VStr "") q) (VStr "") in
      match _get_user_answer_from_sources qid answers form with
      | Raise e => Raise e
      | Ok user_ans =>
          match _get_correct_answer q correct_answers with
          | Raise e => Raise e
          | Ok correct_ans =>
              let '(pts, max_pts, ok) :=
                if String.eqb qtype "summary"
                then _score_summary_q10 user_ans correct_ans
                else if String.eqb qtype "single"
                     then _score_single user_ans correct_ans
                     else _score_multi_exact user_ans correct_ans in
              Ok {| fb_qid := qid; fb_prompt := prompt; fb_qtype := qtype;
                    fb_user := sorted_set user_ans;
                    fb_correct := sorted_set correct_ans;
                    fb_ok := ok; fb_points := pts; fb_max_points := max_pts;
                    fb_explanation := explanation |}
          end
      end
  end.

(** [_grade_core]: the loop, with its three accumulators. *)
Fixpoint grade_loop (questions : list dict) (answers correct_answers : pyval)
    (form : form_t) (score_points total_points : Z) (fbs : list feedback)
  : result (Z * Z * list feedback) :=
  match questions with
  | [] => Ok (score_points, total_points, fbs)
  | q :: rest =>
      match grade_question q answers correct_answers form with
      | Raise e => Raise e
      | Ok fb =>
          grade_loop rest answers correct_answers form
                     (score_points + fb_points fb)%Z
                     (total_points + fb_max_points fb)%Z
                     (fbs ++ [fb])
      end
  end.

Definition _grade_core (questions : list dict) (answers correct_answers : pyval)
    (form : form_t) : result (Z * Z * list feedback) :=
  grade_loop questions answers correct_answers form 0%Z 0%Z [].

Record report : Type := {
  rp_score_points : Z;
  rp_total_points : Z;
  rp_scaled : Z;
  rp_correct_count : Z;
  rp_question_count : Z;
  rp_feedback : list feedback
}.

Definition grade (questions : list dict) (form : form_t)
    (answers correct_answers : pyval) : result report :=
  match _grade_core questions answers correct_answers form with
  | Raise e => Raise e
  | Ok (score_points, total_points, fbs) =>
      match scale_reading_score score_points total_points with
      | Raise e => Raise e
      | Ok scaled =>
          Ok {| rp_score_points := score_points;
                rp_total_points := total_points;
                rp_scaled := scaled;
                rp_correct_count :=
                  Z.of_nat (length (List.filter fb_ok fbs));
                rp_question_count := Z.of_nat (length fbs);
                rp_feedback := fbs |}
      end
  end.

(** ** The scaled score as the specification words it *)



(** [k] is an integer nearest to the quotient [a / b]: [|k - a/b| <= 1/2]. *)
Definition is_nearest (k a b : Z) : Prop :=
  (Z.abs (2 * (k * b) - 2 * a) <= b)%Z.

(** The rescaling of the specification: the raw score, kept within
    [0..total], is rescaled with the quotient taken exactly and rounded to
    the nearest integer. The source departs from it where binary64 does. *)
Definition scale_reading_score_exact (score_points total_points : Z) : Z :=
  if (total_points =? 11)%Z then
    let s := table_11 score_points in
    Z.max 0 (Z.min 30 s)
  else if (total_points <=? 0)%Z then 0%Z
  else
    let sp := Z.max 0 (Z.min score_points total_points) in
    let eq_raw_11 := round_half_even (sp * 11) total_points in
    let s := table_11 eq_raw_11 in
    Z.max 0 (Z.min 30 s).

(** Every pair [(raw, total)] with [0 <= raw <= total <= bound] *)
Definition score_pairs (bound : nat) : list (Z * Z) :=
  flat_map (fun t => map (fun r => (Z.of_nat r, Z.of_nat t)) (seq 0 (S t)))
           (seq 1 bound).

(** The source returns on the pair, and returns what the specification
    says. *)
Definition agree_on (p : Z * Z) : bool :=
  match scale_reading_score (fst p) (snd p) with
  | Ok r => (r =? scale_reading_score_exact (fst p) (snd p))%Z
  | Raise _ => false
  end.

(** A question whose [type] is a string, or left out *)
Definition typed_question (q : dict) : Prop :=
  exists t, question_type q = Ok t.

(** A question as the grader reads it when all it reads is plain: the id a
    plain scalar, the type a string of ASCII text or left out, the answers
    the question carries plain answers *)
Definition plain_question (q : dict) : bool :=
  plain_scalar (get "id" q)
  && match py_or (get "type" q) (VStr "single") with
     | VStr s => ascii_str s
     | _ => false
     end
  && plain_answer (get "correct" q)
  && plain_answer (get "correct_letters" q)
  && plain_answer (get "correct_letter" q).

End Grader.

(* ===================================================================== *)
(** * routes/exam_routes.py: the answer-key resolver *)
(* ===================================================================== *)

Module ExamRoutes.
Import Py.

Definition LETTERS : list string := ["A"; "B"; "C"; "D"; "E"; "F"].

(** [_normalize_correct_value], on plain values. The model follows the
    source on ASCII text, where [isdigit] accepts what [int] reads; on a
    string of several characters that [isdigit] accepts and [int] rejects
    the source raises [ValueError]. *)
Definition _normalize_correct_value (v : pyval) : list string :=
  match v with
  | VNone => []
  | VList l =>
      flat_map (fun x =>
                  if String.eqb (strip (str x)) "" then []
                  else [upper (strip (str x))]) l
  | _ =>
      let s := upper (strip (str v)) in
      if String.eqb s "" then []
      else
        let s := remove_char " " (remove_char "," s) in
        if (String.length s =? 1)%nat then [s]
        else if isdigit s then Grader.digit_letters s
        else List.filter (fun ch => str_in ch LETTERS) (Grader.chars s)
  end.

(** ** The two regular-expression readers

    Both work on ASCII text; [\d] is a digit and [\s] a space character. *)

Definition take_while {A : Type} (p : A -> bool) : list A -> list A :=
  fix go l := match l with
              | x :: r => if p x then x :: go r else []
              | [] => []
              end.

Definition drop_while {A : Type} (p : A -> bool) : list A -> list A :=
  fix go l := match l with
              | x :: r => if p x then go r else l
              | [] => []
              end.

Definition is_sep (c : ascii) : bool :=
  Ascii.eqb c "-" || Ascii.eqb c "_" || Ascii.eqb c " ".

Definition is_dash (c : ascii) : bool := Ascii.eqb c "-" || Ascii.eqb c "_".

Definition is_q (c : ascii) : bool := Ascii.eqb c "Q" || Ascii.eqb c "q".

Definition is_p (c : ascii) : bool := Ascii.eqb c "P" || Ascii.eqb c "p".

(** [_extract_passage_no]: [re.search(r"(\d+)", s)], the first run of
    digits of [str(exam_id or "").strip()]. *)
Definition _extract_passage_no (exam_id : pyval) : option Z :=
  let s := strip (str (py_or exam_id (VStr ""))) in
  let tail := drop_while (fun c => negb (is_digit c)) (list_ascii_of_string s) in
  match take_while is_digit tail with
  | [] => None
  | ds => Some (int_of_digits (string_of_list_ascii ds))
  end.

(** A run of characters matches [\s*[-_ ]\s*]: spaces around one dash or
    underscore, or spaces of which one is a blank. *)
Definition is_sep_run (x : list ascii) : bool :=
  forallb (fun c => is_space c || is_dash c) x
  && match length (List.filter is_dash x) with
     | 0 => existsb (Ascii.eqb " ") x
     | 1 => true
     | _ => false
     end.

(** A run of characters matches [\s*[-_ ]?\s*]. *)
Definition is_opt_sep_run (x : list ascii) : bool :=
  forallb (fun c => is_space c || is_dash c) x
  && (length (List.filter is_dash x) <=? 1)%nat.

(** [_extract_qno]. In each of its three patterns the number returned is
    the run of digits that ends the string, and what stands between that
    run and the digits (or the start) before it decides the match. All
    lists below are read from the end of the string backwards.

    - [(\d+)\s*[-_ ]\s*(?:Q|q)?\s*(\d+)$]
    - [[Pp]\s*(\d+)\s*[-_ ]?\s*[Qq]\s*(\d+)$]
    - [(?:^|[^0-9])[Qq]\s*(\d+)$] *)
Definition _extract_qno (qid : string) : option Z :=
  let s := strip qid in
  let rs := rev (list_ascii_of_string s) in
  let ds := take_while is_digit rs in
  let before := drop_while is_digit rs in
  match ds with
  | [] => None
  | _ =>
      let n := int_of_digits (string_of_list_ascii (rev ds)) in
      (* first pattern *)
      let gap := take_while (fun c => negb (is_digit c)) before in
      let left := drop_while (fun c => negb (is_digit c)) before in
      let gap_noq :=
        match drop_while is_space gap with
        | c :: r => if is_q c then r else gap
        | [] => gap
        end in
      let p1 := match left with
                | [] => false
                | _ => is_sep_run gap_noq
                end in
      (* second and third pattern: a Q before the number *)
      let after_ws := drop_while is_space before in
      let p2 :=
        match after_ws with
        | c :: r =>
            is_q c
            && (let gap2 := take_while (fun c => negb (is_digit c)) r in
                let rest := drop_while (fun c => negb (is_digit c)) r in
                is_opt_sep_run gap2
                && match rest with
                   | [] => false
                   | _ =>
                       match drop_while is_space (drop_while is_digit rest) with
                       | c' :: _ => is_p c'
                       | [] => false
                       end
                   end)
        | [] => false
        end in
      let p3 :=
        match after_ws with
        | c :: r =>
            is_q c && match r with
                      | [] => true
                      | c' :: _ => negb (is_digit c')
                      end
        | [] => false
        end in
      if p1 || p2 || p3 then Some n else None
  end.

(** Digits, with single underscores between them. *)
Fixpoint digits_ok (prev_digit : bool) (l : list ascii) : bool :=
  match l with
  | [] => prev_digit
  | c :: r =>
      if is_digit c then digits_ok true r
      else if Ascii.eqb c "_" then prev_digit && digits_ok false r
      else false
  end.

(** [int(x)] of a JSON value, [None] when it raises: an integer, a boolean,
    or a string holding a signed run of digits. *)
Definition py_int (v : pyval) : option Z :=
  match v with
  | VInt n => Some n
  | VBool b => Some (if b then 1 else 0)%Z
  | VStr s =>
      match list_ascii_of_string (strip s) with
      | c :: r =>
          let '(neg, ds) :=
            if Ascii.eqb c "-" then (true, r)
            else if Ascii.eqb c "+" then (false, r)
            else (false, c :: r) in
          if digits_ok false ds
          then let n := int_of_digits
                          (string_of_list_ascii (List.filter is_digit ds)) in
               Some (if neg then (- n)%Z else n)
          else None
      | [] => None
      end
  | _ => None
  end.

(** The first row of the list schema whose [int(r.get("id") or 0)] is the
    passage number. *)
Fixpoint find_row (passage_no : Z) (keys : list pyval) : option dict :=
  match keys with
  | [] => None
  | VDict r :: rest =>
      match py_int (py_or (get "id" r) (VInt 0)) with
      | Some rid => if (rid =? passage_no)%Z then Some r
                    else find_row passage_no rest
      | None => find_row passage_no rest
      end
  | _ :: rest => find_row passage_no rest
  end.

Section Resolver.
(** The questions of the exam set and the index [q_by_id]. *)
Context (q_by_id : dict).

Definition _get_old_to_new_map_for_qid (qid : string) : option dict :=
match get qid q_by_id with
| VDict q =>
    match get "meta" q with
    | VDict meta =>
        match get "old_to_new_letter" meta with
        | VDict m => Some m
        | _ => None
        end
    | _ => None
    end
| _ => None
end.

(** [m.get(v, v)] with [v = x.strip().upper()] *)
Definition remap_letter (m : dict) (x : string) : pyval :=
let v := upper (strip x) in get_default v (VStr v) m.

Definition _remap_if_shuffled (qid : string) (val : pyval) : pyval :=
match _get_old_to_new_map_for_qid qid with
| None | Some [] => val
| Some m =>
    match val with
    | VStr s => remap_letter m s
    | VList l =>
        VList (flat_map (fun x => match x with
                                  | VStr s => [remap_letter m s]
                                  | _ => []
                                  end) l)
    | _ => val
    end
end.

(** [_put]: normalise, remap, and write to [out]. *)
Definition _put (qid : string) (raw_correct : pyval) (out : dict) : dict :=
match _normalize_correct_value raw_correct with
| [] => out
| norm =>
    let val := match norm with
               | [x] => VStr x
               | _ => VList (map VStr norm)
               end in
    let val := _remap_if_shuffled qid val in
    set qid val out
end.

(** Step 1, the list schema, on one question. *)
Definition put_from_row (answers : list pyval) (q : pyval) (out : dict) : dict :=
match q with
| VDict q =>
    let qid := strip (str (get_default "id" (VStr "") q)) in
    if String.eqb qid "" then out
    else
      match _extract_qno qid with
      | None => out
      | Some qno =>
          if (qno =? 0)%Z then out
          else if (1 <=? qno)%Z && (qno <=? Z.of_nat (length answers))%Z
          then _put qid (nth (Z.to_nat (qno - 1)) answers VNone) out
          else out
      end
| _ => out
end.

(** Step 2, the legacy map, on one item. *)
Definition put_from_legacy (kv : string * pyval) (out : dict) : dict :=
let kk := strip (fst kv) in
if startswith "q" (lower kk) then _put kk (snd kv) out else out.

(** Step 3, the fallback to the embedded [correct], on one question. *)
Definition put_from_embedded (q : pyval) (out : dict) : dict :=
match q with
| VDict q =>
    let qid := strip (str (get_default "id" (VStr "") q)) in
    if String.eqb qid "" then out
    else if mem qid out then out
    else _put qid (get "correct" q) out
| _ => out
end.
End Resolver.

(** [q_by_id[qid] = q] over the questions *)
Definition index_questions (questions : list pyval) : dict :=
  fold_left (fun d q =>
               match q with
               | VDict qd =>
                   let qid := strip (str (get_default "id" (VStr "") qd)) in
                   if String.eqb qid "" then d else set qid q d
               | _ => d
               end) questions [].

(** [_build_correct_answers(exam_set)], with [keys] the value that
    [_load_answer_keys()] read from data/answer_keys.json ([{}] when the
    file is missing or unreadable). *)
Definition _build_correct_answers (keys : pyval) (exam_set : dict) : dict :=
  let out : dict := [] in
  let questions :=
    match get_default "questions" (VList []) exam_set with
    | VList l => l
    | _ => []
    end in
  let q_by_id := index_questions questions in
  (* 1) list schema *)
  let out :=
    match _extract_passage_no (get "id" exam_set), keys with
    | Some passage_no, VList rows =>
        match find_row passage_no rows with
        | Some row =>
            match get "answers" row with
            | VList ((_ :: _) as answers) =>
                fold_left (fun out q => put_from_row q_by_id answers q out)
                          questions out
            | _ => out
            end
        | None => out
        end
    | _, _ => out
    end in
  (* 2) legacy dict schema *)
  let out :=
    match keys with
    | VDict items =>
        fold_left (fun out kv => put_from_legacy q_by_id kv out) items out
    | _ => out
    end in
  (* 3) fallback: embedded correct in exam_set *)
  fold_left (fun out q => put_from_embedded q_by_id q out) questions out.

End ExamRoutes.

(* ===================================================================== *)
(** * services/exam_services.py and services/q10_repo.py *)
(* ===================================================================== *)

Module ExamServices.
Import Py.

Definition _LETTERS : list string := ["A"; "B"; "C"; "D"].

(** [_INDEX_TO_LETTER.get(ci, "A")] *)
Definition _INDEX_TO_LETTER (ci : Z) : string :=
  if (ci =? 0)%Z then "A" else if (ci =? 1)%Z then "B"
  else if (ci =? 2)%Z then "C" else if (ci =? 3)%Z then "D" else "A".

Definition _as_str (v : pyval) : string :=
  match v with
  | VNone => ""
  | _ => strip (str v)
  end.

(** [s.replace(p, "")] for a non-empty [p]; [skip] counts the characters
    of a match still to drop. *)
Fixpoint remove_sub (p : string) (skip : nat) (s : string) : string :=
  match s with
  | EmptyString => EmptyString
  | String c r =>
      match skip with
      | S k => remove_sub p k r
      | O => if String.prefix p s
             then remove_sub p (String.length p - 1) r
             else String c (remove_sub p 0 r)
      end
  end.

(** [s[1:]] *)
Definition tail_str (s : string) : string :=
  match s with
  | EmptyString => EmptyString
  | String _ r => r
  end.

(** A passage id that [_norm_pid] reads as the model does: ASCII text, on
    which [isdigit] accepts what [int] reads, of at most 640 characters,
    the digits that [int] reads under every digit limit. *)
Definition plain_pid (s : string) : bool :=
  ascii_str s && (String.length s <=? 640)%nat.

(** [_norm_pid], on plain ids; on other text that [isdigit] accepts the
    source raises [ValueError]. *)
Definition _norm_pid (pid : pyval) : string :=
  let s := upper (_as_str pid) in
  if String.eqb s "" then ""
  else
    let s := if startswith "READING-" s
             then strip (remove_sub "READING-" 0 s) else s in
    if startswith "P" s then
      let tail := strip (tail_str s) in
      if isdigit tail then "P" +:+ str_of_int (int_of_digits tail) else s
    else if isdigit s then "P" +:+ str_of_int (int_of_digits s)
    else s.

(** [_ensure_seq]: every question that is an object gets [meta["seq"]],
    its 1-based position, unless one is recorded. *)
Definition ensure_seq_one (e : nat * pyval) : pyval :=
  match snd e with
  | VDict q =>
      let meta := match get "meta" q with VDict m => m | _ => [] end in
      let meta := if mem "seq" meta then meta
                  else set "seq" (VInt (Z.of_nat (S (fst e)))) meta in
      VDict (set "meta" (VDict meta) q)
  | v => v
  end.

Definition _ensure_seq (exam_set : dict) : dict :=
  match get "questions" exam_set with
  | VList qs =>
      set "questions"
          (VList (map ensure_seq_one (ShuffleService.enumerate qs))) exam_set
  | _ => exam_set
  end.

(** The warnings of the merge, one constructor per message. *)
Inductive warning : Type :=
| W_keys_root_not_list            (* answer_keys.json root is not a list. *)
| W_keys_row_not_found (n : Z)    (* P<n>: not found in answer_keys.json. *)
| W_keys_invalid_answers (n : Z)  (* P<n>: invalid answers list ... *)
| W_keys_q10_not_string (n : Z)   (* P<n>: Q10 answer is not a string. *)
| W_keys_q10_empty (n : Z)        (* P<n>: Q10 answer empty. *)
| W_keys_read_failed (e : exn)    (* answer_keys.json read failed: <e> *)
| W_q10_empty_passage_id          (* Q10 lookup: empty passage_id ... *)
| W_q10_invalid_passage_id (want : string)
| W_q10_not_found (want : string) (* <want>: Q10 not found in q10_bank.json. *)
| W_q10_choices (qid : string) (got : nat)
                                  (* <qid>: Q10 choices expected 6, got <n>. *)
| W_q10_correct_not_injected (qid : string)
                                  (* <qid>: Q10 correct not injected ... *)
| W_full_set_no_passage_id        (* full_set: failed to derive passage_id *)
| W_bank (msg : string).          (* a warning of the bank loaders *)

(** [x[i]] *)
Definition subscript (v : pyval) (i : nat) : result pyval :=
  match v with
  | VList l | VTuple l =>
      match nth_error l i with
      | Some x => Ok x
      | None => Raise IndexError
      end
  | VStr s =>
      match String.get i s with
      | Some c => Ok (VStr (String c EmptyString))
      | None => Raise IndexError
      end
  | VDict _ => Raise KeyError
  | _ => Raise TypeError
  end.

(** [int(v)], raising as Python does *)
Definition int_of (v : pyval) : result Z :=
  match ExamRoutes.py_int v with
  | Some n => Ok n
  | None => Raise (match v with VStr _ => ValueError | _ => TypeError end)
  end.

(** [any(isinstance(x, dict) and _as_str(x.get("id")) == qid for x in qs)] *)
Definition has_question_id (qid : string) (qs : list pyval) : bool :=
  existsb (fun x => match x with
                    | VDict d => String.eqb (_as_str (get "id" d)) qid
                    | _ => false
                    end) qs.

(** [qs = exam_set.get("questions"); if not isinstance(qs, list): qs = []] *)
Definition questions_of (exam_set : dict) : list pyval :=
  match get "questions" exam_set with
  | VList qs => qs
  | _ => []
  end.

(** [f"p{passage_no:02d}_q10"] *)
Definition default_q10_id (passage_no : Z) : string :=
  "p" +:+ (if (0 <=? passage_no)%Z && (passage_no <? 10)%Z then "0" else "")
      +:+ str_of_int passage_no +:+ "_q10".

Section WithFiles.
Context (R : PyRandom).

(** The files under data/, as the loaders read them:
  [_count_passages("mcq", None)],
  [_load_exam_set_from_passages("mcq", None, passage_index)],
  [_load_q9_question_for_passage(passage_id, warnings)] with the
  warnings it appends, the content of q10_bank.json, and the content of
  answer_keys.json as [_read_json] returns it. *)
Context (count_passages : Z)
      (load_exam_set : Z -> result (dict * list warning))
      (load_q9 : string -> result (pyval * list warning))
      (q10_bank : result pyval)
      (answer_keys : result pyval).

(** ** services/q10_repo.py *)

(** [_Q10_BY_PASSAGE.get(passage_no)]: the last item of the bank whose
  [passage_no] is that integer. *)
Definition get_q10_item (passage_no : Z) : result pyval :=
match q10_bank with
| Raise e => Raise e
| Ok (VList data) =>
    Ok (fold_left
          (fun found item =>
             match item with
             | VDict d =>
                 match as_int (get "passage_no" d) with
                 | Some pno => if (pno =? passage_no)%Z then item else found
                 | None => found
                 end
             | _ => found
             end) data VNone)
| Ok _ => Raise ValueError
end.

Definition get_q10_question (passage_no : Z) : result pyval :=
match get_q10_item passage_no with
| Raise e => Raise e
| Ok item =>
    match item with
    | VDict ((_ :: _) as item) =>
        match get "q10" item with
        | VDict q10 =>
            let out := q10 in
            let out := set "id"
                         (VStr ("P" +:+ str_of_int passage_no +:+ "-Q10")) out in
            let out := if truthy (get "type" out) then out
                       else set "type" (VStr "summary") out in
            let out := if negb (mem "prompt" out) && mem "stem" out
                       then set "prompt" (py_or (get "stem" out) (VStr "")) out
                       else out in
            let meta := match get "meta" out with VDict m => m | _ => [] end in
            let meta := if mem "question_no" meta then meta
                        else set "question_no" (VInt 10) meta in
            Ok (VDict (set "meta" (VDict meta) out))
        | _ => Ok VNone
        end
    | _ => Ok VNone
    end
end.

(** ** The summary question of a passage *)

Definition _lookup_q10_correct_from_answer_keys
  (passage_no : Z) (warnings : list warning)
: option string * list warning :=
match answer_keys with
| Raise e => (None, warnings ++ [W_keys_read_failed e])
| Ok (VList payload) =>
    match ExamRoutes.find_row passage_no payload with
    | None | Some [] => (None, warnings ++ [W_keys_row_not_found passage_no])
    | Some row =>
        match get "answers" row with
        | VList answers =>
            if (length answers <? 10)%nat
            then (None, warnings ++ [W_keys_invalid_answers passage_no])
            else
              match nth 9 answers VNone with
              | VStr q10 =>
                  let s := upper (strip q10) in
                  if String.eqb s ""
                  then (None, warnings ++ [W_keys_q10_empty passage_no])
                  else (Some s, warnings)
              | _ => (None, warnings ++ [W_keys_q10_not_string passage_no])
              end
        | _ => (None, warnings ++ [W_keys_invalid_answers passage_no])
        end
    end
| Ok _ => (None, warnings ++ [W_keys_root_not_list])
end.

(** [re.match(r"^P(\d+)$", want, re.I)], the number *)
Definition passage_no_of (want : string) : option Z :=
match want with
| String c ds =>
    if (Ascii.eqb c "P" || Ascii.eqb c "p") && isdigit ds
    then Some (int_of_digits ds) else None
| EmptyString => None
end.

(** The (letter, text) pairs read from the bank's choices *)
Definition q10_choices (choices_raw : pyval) : list (string * string) :=
match choices_raw with
| VList items =>
    flat_map (fun item =>
                match item with
                | VDict d =>
                    let cid := upper (_as_str (get "id" d)) in
                    let text := _as_str (get "text" d) in
                    if negb (String.eqb cid "") && negb (String.eqb text "")
                    then [(cid, text)] else []
                | _ => []
                end) items
| _ => []
end.

(** The result is the question, [VNone] when there is none, or the
  exception raised; the warnings appended so far come with each. *)
Definition _load_q10_question_for_passage
  (passage_id : string) (warnings : list warning)
: result pyval * list warning :=
let want := _norm_pid (VStr passage_id) in
if String.eqb want "" then (Ok VNone, warnings ++ [W_q10_empty_passage_id])
else
  match passage_no_of want with
  | None => (Ok VNone, warnings ++ [W_q10_invalid_passage_id want])
  | Some passage_no =>
      match get_q10_question passage_no with
      | Raise e => (Raise e, warnings)
      | Ok (VDict ((_ :: _) as q10)) =>
          let qid := match _as_str (get "qid" q10) with
                     | EmptyString => default_q10_id passage_no
                     | s => s
                     end in
          let prompt := _as_str (get "prompt" q10) in
          let intro := _as_str (get "intro" q10) in
          match int_of (py_or (get "max_selections" q10) (VInt 3)) with
          | Raise e => (Raise e, warnings)
          | Ok max_sel =>
              let choices_out :=
                q10_choices (get_default "choices" (VList []) q10) in
              if negb (length choices_out =? 6)%nat
              then (Ok VNone,
                    warnings ++ [W_q10_choices qid (length choices_out)])
              else
                let '(correct_q10, warnings) :=
                  _lookup_q10_correct_from_answer_keys passage_no warnings in
                match correct_q10 with
                | None =>
                    (* the warning is appended, then
                       [[ch for ch in correct_q10]] iterates [None] *)
                    (Raise TypeError,
                     warnings ++ [W_q10_correct_not_injected qid])
                | Some correct =>
                    (Ok (VDict
                       [("id", VStr qid);
                        ("type", VStr "summary");
                        ("prompt", VStr prompt);
                        ("intro", VStr intro);
                        ("max_selections", VInt max_sel);
                        ("choices",
                         VList (map (fun c => VTuple [VStr (fst c); VStr (snd c)])
                                    choices_out));
                        ("correct", VList (map VStr (Grader.chars correct)));
                        ("meta", VDict [("question_type", VStr "summary")])]),
                     warnings)
                end
          end
      | Ok _ => (Ok VNone, warnings ++ [W_q10_not_found want])
      end
  end.

(** The Q10 merge of [pick_full_exam_set_for_attempt]: the question is
  appended unless one with its id is present. *)
Definition merge_q10 (exam_set : dict) (passage_id : string)
  (warnings : list warning) : result dict * list warning :=
match _load_q10_question_for_passage passage_id warnings with
| (Raise e, warnings) => (Raise e, warnings)
| (Ok q10_out, warnings) =>
    match q10_out with
    | VDict ((_ :: _) as q10) =>
        let qs := questions_of exam_set in
        let q10_id := _as_str (get "id" q10) in
        if has_question_id q10_id qs then (Ok exam_set, warnings)
        else (Ok (set "questions" (VList (qs ++ [q10_out])) exam_set),
              warnings)
    | _ => (Ok exam_set, warnings)
    end
end.

(** The Q9 merge of [pick_full_exam_set_for_attempt]. *)
Definition merge_q9 (exam_set : dict) (passage_id : string)
  (warnings : list warning) : result dict * list warning :=
match load_q9 passage_id with
| Raise e => (Raise e, warnings)
| Ok (q9, ws) =>
    let warnings := warnings ++ ws in
    match q9 with
    | VDict ((_ :: _) as q9_norm) =>
        let qid := match _as_str (get "id" q9_norm) with
                   | EmptyString => passage_id +:+ "-9"
                   | s => s
                   end in
        let stem := _as_str (get "stem" q9_norm) in
        let raw_choices :=
          get_default "choices"
            (VList [VStr ""; VStr ""; VStr ""; VStr ""]) q9_norm in
        let ci := get_default "correct_index" (VInt 0) q9_norm in
        let ci := match as_int ci with
                  | Some n => if (n <? 0)%Z || (3 <? n)%Z then VInt 0 else ci
                  | None => VInt 0
                  end in
        let correct_letter :=
          _INDEX_TO_LETTER (match as_int ci with Some n => n | None => 0%Z end) in
        match subscript raw_choices 0, subscript raw_choices 1,
              subscript raw_choices 2, subscript raw_choices 3 with
        | Ok c0, Ok c1, Ok c2, Ok c3 =>
            let choices_out :=
              map (fun lc => VTuple [VStr (fst lc); VStr (_as_str (snd lc))])
                  (combine _LETTERS [c0; c1; c2; c3]) in
            let q9_out : dict :=
              [("id", VStr qid); ("type", VStr "single");
               ("prompt", VStr stem); ("choices", VList choices_out);
               ("correct", VList [VStr correct_letter]);
               ("correct_index", ci);
               ("correct_letter", VStr correct_letter);
               ("explanation", get "explanation" q9_norm)] in
            let q9_out := match get "meta" q9_norm with
                          | VDict ((_ :: _) as meta) =>
                              set "meta" (VDict meta) q9_out
                          | _ => q9_out
                          end in
            let qs := questions_of exam_set in
            if has_question_id qid qs then (Ok exam_set, warnings)
            else (Ok (set "questions" (VList (qs ++ [VDict q9_out])) exam_set),
                  warnings)
        | Raise e, _, _, _ | _, Raise e, _, _
        | _, _, Raise e, _ | _, _, _, Raise e => (Raise e, warnings)
        end
    | _ => (Ok exam_set, warnings)
    end
end.

Definition MAX_PASSAGES : Z := 12.

(** [_derive_passage_index] *)
Definition _derive_passage_index (seed passages_count : Z) : Z :=
fst (randrange R passages_count (Random R seed)).

Definition pick_full_exam_set_for_attempt (seed : Z) : result dict :=
let count := Z.min count_passages MAX_PASSAGES in
let passage_index := _derive_passage_index seed count in
match load_exam_set passage_index with
| Raise e => Raise e
| Ok (exam_set, warnings) =>
    let passage_id := _norm_pid (VStr (_as_str (get "id" exam_set))) in
    if String.eqb passage_id "" then Ok (_ensure_seq exam_set)
    else
      match merge_q9 exam_set passage_id warnings with
      | (Raise e, _) => Raise e
      | (Ok exam_set, warnings) =>
          match merge_q10 exam_set passage_id warnings with
          | (Raise e, _) => Raise e
          | (Ok exam_set, _) => Ok (_ensure_seq exam_set)
          end
      end
end.

(** ** The attempt store *)

Record attempt : Type := {
minutes : Z;
started_at : Z;
submitted : bool;
timed_out : bool;
result_ : pyval;
raw_exam_set : dict;
shuffle_seed : Z;
passage_seed : Z;
mode : string;
single_index : Z;
answers : dict;
shuffled_exam_set : option dict
}.

(** Modelled from the spec: core/store.py, the in-memory registry of
  attempts keyed by attempt id with its counter of allocated ids. The
  process state a call of [create_attempt] reads and writes holds, with
  it, the module-level generator of [random] and the clock. *)
Record world : Type := {
ATTEMPT_COUNTER : Z;
ATTEMPTS : list (string * attempt);
global_rng : rng R;
now : Z
}.

(** The outcome comes with the process state the call leaves, also when
  it raises. *)
Definition create_attempt (minutes_ : Z) (mode_ : pyval) (single_index_ : pyval)
  (w : world) : result string * world :=
let counter := (ATTEMPT_COUNTER w + 1)%Z in
let attempt_id := str_of_int counter in
let '(seed, g) := randint R 1 (10 ^ 9) (global_rng w) in
let w1 := {| ATTEMPT_COUNTER := counter; ATTEMPTS := ATTEMPTS w;
             global_rng := g; now := now w |} in
match py_or mode_ (VStr "full") with
| VStr m =>
    let mode_n := lower (strip m) in
    let mode_n := if str_in mode_n ["full"; "single"] then mode_n else "full" in
    let single_index_i :=
      match ExamRoutes.py_int single_index_ with
      | Some n => n
      | None => 1%Z
      end in
    let single_index_i := Z.max 1 (Z.min 10 single_index_i) in
    match pick_full_exam_set_for_attempt seed with
    | Raise e => (Raise e, w1)
    | Ok raw =>
        let raw := _ensure_seq raw in
        let a := {| minutes := minutes_;
                    started_at := now w;
                    submitted := false;
                    timed_out := false;
                    result_ := VNone;
                    raw_exam_set := raw;
                    shuffle_seed := seed;
                    passage_seed := seed;
                    mode := mode_n;
                    single_index := single_index_i;
                    answers := [];
                    shuffled_exam_set := None |} in
        (Ok attempt_id,
         {| ATTEMPT_COUNTER := counter;
            ATTEMPTS := dict_set String.eqb attempt_id a (ATTEMPTS w);
            global_rng := g;
            now := now w |})
    end
| _ => (Raise AttributeError, w1)
end.

End WithFiles.

Arguments ATTEMPT_COUNTER {R} w.
Arguments ATTEMPTS {R} w.
Arguments global_rng {R} w.
Arguments now {R} w.

End ExamServices.

(* ===================================================================== *)
(** * services/shuffle_service.py with object identity *)
(* ===================================================================== *)

(** Lists and dictionaries are objects of a heap, held by reference, so
    that a write through one reference is seen through every other one.
    The module follows what [shuffle_exam_set] allocates and writes; what
    it reads it reads from a snapshot of the heap, with the functions of
    [ShuffleService]. *)
Module ShuffleHeap.
Import Py.

Abbreviation addr := nat.

Inductive val : Type :=
| HNone
| HBool (b : bool)
| HInt (n : Z)
| HStr (s : string)
| HTuple (l : list val)
| HRef (a : addr).

Inductive obj : Type :=
| OList (l : list val)
| ODict (d : list (string * val)).

(** The heap: the object of address [a] is its [a]-th entry; a new object
    is appended. *)
Abbreviation heap := (list obj).

(** A computation on the heap that returns or raises. *)
Definition M (A : Type) : Type := heap -> result A * heap.

Definition ret {A : Type} (a : A) : M A := fun h => (Ok a, h).

Definition raise {A : Type} (e : exn) : M A := fun h => (Raise e, h).

Definition bind {A B : Type} (m : M A) (f : A -> M B) : M B :=
  fun h => match m h with
           | (Ok a, h') => f a h'
           | (Raise e, h') => (Raise e, h')
           end.

Notation "x <- m ;; k" := (bind m (fun x => k))
  (at level 62, m at next level, right associativity).
Notation "m ;;; k" := (bind m (fun _ => k))
  (at level 62, right associativity).

(** A read of the heap *)
Definition reads {A : Type} (f : heap -> A) : M A := fun h => (Ok (f h), h).

(** A new object, with its address *)
Definition alloc (o : obj) : M addr := fun h => (Ok (length h), h ++ [o]).

(** [isinstance(v, dict)] and [isinstance(v, list)], with the content *)
Definition as_dict (h : heap) (v : val) : option (list (string * val)) :=
  match v with
  | HRef a => match h !! a with Some (ODict d) => Some d | _ => None end
  | _ => None
  end.

Definition as_list (h : heap) (v : val) : option (list val) :=
  match v with
  | HRef a => match h !! a with Some (OList l) => Some l | _ => None end
  | _ => None
  end.

(** [d.get(k)] on the dictionary of address [a] *)
Definition getitem (a : addr) (k : string) : M val :=
  reads (fun h => match h !! a with
                  | Some (ODict d) =>
                      match dict_get String.eqb k d with
                      | Some v => v
                      | None => HNone
                      end
                  | _ => HNone
                  end).

(** [d[k] = v] on the dictionary of address [a] *)
Definition setitem (a : addr) (k : string) (v : val) : M unit :=
  fun h => match h !! a with
           | Some (ODict d) =>
               (Ok tt, <[a := ODict (dict_set String.eqb k v d)]> h)
           | _ => (Raise TypeError, h)
           end.

(** [d.pop(k, None)] on the dictionary of address [a] *)
Definition popitem (a : addr) (k : string) : M unit :=
  fun h => match h !! a with
           | Some (ODict d) =>
               (Ok tt, <[a := ODict (dict_pop String.eqb k d)]> h)
           | _ => (Raise TypeError, h)
           end.

(** [l.append(v)] on the list of address [a] *)
Definition append (a : addr) (v : val) : M unit :=
  fun h => match h !! a with
           | Some (OList l) => (Ok tt, <[a := OList (l ++ [v])]> h)
           | _ => (Raise TypeError, h)
           end.

Fixpoint mapM {A B : Type} (f : A -> M B) (l : list A) : M (list B) :=
  match l with
  | [] => ret []
  | x :: r => y <- f x ;; ys <- mapM f r ;; ret (y :: ys)
  end.

(** ** [copy.deepcopy] *)

Abbreviation memo_t := (list (addr * addr)).

(** [for x in items: y.append(deepcopy(x, memo))] *)
Definition copy_items (rec : val -> memo_t -> M (val * memo_t)) (y : addr)
  : list val -> memo_t -> M memo_t :=
  fix go items memo :=
    match items with
    | [] => ret memo
    | x :: r =>
        c <- rec x memo ;;
        append y (fst c) ;;;
        go r (snd c)
    end.

(** [for key, value in x.items(): y[key] = deepcopy(value, memo)] *)
Definition copy_entries (rec : val -> memo_t -> M (val * memo_t)) (y : addr)
  : list (string * val) -> memo_t -> M memo_t :=
  fix go items memo :=
    match items with
    | [] => ret memo
    | (k, x) :: r =>
        c <- rec x memo ;;
        setitem y k (fst c) ;;;
        go r (snd c)
    end.

(** [[deepcopy(a, memo) for a in x]] for a tuple [x] *)
Definition copy_tuple (rec : val -> memo_t -> M (val * memo_t))
  : list val -> memo_t -> M (list val * memo_t) :=
  fix go items memo :=
    match items with
    | [] => ret ([], memo)
    | x :: r =>
        c <- rec x memo ;;
        cs <- go r (snd c) ;;
        ret (fst c :: fst cs, snd cs)
    end.

(** [deepcopy(v, memo)]: an object met before is copied once ([memo]); a
    list or dictionary is registered in [memo] before its items are
    copied. [fuel] is the recursion depth left; Python raises
    [RecursionError] when it runs out. *)
Fixpoint deepcopy (fuel : nat) (v : val) (memo : memo_t) : M (val * memo_t) :=
  match fuel with
  | O => raise RecursionError
  | S fuel' =>
      match v with
      | HRef a =>
          match dict_get Nat.eqb a memo with
          | Some a' => ret (HRef a', memo)
          | None =>
              o <- reads (fun h => h !! a) ;;
              match o with
              | Some (OList items) =>
                  y <- alloc (OList []) ;;
                  memo' <- copy_items (deepcopy fuel') y items
                                      (dict_set Nat.eqb a y memo) ;;
                  ret (HRef y, memo')
              | Some (ODict items) =>
                  y <- alloc (ODict []) ;;
                  memo' <- copy_entries (deepcopy fuel') y items
                                        (dict_set Nat.eqb a y memo) ;;
                  ret (HRef y, memo')
              | None => raise TypeError
              end
          end
      | HTuple items =>
          c <- copy_tuple (deepcopy fuel') items memo ;;
          ret (HTuple (fst c), snd c)
      | _ => ret (v, memo)
      end
  end.

(** ** Reading the heap as a tree *)

Fixpoint snapshot (fuel : nat) (h : heap) (v : val) : pyval :=
  match fuel with
  | O => VNone
  | S fuel' =>
      match v with
      | HNone => VNone
      | HBool b => VBool b
      | HInt n => VInt n
      | HStr s => VStr s
      | HTuple l => VTuple (map (snapshot fuel' h) l)
      | HRef a =>
          match h !! a with
          | Some (OList l) => VList (map (snapshot fuel' h) l)
          | Some (ODict d) =>
              VDict (map (fun kv => (fst kv, snapshot fuel' h (snd kv))) d)
          | None => VNone
          end
      end
  end.

(** The dictionary of address [a], read as a tree *)
Definition snapshot_dict (fuel : nat) (a : addr) : M dict :=
  reads (fun h => match snapshot fuel h (HRef a) with
                  | VDict d => d
                  | _ => []
                  end).

(** ** The shuffle *)

Definition _set_correct_letters (fuel : nat) (q : addr)
    (new_letters : list string) : M unit :=
  qt <- snapshot_dict fuel q ;;
  let qtype := lower (strip (str (py_or (get "type" qt) (VStr "single")))) in
  let is_multi := String.eqb qtype "multi" || (1 <? length new_letters)%nat in
  if is_multi then
    l1 <- alloc (OList (map HStr new_letters)) ;;
    setitem q "correct_letters" (HRef l1) ;;;
    l2 <- alloc (OList (map HStr new_letters)) ;;
    setitem q "correct" (HRef l2) ;;;
    popitem q "correct_letter" ;;;
    popitem q "correct_index"
  else
    let letter := match new_letters with x :: _ => x | [] => "A" end in
    setitem q "correct_letter" (HStr letter) ;;;
    l <- alloc (OList [HStr letter]) ;;
    setitem q "correct" (HRef l) ;;;
    setitem q "correct_index"
      (HInt (if str_in letter ShuffleService._LETTERS
             then Z.of_nat (str_index letter ShuffleService._LETTERS) else 0)) ;;;
    popitem q "correct_letters".

(** [meta = q.get("meta"); if not isinstance(meta, dict): meta = {};
    q["meta"] = meta]: the address of [meta]. *)
Definition meta_of (q : addr) : M addr :=
  m <- getitem q "meta" ;;
  d <- reads (fun h => as_dict h m) ;;
  match m, d with
  | HRef a, Some _ => ret a
  | _, _ =>
      a <- alloc (ODict []) ;;
      setitem q "meta" (HRef a) ;;;
      ret a
  end.

(** A dictionary of letters as a heap object *)
Definition letters_obj (d : dict) : obj :=
  ODict (map (fun kv => (fst kv, match snd kv with
                                 | VStr s => HStr s
                                 | _ => HNone
                                 end)) d).

Section WithRandom.
Context (R : PyRandom).

Definition _shuffle_choices_one (fuel : nat) (q : val) (g : rng R) : M val :=
c <- deepcopy fuel q [] ;;
let q2 := fst c in
match q2 with
| HRef qa =>
    qt <- snapshot_dict fuel qa ;;
    match get "choices" qt with
    | VList ([_; _; _; _] as choices) =>
        let parsed := map ShuffleService.parse_choice choices in
        let correct_before := ShuffleService._get_correct_letters qt in
        let indexed := fst (shuffle R (ShuffleService.enumerate parsed) g) in
        let old_index_to_new_index :=
          ShuffleService.old_index_to_new_index_of indexed in
        let label_to_old_index :=
          ShuffleService.label_to_old_index_of parsed in
        let new_correct :=
          ShuffleService.new_correct_of correct_before label_to_old_index
                                        old_index_to_new_index in
        new_choices <-
          alloc (OList (map (fun e =>
                               HTuple [HStr (ShuffleService.letter_at (fst e));
                                       HStr (snd (snd (snd e)))])
                            (ShuffleService.enumerate indexed))) ;;
        setitem qa "choices" (HRef new_choices) ;;;
        _set_correct_letters fuel qa
          (match new_correct with [] => ["A"] | _ => new_correct end) ;;;
        meta <- meta_of qa ;;
        setitem meta "shuffled_choices" (HBool true) ;;;
        old_to_new <-
          alloc (letters_obj
                   (ShuffleService.old_to_new_of old_index_to_new_index)) ;;
        new_to_old <-
          alloc (letters_obj
                   (ShuffleService.new_to_old_of old_index_to_new_index)) ;;
        setitem meta "old_to_new_letter" (HRef old_to_new) ;;;
        setitem meta "new_to_old_letter" (HRef new_to_old) ;;;
        ret q2
    | _ => ret q2
    end
| _ => ret q2
end.

(** The closing loop of [shuffle_exam_set] on one question *)
Definition set_seq (e : nat * val) : M unit :=
match snd e with
| HRef qa =>
    meta <- meta_of qa ;;
    d <- reads (fun h => as_dict h (HRef meta)) ;;
    match d with
    | Some d =>
        if dict_mem String.eqb "seq" d then ret tt
        else setitem meta "seq" (HInt (Z.of_nat (S (fst e))))
    | None => raise TypeError
    end
| _ => raise AttributeError
end.

Definition shuffle_exam_set (fuel : nat) (exam_set : val) (seed : Z) : M val :=
c <- deepcopy fuel exam_set [] ;;
let out := fst c in
match out with
| HRef oa =>
    qs <- getitem oa "questions" ;;
    l <- reads (fun h => as_list h qs) ;;
    match l with
    | Some ((_ :: _) as qs) =>
        normalized_qs <-
          reads (fun h => List.filter (fun q => match as_dict h q with
                                          | Some _ => true
                                          | None => false
                                          end) qs) ;;
        nq <- alloc (OList normalized_qs) ;;
        setitem oa "questions" (HRef nq) ;;;
        shuffled_questions <-
          mapM (fun e =>
                  let q_seed := (seed * 1000003 + Z.of_nat (fst e))%Z in
                  _shuffle_choices_one fuel (snd e) (Random R q_seed))
               (ShuffleService.enumerate normalized_qs) ;;
        sq <- alloc (OList shuffled_questions) ;;
        setitem oa "questions" (HRef sq) ;;;
        mapM set_seq (ShuffleService.enumerate shuffled_questions) ;;;
        ret out
    | _ => ret out
    end
| _ => raise AttributeError
end.

End WithRandom.

End ShuffleHeap.

(* ===================================================================== *)
(** * Two runs on heaps that differ by a shift of the new addresses *)
(* ===================================================================== *)

Module HeapRel.
Import Py ShuffleHeap.

(** The addresses a value holds *)
Fixpoint refs (v : val) : list addr :=
  match v with
  | HRef a => [a]
  | HTuple l => flat_map refs l
  | _ => []
  end.

Definition obj_refs (o : obj) : list addr :=
  match o with
  | OList l => flat_map refs l
  | ODict d => flat_map (fun kv => refs (snd kv)) d
  end.

(** No object of the heap holds an address outside of it. *)
Definition heap_wf (h : heap) : Prop :=
  Forall (fun o => Forall (fun a => a < length h) (obj_refs o)) h.

(** A dictionary under a map of its values *)
Definition map_entries {V W : Type} (f : V -> W) (e : list (string * V))
  : list (string * W) :=
  map (fun kv => (fst kv, f (snd kv))) e.

Section Shift.
(** [n0] objects are old; the new ones of the second run lie [d] addresses
  further. *)
Context (n0 d : nat).

Definition sh (a : addr) : addr := if (a <? n0)%nat then a else a + d.

Fixpoint shv (v : val) : val :=
match v with
| HRef a => HRef (sh a)
| HTuple l => HTuple (map shv l)
| _ => v
end.

Definition sho (o : obj) : obj :=
match o with
| OList l => OList (map shv l)
| ODict e => ODict (map (fun kv => (fst kv, shv (snd kv))) e)
end.

(** A value all of whose addresses are new *)
Definition fresh (v : val) : Prop := Forall (fun a => n0 <= a) (refs v).

Definition fresh_obj (o : obj) : Prop := Forall (fun a => n0 <= a) (obj_refs o).

(** A copy and its shifted twin *)
Definition twin (v1 v2 : val) : Prop := fresh v1 /\ v2 = shv v1.

Definition twin_addr (a1 a2 : addr) : Prop := n0 <= a1 /\ a2 = sh a1.

Definition shm (memo : memo_t) : memo_t :=
map (fun e => (sh (fst e), sh (snd e))) memo.

Definition twin_memo (m1 m2 : memo_t) : Prop :=
Forall (fun e => n0 <= snd e) m1 /\ m2 = shm m1.
(** A copy with the memo it leaves, in the two runs *)
Definition copy_rel (c1 c2 : val * memo_t) : Prop :=
twin (fst c1) (fst c2) /\ twin_memo (snd c1) (snd c2).
End Shift.

Section Related.
(** The first run starts on [base]; the second on [base ++ X]. *)
Context (base X : heap).

Definition hrel (h1 h2 : heap) : Prop :=
exists F,
  h1 = base ++ F
  /\ h2 = base ++ X ++ map (sho (length base) (length X)) F
  /\ Forall (fresh_obj (length base)) F.

Definition outcome_rel {A B : Type} (Q : A -> B -> Prop)
  (r1 : result A) (r2 : result B) : Prop :=
match r1, r2 with
| Ok a, Ok b => Q a b
| Raise e1, Raise e2 => e1 = e2
| _, _ => False
end.

(** Two computations that keep the heaps related and end alike *)
Definition brel {A B : Type} (Q : A -> B -> Prop) (m1 : M A) (m2 : M B) : Prop :=
forall h1 h2, hrel h1 h2 ->
  hrel (snd (m1 h1)) (snd (m2 h2))
  /\ outcome_rel Q (fst (m1 h1)) (fst (m2 h2)).
End Related.

End HeapRel.

(* ===================================================================== *)
(** * Sample data *)
(* ===================================================================== *)

Module Samples.
Import Py ExamServices.

Definition sample_q1 : dict :=
  [("id", VStr "P1-Q1"); ("type", VStr "single");
   ("prompt", VStr "One cause of the urban heat island effect is:");
   ("choices",
    VList [VTuple [VStr "A"; VStr "Higher city elevation"];
           VTuple [VStr "B"; VStr "Asphalt and concrete re-radiate heat"];
           VTuple [VStr "C"; VStr "Trees heat the air"];
           VTuple [VStr "D"; VStr "Rural areas generate more heat"]]);
   ("correct", VList [VStr "B"])].

Definition sample_q2 : dict :=
  [("id", VStr "P1-Q2"); ("type", VStr "multi");
   ("choices",
    VList [VTuple [VStr "A"; VStr "Providing shade"];
           VTuple [VStr "B"; VStr "Evapotranspiration"];
           VTuple [VStr "C"; VStr "Increasing asphalt coverage"];
           VTuple [VStr "D"; VStr "Stopping wind permanently"]]);
   ("correct", VList [VStr "A"; VStr "B"])].

(** A question whose recorded answer is no letter of A-D *)
Definition sample_q3 : dict :=
  [("id", VStr "P1-Q3"); ("type", VStr "single");
   ("choices", VList [VStr "w"; VStr "x"; VStr "y"; VStr "z"]);
   ("correct", VStr "E")].

Definition sample_exam : dict :=
  [("id", VStr "reading-P1"); ("title", VStr "Reading Passage P1");
   ("questions", VList [VDict sample_q1; VDict sample_q2; VDict sample_q3])].

Definition sample_unresolved : list dict :=
  [ [("id", VStr "P1-Q1"); ("type", VStr "single")];
    [("id", VStr "P1-Q2"); ("type", VStr "multi"); ("correct", VList [])];
    [("id", VStr "P1-Q10"); ("type", VStr "summary"); ("correct", VStr "xyz")] ].

(** The superscript two, U+00B2, which [str.isdigit] accepts and [int]
    rejects *)
(** The superscript two, U+00B2: [isdigit] accepts it and [int] does not. *)
Definition superscript_two : string := String (ascii_of_nat 178) EmptyString.

(** A submission that answers the first question with it *)
Definition superscript_answers : pyval :=
  VDict [("P1-Q1", VStr superscript_two)].

Definition sample_answers : pyval :=
  VDict [("P1-Q1", VStr "A"); ("P1-Q2", VList [VStr "A"; VStr "B"]);
         ("P1-Q10", VList [VStr "A"; VStr "B"; VStr "C"])].

(** An exam set as [_passage_to_exam_set] builds it *)
Definition sample_base : dict :=
  [("id", VStr "reading-P1"); ("title", VStr "Reading Passage P1");
   ("passage", VStr "Urban Trees and Microclimates");
   ("questions",
    VList [VDict [("id", VStr "P1-Q1"); ("type", VStr "single");
                  ("prompt", VStr "One cause of the heat island effect is:");
                  ("choices",
                   VList [VTuple [VStr "A"; VStr "Higher city elevation"];
                          VTuple [VStr "B"; VStr "Asphalt re-radiates heat"];
                          VTuple [VStr "C"; VStr "Trees heat the air"];
                          VTuple [VStr "D"; VStr "Rural areas are hotter"]]);
                  ("correct", VList [VStr "B"]); ("correct_index", VInt 1);
                  ("correct_letter", VStr "B"); ("explanation", VNone)]])].

(** An item of q10_bank.json for passage 1, its sixth choice lettered
    [last] *)
Definition q10_item (last : string) : pyval :=
  VDict [("passage_no", VInt 1); ("title", VStr "Urban Trees");
         ("q10",
          VDict [("qid", VStr "p01_q10"); ("number", VInt 10);
                 ("type", VStr "summary");
                 ("prompt", VStr "Select the three answer choices");
                 ("intro", VStr "Urban trees cool cities.");
                 ("max_selections", VInt 3);
                 ("choices",
                  VList [VDict [("id", VStr "A"); ("text", VStr "s1")];
                         VDict [("id", VStr "B"); ("text", VStr "s2")];
                         VDict [("id", VStr "C"); ("text", VStr "s3")];
                         VDict [("id", VStr "D"); ("text", VStr "s4")];
                         VDict [("id", VStr "E"); ("text", VStr "s5")];
                         VDict [("id", VStr last); ("text", VStr "s6")]])])].

(** answer_keys.json in the list schema, with one row for passage 1 *)
Definition keys_row (answers : list pyval) : pyval :=
  VList [VDict [("id", VInt 1); ("answers", VList answers)]].

Definition nine_answers : list pyval :=
  [VStr "B"; VStr "A"; VStr "C"; VStr "D"; VStr "A";
   VStr "B"; VStr "C"; VStr "D"; VStr "A"].

Definition no_q9 (passage_id : string) : result (pyval * list warning) :=
  Ok (VNone, [W_bank "Q9 bank missing"]).

Definition one_passage (passage_index : Z) : result (dict * list warning) :=
  Ok (sample_base, []).

(** [pick_full_exam_set_for_attempt] over these files *)
Definition sample_pick (keys : result pyval) (seed : Z) : result dict :=
  pick_full_exam_set_for_attempt Lcg.R 1 one_passage no_q9
    (Ok (VList [q10_item "F"])) keys seed.

Definition sample_keys : result pyval :=
  Ok (keys_row (nine_answers ++ [VStr "ABC"])).

Definition sample_world : world Lcg.R :=
  Build_world Lcg.R 0 [] 42%Z 1700000000%Z.

Definition sample_create (w : world Lcg.R) : result string * world Lcg.R :=
  create_attempt Lcg.R 1 one_passage no_q9 (Ok (VList [q10_item "F"]))
    sample_keys 18 (VStr "full") (VInt 1) w.

Definition shuffled_sample : dict :=
  ShuffleService.shuffle_exam_set Lcg.R sample_exam 7.

(** A heap that holds an exam set: the two questions share their list of
    choices and their list of correct letters. *)
Definition sample_heap : ShuffleHeap.heap :=
  [ ShuffleHeap.ODict [("id", ShuffleHeap.HStr "reading-P1");
                       ("questions", ShuffleHeap.HRef 1)];
    ShuffleHeap.OList [ShuffleHeap.HRef 2; ShuffleHeap.HInt 3;
                       ShuffleHeap.HRef 5];
    ShuffleHeap.ODict [("id", ShuffleHeap.HStr "q1");
                       ("type", ShuffleHeap.HStr "single");
                       ("choices", ShuffleHeap.HRef 3);
                       ("correct", ShuffleHeap.HRef 4)];
    ShuffleHeap.OList
      [ShuffleHeap.HTuple [ShuffleHeap.HStr "A"; ShuffleHeap.HStr "ta"];
       ShuffleHeap.HTuple [ShuffleHeap.HStr "B"; ShuffleHeap.HStr "tb"];
       ShuffleHeap.HTuple [ShuffleHeap.HStr "C"; ShuffleHeap.HStr "tc"];
       ShuffleHeap.HTuple [ShuffleHeap.HStr "D"; ShuffleHeap.HStr "td"]];
    ShuffleHeap.OList [ShuffleHeap.HStr "B"];
    ShuffleHeap.ODict [("id", ShuffleHeap.HStr "q2");
                       ("type", ShuffleHeap.HStr "multi");
                       ("choices", ShuffleHeap.HRef 3);
                       ("correct", ShuffleHeap.HRef 4);
                       ("meta", ShuffleHeap.HRef 6)];
    ShuffleHeap.ODict [("seq", ShuffleHeap.HInt 9)] ].

(** The exam set of [sample_heap], read as a tree *)
Definition sample_heap_exam : dict :=
  match ShuffleHeap.snapshot 20 sample_heap (ShuffleHeap.HRef 0) with
  | VDict d => d
  | _ => []
  end.

End Samples.

(* ===================================================================== *)
(** * What the shuffle records on a question *)
(* ===================================================================== *)

Module ShuffleObs.
Import Py.

(** [q["meta"]] when it is a dictionary *)
Definition meta_of (q : dict) : dict :=
  match get "meta" q with VDict m => m | _ => [] end.

(** [q["meta"]["old_to_new_letter"]], the map the resolver reads *)
Definition old_to_new_letter (q : dict) : dict :=
  match get "old_to_new_letter" (meta_of q) with VDict m => m | _ => [] end.

(** [q["meta"]["new_to_old_letter"]] *)
Definition new_to_old_letter (q : dict) : dict :=
  match get "new_to_old_letter" (meta_of q) with VDict m => m | _ => [] end.

End ShuffleObs.

(* ===================================================================== *)
(** * routes/exam_routes.py: the resolver, step by step *)
(* ===================================================================== *)

Module ResolverSteps.
Import Py ExamRoutes.

(** [exam_set.get("questions", []) or []], when it is a list *)
Definition questions_list (exam_set : dict) : list pyval :=
  match get_default "questions" (VList []) exam_set with
  | VList l => l
  | _ => []
  end.

(** What [_build_correct_answers] holds in [out] when it has read the key
    file, before the fallback loop: its steps 1 and 2. *)
Definition from_key_file (keys : pyval) (exam_set : dict) : dict :=
  let out : dict := [] in
  let questions := questions_list exam_set in
  let q_by_id := index_questions questions in
  let out :=
    match _extract_passage_no (get "id" exam_set), keys with
    | Some passage_no, VList rows =>
        match find_row passage_no rows with
        | Some row =>
            match get "answers" row with
            | VList ((_ :: _) as answers) =>
                fold_left (fun out q => put_from_row q_by_id answers q out)
                          questions out
            | _ => out
            end
        | None => out
        end
    | _, _ => out
    end in
  match keys with
  | VDict items =>
      fold_left (fun out kv => put_from_legacy q_by_id kv out) items out
  | _ => out
  end.

End ResolverSteps.

(* ===================================================================== *)
(** * services/exam_services.py: the bank loader *)
(* ===================================================================== *)

Module Loader.
Import Py ExamServices.

(** [_LETTER_TO_INDEX.get(label)] *)
Definition _LETTER_TO_INDEX (label : string) : option nat :=
  if String.eqb label "A" then Some 0
  else if String.eqb label "B" then Some 1
  else if String.eqb label "C" then Some 2
  else if String.eqb label "D" then Some 3
  else None.

(** [_pick_first_key(d, keys)] on a dictionary *)
Fixpoint _pick_first_key (d : dict) (keys : list string) : string * pyval :=
  match keys with
  | [] => ("", VNone)
  | k :: rest => if mem k d then (k, get k d) else _pick_first_key d rest
  end.

Definition is_str (v : pyval) : bool :=
  match v with VStr _ => true | _ => false end.

Definition is_dict (v : pyval) : bool :=
  match v with VDict _ => true | _ => false end.

(** [isinstance(x, (list, tuple)) and len(x) == 2] *)
Definition is_pair (v : pyval) : bool :=
  match v with VList [_; _] | VTuple [_; _] => true | _ => false end.

(** [if label in _LETTER_TO_INDEX: out[_LETTER_TO_INDEX[label]] = text] *)
Definition fill (out : list string) (label text : string) : list string :=
  match _LETTER_TO_INDEX label with
  | Some i => <[i := text]> out
  | None => out
  end.

(** [any(out)] on a list of strings *)
Definition any_text (out : list string) : bool :=
  existsb (fun s => negb (String.eqb s "")) out.

Definition blanks : list string := [""; ""; ""; ""].

Definition W_choices (qid : string) : warning :=
  W_bank (qid +:+ ": choices format not recognized; filled with blanks.").

Definition W_correct (qid : string) : warning :=
  W_bank (qid +:+ ": missing/invalid correct answer; defaulted to A.").

(** The four texts, with the warnings as the call leaves them. *)
Definition _normalize_choices (raw_choices : pyval) (warnings : list warning)
    (qid : string) : list string * list warning :=
  let unrecognized := (blanks, warnings ++ [W_choices qid]) in
  match raw_choices with
  | VList ([_; _; _; _] as l) =>
      if forallb is_str l then (map _as_str l, warnings)
      else if forallb is_dict l then
        let out :=
          fold_left (fun out item =>
                       match item with
                       | VDict d =>
                           fill out (upper (_as_str (get "label" d)))
                                (_as_str (get "text" d))
                       | _ => out
                       end) l blanks in
        if any_text out then (out, warnings) else unrecognized
      else if forallb is_pair l then
        let out :=
          fold_left (fun out item =>
                       match item with
                       | VList [label; text] | VTuple [label; text] =>
                           fill out (upper (_as_str label)) (_as_str text)
                       | _ => out
                       end) l blanks in
        if any_text out then (out, warnings) else unrecognized
      else unrecognized
  | _ => unrecognized
  end.

(** [_LETTER_TO_INDEX] at the letter that a value spells *)
Definition letter_index (v : pyval) : option nat :=
  _LETTER_TO_INDEX (upper (_as_str v)).

(** The index, as the integer [int(ci)] that the caller stores. *)
Definition _normalize_correct_index (q : dict) (warnings : list warning)
    (qid : string) : Z * list warning :=
  let by_index :=
    match as_int (get "correct_index" q) with
    | Some ci => if (0 <=? ci)%Z && (ci <=? 3)%Z then Some ci else None
    | None => None
    end in
  match by_index with
  | Some ci => (ci, warnings)
  | None =>
      let corr := get "correct" q in
      let from_list :=
        match corr with
        | VList (x :: _) => letter_index x
        | _ => None
        end in
      match from_list with
      | Some i => (Z.of_nat i, warnings)
      | None =>
          let from_str :=
            match corr with
            | VStr _ => letter_index corr
            | _ => None
            end in
          match from_str with
          | Some i => (Z.of_nat i, warnings)
          | None => (0%Z, warnings ++ [W_correct qid])
          end
      end
  end.

Definition nl : string := String (ascii_of_nat 10) EmptyString.

(** [pid or 'unknown'] *)
Definition pid_or_unknown (pid : string) : string :=
  if String.eqb pid "" then "unknown" else pid.

Definition insert_choices : pyval :=
  VList [VDict [("label", VStr "A"); ("text", VStr "Insert at [A]")];
         VDict [("label", VStr "B"); ("text", VStr "Insert at [B]")];
         VDict [("label", VStr "C"); ("text", VStr "Insert at [C]")];
         VDict [("label", VStr "D"); ("text", VStr "Insert at [D]")]].

(** The body of the loop of [_normalize_passage_schema] on the question
    at position [idx]: the normalised question, when the entry is an
    object, and the warnings. *)
Definition normalize_question_at (pid : string) (idx : nat) (q : pyval)
    (warnings : list warning) : option dict * list warning :=
  match q with
  | VDict q =>
      let qid := _as_str (get "id" q) in
      let qid :=
        if negb (String.eqb qid "") then qid
        else
          let num := get "number" q in
          match as_int num with
          | Some _ =>
              if negb (String.eqb pid "") then pid +:+ "-" +:+ str num
              else str num
          | None =>
              if negb (String.eqb pid "")
              then pid +:+ "-q" +:+ str_of_int (Z.of_nat (idx + 1))
              else "q" +:+ str_of_int (Z.of_nat (idx + 1))
          end in
      let stem := _as_str (snd (_pick_first_key q ["stem"; "prompt"])) in
      let qtype := _as_str (get "question_type" q) in
      let is_insert := String.eqb qtype "insert_sentence" in
      let stem :=
        if is_insert then
          let sentence := _as_str (get "sentence" q) in
          if negb (String.eqb sentence "") then
            "Look at the four squares [A], [B], [C], [D] that indicate where the following sentence could be added."
            +:+ nl +:+ "Sentence: " +:+ sentence +:+ nl
            +:+ "Where would the sentence best fit?"
          else stem
        else stem in
      let raw_choices :=
        if is_insert then
          match py_or (get "options" q) (get "choices" q) with
          | VNone => insert_choices
          | v => v
          end
        else get "choices" q in
      let '(choices, warnings) := _normalize_choices raw_choices warnings qid in
      let '(ci, warnings) := _normalize_correct_index q warnings qid in
      let meta : dict :=
        if is_insert then
          [("question_type", VStr "insert_sentence");
           ("paragraph_label", get "paragraph_label" q);
           ("paragraph_text", get "paragraph_text" q);
           ("sentence", get "sentence" q)]
        else [] in
      (Some [("id", VStr qid); ("stem", VStr stem);
             ("choices", VList (map VStr choices));
             ("correct_index", VInt ci);
             ("explanation", get "explanation" q);
             ("meta", VDict meta)],
       warnings)
  | _ =>
      (None,
       warnings ++ [W_bank ("passage " +:+ pid_or_unknown pid +:+ ": question["
                            +:+ str_of_int (Z.of_nat idx)
                            +:+ "] not an object; skipped.")])
  end.

(** The loop over [enumerate(qs_raw)] *)
Fixpoint normalize_questions (pid : string) (idx : nat) (qs : list pyval)
    (warnings : list warning) : list dict * list warning :=
  match qs with
  | [] => ([], warnings)
  | q :: rest =>
      let '(q_norm, warnings) := normalize_question_at pid idx q warnings in
      let '(rest_norm, warnings) :=
        normalize_questions pid (S idx) rest warnings in
      (match q_norm with Some d => d :: rest_norm | None => rest_norm end,
       warnings)
  end.

(** [_normalize_passage_schema(p, warnings)]: an entry of the bank that is
    no object has no [get]. *)
Definition _normalize_passage_schema (p : pyval) (warnings : list warning)
  : result (dict * list warning) :=
  match p with
  | VDict p =>
      let pid := _as_str (snd (_pick_first_key p ["id"; "passage_id"])) in
      let title := _as_str (get "title" p) in
      let content :=
        _as_str (snd (_pick_first_key p ["content"; "text"; "passage"])) in
      let '(qs_raw, warnings) :=
        match get "questions" p with
        | VList l => (l, warnings)
        | _ =>
            ([], warnings
                 ++ [W_bank ("passage " +:+ pid_or_unknown pid
                             +:+ ": questions missing or not a list; replaced with empty list.")])
        end in
      let content :=
        if String.eqb content "" then
          match qs_raw with
          | VDict q0 :: _ =>
              let para := _as_str (get "paragraph_text" q0) in
              if negb (String.eqb para "") then para else content
          | _ => content
          end
        else content in
      let '(qs_norm, warnings) := normalize_questions pid 0 qs_raw warnings in
      Ok ([("id", VStr pid); ("title", VStr title); ("content", VStr content);
           ("questions", VList (map VDict qs_norm))],
          warnings)
  | VNone | VBool _ | VInt _ => Raise TypeError
  | _ => Raise AttributeError
  end.

(** [_validate_passages_payload_loose(payload)] *)
Definition _validate_passages_payload_loose (payload : pyval)
  : bool * list string :=
  match payload with
  | VDict d =>
      match get "passages" d with
      | VList [] => (false, ["'passages' is empty."])
      | VList _ => (true, [])
      | _ => (false, ["'passages' must be a list."])
      end
  | _ => (false, ["Root must be an object."])
  end.

(** The body of the loop of [_passage_to_exam_set] on one question *)
Definition exam_question (q : pyval) : result dict :=
  match q with
  | VDict q =>
      let qid := _as_str (get "id" q) in
      let stem := _as_str (get "stem" q) in
      let raw_choices :=
        get_default "choices" (VList [VStr ""; VStr ""; VStr ""; VStr ""]) q in
      let ci := get_default "correct_index" (VInt 0) q in
      let ci := match as_int ci with
                | Some n => if (n <? 0)%Z || (3 <? n)%Z then VInt 0 else ci
                | None => VInt 0
                end in
      let correct_letter :=
        _INDEX_TO_LETTER (match as_int ci with Some n => n | None => 0%Z end) in
      match subscript raw_choices 0, subscript raw_choices 1,
            subscript raw_choices 2, subscript raw_choices 3 with
      | Ok c0, Ok c1, Ok c2, Ok c3 =>
          let choices_pairs :=
            map (fun lc => VTuple [VStr (fst lc); VStr (_as_str (snd lc))])
                (combine _LETTERS [c0; c1; c2; c3]) in
          let out_q : dict :=
            [("id", VStr qid); ("type", VStr "single");
             ("prompt", VStr stem); ("choices", VList choices_pairs);
             ("correct", VList [VStr correct_letter]);
             ("correct_index", ci);
             ("correct_letter", VStr correct_letter);
             ("explanation", get "explanation" q)] in
          Ok (match get "meta" q with
              | VDict ((_ :: _) as meta) => set "meta" (VDict meta) out_q
              | _ => out_q
              end)
      | Raise e, _, _, _ | _, Raise e, _, _
      | _, _, Raise e, _ | _, _, _, Raise e => Raise e
      end
  | _ => Raise AttributeError
  end.

(** The loop of [_passage_to_exam_set]: the first question that raises
    ends it. *)
Fixpoint exam_questions (qs : list pyval) : result (list dict) :=
  match qs with
  | [] => Ok []
  | q :: rest =>
      match exam_question q with
      | Raise e => Raise e
      | Ok d =>
          match exam_questions rest with
          | Raise e => Raise e
          | Ok ds => Ok (d :: ds)
          end
      end
  end.

(** What [for q in v] goes through: the items of a list or tuple, the keys
    of a dictionary, the characters of a string. *)
Definition iterate (v : pyval) : result (list pyval) :=
  match v with
  | VList l | VTuple l => Ok l
  | VDict d => Ok (map (fun kv => VStr (fst kv)) d)
  | VStr s => Ok (map VStr (Grader.chars s))
  | _ => Raise TypeError
  end.

Definition _passage_to_exam_set (p_norm : dict) : result dict :=
  let pid := _as_str (get "id" p_norm) in
  let title := _as_str (get "title" p_norm) in
  let passage_text := _as_str (get "content" p_norm) in
  match iterate (get_default "questions" (VList []) p_norm) with
  | Raise e => Raise e
  | Ok qs =>
      match exam_questions qs with
      | Raise e => Raise e
      | Ok questions_out =>
          let label := if negb (String.eqb pid "")
                       then "Reading Passage " +:+ pid else "Reading Passage" in
          let label := if negb (String.eqb title "")
                       then label +:+ ": " +:+ title else label in
          Ok [("id", VStr (if negb (String.eqb pid "")
                           then "reading-" +:+ pid else "reading"));
              ("title", VStr label);
              ("passage", VStr passage_text);
              ("questions", VList (map VDict questions_out))]
      end
  end.

(** [_load_exam_set_from_passages(bank_key, passages_path, passage_index)],
    with [bank] what the file of the bank gives: nothing when there is no
    file, an exception when it cannot be read as JSON, or its content. *)
Definition _load_exam_set_from_passages (bank : option (result pyval))
    (passage_index : Z) : result (dict * list warning) :=
  match bank with
  | None => Raise OSError
  | Some (Raise e) => Raise e
  | Some (Ok payload) =>
      if negb (fst (_validate_passages_payload_loose payload))
      then Raise ValueError
      else
        let passages_raw :=
          match payload with
          | VDict d =>
              match get_default "passages" (VList []) d with
              | VList l => l
              | _ => []
              end
          | _ => []
          end in
        match passages_raw with
        | [] => Raise ValueError
        | _ =>
            let idx := (passage_index mod Z.of_nat (length passages_raw))%Z in
            let warnings :=
              if negb (idx =? passage_index)%Z
              then [W_bank "passage_index out of range; wrapped by modulo."]
              else [] in
            match _normalize_passage_schema
                    (nth (Z.to_nat idx) passages_raw VNone) warnings with
            | Raise e => Raise e
            | Ok (p_norm, warnings) =>
                match _passage_to_exam_set p_norm with
                | Raise e => Raise e
                | Ok exam_set =>
                    let warnings :=
                      if truthy (get "questions" exam_set) then warnings
                      else warnings
                           ++ [W_bank "Selected passage has zero questions after normalization."] in
                    Ok (exam_set, warnings)
                end
            end
        end
  end.

(** [_count_passages(bank_key, passages_path)]: a file that cannot be read
    counts as one passage; a content that is no object has no [get]. *)
Definition _count_passages (bank : option (result pyval)) : result Z :=
  match bank with
  | None | Some (Raise _) => Ok 1%Z
  | Some (Ok (VDict d)) =>
      match get "passages" d with
      | VList ((_ :: _) as passages) => Ok (Z.of_nat (length passages))
      | _ => Ok 1%Z
      end
  | Some (Ok _) => Raise AttributeError
  end.

(** ** The Q9 bank *)

(** The loop of [_load_q9_question_for_passage] over the passages: the
    first object whose [passage_id], or [id] when it has none, normalises
    to [want]. *)
Fixpoint find_q9_passage (want : string) (passages : list pyval)
  : option dict :=
  match passages with
  | [] => None
  | VDict p :: rest =>
      let got_raw :=
        if mem "passage_id" p then get "passage_id" p else get "id" p in
      let got := _norm_pid got_raw in
      if negb (String.eqb got "") && String.eqb got want then Some p
      else find_q9_passage want rest
  | _ :: rest => find_q9_passage want rest
  end.

(** [_load_q9_question_for_passage(passage_id, warnings)], with [q9_bank]
    what the file of the Q9 bank gives: nothing when there is no file, an
    exception when it cannot be read as JSON, or its content. The result
    is the question, [VNone] when there is none, or the exception raised;
    the warnings as the call leaves them come with each. The message of a
    missing file ends in its path. *)
Definition _load_q9_question_for_passage (q9_bank : option (result pyval))
    (passage_id : string) (warnings : list warning)
  : result pyval * list warning :=
  match q9_bank with
  | None => (Ok VNone, warnings ++ [W_bank "Q9 bank missing"])
  | Some (Raise e) => (Raise e, warnings)
  | Some (Ok (VDict payload)) =>
      match get_default "passages" (VList []) payload with
      | VList ((_ :: _) as passages) =>
          let want := _norm_pid (VStr passage_id) in
          if String.eqb want "" then
            (Ok VNone,
             warnings
             ++ [W_bank "Q9 lookup: empty passage_id after normalization."])
          else
            match find_q9_passage want passages with
            | None =>
                (Ok VNone,
                 warnings
                 ++ [W_bank (want
                             +:+ ": Q9 passage not found in passages_q9.json.")])
            | Some target =>
                match _normalize_passage_schema (VDict target) warnings with
                | Raise e => (Raise e, warnings)
                | Ok (p_norm, warnings) =>
                    match get_default "questions" (VList []) p_norm with
                    | VList (q :: _) => (Ok q, warnings)
                    | _ =>
                        (Ok VNone,
                         warnings
                         ++ [W_bank (want
                                     +:+ ": Q9 questions empty after normalization.")])
                    end
                end
            end
      | _ => (Ok VNone, warnings ++ [W_bank "Q9 bank has no passages."])
      end
  | Some (Ok _) => (Raise AttributeError, warnings)
  end.

(** The content of a Q9 bank that the model reads as Python does: plain,
    and the id of every passage, when it is a string, of at most 640
    characters. *)
Definition plain_q9_bank (payload : pyval) : bool :=
  plain_val payload
  && match payload with
     | VDict d =>
         match get_default "passages" (VList []) d with
         | VList passages =>
             forallb (fun p =>
                        match p with
                        | VDict p =>
                            match (if mem "passage_id" p
                                   then get "passage_id" p else get "id" p) with
                            | VStr s => (String.length s <=? 640)%nat
                            | _ => true
                            end
                        | _ => true
                        end) passages
         | _ => true
         end
     | _ => true
     end.

(** The Q9 loader as [pick_full_exam_set_for_attempt] takes it: the
    question with the warnings the call appends. *)
Definition q9_loader (q9_bank : option (result pyval)) (passage_id : string)
  : result (pyval * list warning) :=
  match _load_q9_question_for_passage q9_bank passage_id [] with
  | (Ok q, ws) => Ok (q, ws)
  | (Raise e, _) => Raise e
  end.

(** [pick_full_exam_set_for_attempt(seed)] on the files under data/: the
    count of the passages, the bank loader and the Q9 loader read the
    banks; the Q10 bank and the answer keys are read as before. *)
Definition pick_full_from_files (R : PyRandom)
    (bank q9_bank : option (result pyval)) (q10_bank answer_keys : result pyval)
    (seed : Z) : result dict :=
  match _count_passages bank with
  | Raise e => Raise e
  | Ok count =>
      pick_full_exam_set_for_attempt R count
        (_load_exam_set_from_passages bank) (q9_loader q9_bank)
        q10_bank answer_keys seed
  end.

End Loader.

(* ===================================================================== *)
(** * The questions of an exam set *)
(* ===================================================================== *)

Module Shapes.
Import Py ShuffleService.

(** A single-choice question as the loaders build it: four choices
    lettered A, B, C, D in this order, and one correct letter, the one at
    the correct index. *)
Definition single_question (q : dict) : Prop :=
  get "type" q = VStr "single"
  /\ four_choices q
  /\ map fst (parsed_choices q) = _LETTERS
  /\ exists ci,
      (0 <= ci <= 3)%Z
      /\ get "correct_index" q = VInt ci
      /\ get "correct" q = VList [VStr (letter_at (Z.to_nat ci))]
      /\ _get_correct_letters q = [letter_at (Z.to_nat ci)].

(** A summary question: six choices, each a pair of a non-empty letter and
    a non-empty text, and the characters of a non-empty answer as the
    correct letters. *)
Definition summary_question (q : dict) : Prop :=
  get "type" q = VStr "summary"
  /\ exists cs s,
      get "choices" q
      = VList (map (fun c => VTuple [VStr (fst c); VStr (snd c)]) cs)
      /\ length cs = 6
      /\ Forall (fun c => fst c <> "" /\ snd c <> "") cs
      /\ s <> ""
      /\ get "correct" q = VList (map VStr (Grader.chars s)).

End Shapes.

(* ===================================================================== *)
(** * services/exam_services.py: the exam set of an attempt *)
(* ===================================================================== *)

Module AttemptStore.
Import Py ExamServices.

Section WithRandom.
Context (R : PyRandom).

(** [attempt["shuffled_exam_set"] = shuffled] *)
Definition with_shuffled (a : attempt) (shuffled : dict) : attempt :=
{| minutes := minutes a;
   started_at := started_at a;
   submitted := submitted a;
   timed_out := timed_out a;
   result_ := result_ a;
   raw_exam_set := raw_exam_set a;
   shuffle_seed := shuffle_seed a;
   passage_seed := passage_seed a;
   mode := mode a;
   single_index := single_index a;
   answers := answers a;
   shuffled_exam_set := Some shuffled |}.

(** [get_exam_set_for_attempt(attempt_id)], called with the id of an
    attempt. The attempts of the store hold a raw exam set, so the branch
    that picks one anew is not taken; [int(seed or 1)] reads a seed of 0
    as 1. The outcome comes with the store the call leaves. *)
Definition get_exam_set_for_attempt (attempt_id : string) (w : world R)
  : result dict * world R :=
match dict_get String.eqb attempt_id (ATTEMPTS w) with
| None => (Raise ValueError, w)
| Some a =>
    match shuffled_exam_set a with
    | Some cached => (Ok cached, w)
    | None =>
        let raw := raw_exam_set a in
        let seed := if (shuffle_seed a =? 0)%Z then 1%Z else shuffle_seed a in
        let shuffled := ShuffleService.shuffle_exam_set R raw seed in
        let shuffled := _ensure_seq shuffled in
        (Ok shuffled,
         {| ATTEMPT_COUNTER := ATTEMPT_COUNTER w;
            ATTEMPTS := dict_set String.eqb attempt_id
                          (with_shuffled a shuffled) (ATTEMPTS w);
            global_rng := global_rng w;
            now := now w |})
    end
end.

End WithRandom.

End AttemptStore.

(* ===================================================================== *)
(** * More samples *)
(* ===================================================================== *)

Module MoreSamples.
Import Py ExamServices Loader Samples.

(** Four choices given with their labels, out of order *)
Definition labelled : list dict :=
  [ [("label", VStr "c"); ("text", VStr "Increasing asphalt coverage")];
    [("label", VStr "A"); ("text", VStr "Providing shade")];
    [("label", VStr " d "); ("text", VStr "Stopping wind permanently")];
    [("label", VStr "B"); ("text", VStr "Evapotranspiration")] ].

(** A passage as the bank holds it: a question with plain choices, an
    entry that is no object, and a question without an id whose choices
    are labelled. *)
Definition sample_passage : dict :=
  [("id", VStr "P1"); ("title", VStr "Urban Trees");
   ("content", VStr "Urban trees cool cities.");
   ("questions",
    VList [VDict [("id", VStr "P1-Q1");
                  ("stem", VStr "One cause of the heat island effect is:");
                  ("choices",
                   VList [VStr "Higher city elevation";
                          VStr "Asphalt re-radiates heat";
                          VStr "Trees heat the air";
                          VStr "Rural areas are hotter"]);
                  ("correct_index", VInt 1)];
           VInt 3;
           VDict [("number", VInt 2);
                  ("prompt", VStr "Trees cool the air by:");
                  ("choices", VList (map VDict labelled));
                  ("correct", VList [VStr "b"])]])].

Definition sample_bank : dict := [("passages", VList [VDict sample_passage])].

(** The summary question of passage 1, as the loader and as the
    repository return it *)
Definition sample_q10 : dict :=
  match fst (_load_q10_question_for_passage (Ok (VList [q10_item "F"]))
               sample_keys "P1" []) with
  | Ok (VDict q) => q
  | _ => []
  end.

Definition sample_q10_repo : dict :=
  match get_q10_question (Ok (VList [q10_item "F"])) 1 with
  | Ok (VDict q) => q
  | _ => []
  end.

(** The exam set picked for seed 5 *)
Definition sample_picked : dict :=
  match sample_pick sample_keys 5 with
  | Ok E => E
  | Raise _ => []
  end.

(** A Q9 bank: one passage with a sentence to insert *)
Definition sample_q9_bank : dict :=
  [("passages",
    VList [VDict [("passage_id", VStr "p01");
                  ("questions",
                   VList [VDict [("id", VStr "P1-Q9");
                                 ("question_type", VStr "insert_sentence");
                                 ("sentence", VStr "Trees also slow the wind.");
                                 ("correct", VStr "c")]])]])].

(** The exam set picked for seed 5 from the files *)
Definition sample_picked_files : dict :=
  match pick_full_from_files Lcg.R (Some (Ok (VDict sample_bank)))
          (Some (Ok (VDict sample_q9_bank))) (Ok (VList [q10_item "F"]))
          sample_keys 5 with
  | Ok E => E
  | Raise _ => []
  end.

End MoreSamples.

(* ===================================================================== *)
(** * Properties *)
(* ===================================================================== *)

(* ===================================================================== *)
(** * Dictionaries *)
(* ===================================================================== *)

Module DictFacts.
Import Py.

Section Generic.
Context {K V : Type} (eqb : K -> K -> bool).
Hypothesis eqb_spec : forall a b, reflect (a = b) (eqb a b).

Lemma dict_get_set_eq (k : K) (v : V) (d : list (K * V)) :
  dict_get eqb k (dict_set eqb k v d) = Some v.
Proof.
  induction d as [|[k' v'] d IH]; cbn.
  - destruct (eqb_spec k k); congruence.
  - destruct (eqb_spec k k') as [->|Hne]; cbn.
    + destruct (eqb_spec k' k'); congruence.
    + destruct (eqb_spec k k'); [congruence|assumption].
Qed.

Lemma dict_get_set_ne (k k' : K) (v : V) (d : list (K * V)) :
  k <> k' -> dict_get eqb k (dict_set eqb k' v d) = dict_get eqb k d.
Proof.
  intros Hne. induction d as [|[k2 v2] d IH]; cbn.
  - destruct (eqb_spec k k'); congruence.
  - destruct (eqb_spec k' k2) as [->|Hne2]; cbn.
    + destruct (eqb_spec k k2); congruence.
    + destruct (eqb_spec k k2); [reflexivity|assumption].
Qed.

Lemma dict_get_pop_eq (k : K) (d : list (K * V)) :
  dict_get eqb k (dict_pop eqb k d) = None.
Proof.
  induction d as [|[k' v'] d IH]; cbn; [reflexivity|].
  destruct (eqb_spec k k') as [->|Hne]; [assumption|].
  cbn. destruct (eqb_spec k k'); [congruence|assumption].
Qed.

Lemma dict_get_pop_ne (k k' : K) (d : list (K * V)) :
  k <> k' -> dict_get eqb k (dict_pop eqb k' d) = dict_get eqb k d.
Proof.
  intros Hne. induction d as [|[k2 v2] d IH]; cbn; [reflexivity|].
  destruct (eqb_spec k' k2) as [->|Hne2]; cbn.
  - destruct (eqb_spec k k2); congruence.
  - destruct (eqb_spec k k2); [reflexivity|assumption].
Qed.

(** A dictionary filled by assignments in a loop, the keys pairwise
    different: each key reads the value assigned to it. *)
Lemma dict_get_fold_set {E : Type} (key : E -> K) (val : E -> V)
    (l : list E) (d0 : list (K * V)) (e : E) :
  NoDup (map key l) -> In e l ->
  dict_get eqb (key e)
    (fold_left (fun d x => dict_set eqb (key x) (val x) d) l d0)
  = Some (val e).
Proof.
  revert d0. induction l as [|x l IH]; intros d0 Hnd Hin; [destruct Hin|].
  cbn in Hnd. apply NoDup_cons in Hnd as [Hx Hnd].
  destruct Hin as [->|Hin]; cbn.
  - clear IH. assert (Hstay : forall d, dict_get eqb (key e) d = Some (val e) ->
      dict_get eqb (key e)
        (fold_left (fun d x => dict_set eqb (key x) (val x) d) l d)
      = Some (val e)).
    { induction l as [|y l IHl]; intros d Hd; [exact Hd|].
      cbn in Hx, Hnd. apply NoDup_cons in Hnd as [_ Hnd].
      apply not_elem_of_cons in Hx as [Hne Hx].
      cbn. apply IHl; [exact Hx|exact Hnd|].
      rewrite dict_get_set_ne; [exact Hd|exact Hne]. }
    apply Hstay. apply dict_get_set_eq.
  - apply IH; assumption.
Qed.

(** What such a dictionary holds under a key was assigned in the loop. *)
Lemma dict_get_fold_set_inv {E : Type} (key : E -> K) (val : E -> V)
    (l : list E) (d0 : list (K * V)) (k : K) (v : V) :
  dict_get eqb k
    (fold_left (fun d x => dict_set eqb (key x) (val x) d) l d0) = Some v ->
  (exists e, In e l /\ v = val e) \/ dict_get eqb k d0 = Some v.
Proof.
  revert d0. induction l as [|x l IH]; intros d0 H; [right; exact H|].
  cbn in H. apply IH in H as [(e & He & ->)|H].
  - left. exists e. split; [right; exact He|reflexivity].
  - destruct (eqb_spec k (key x)) as [->|Hne].
    + rewrite dict_get_set_eq in H. injection H as <-.
      left. exists x. split; [left; reflexivity|reflexivity].
    + rewrite dict_get_set_ne in H by exact Hne. right. exact H.
Qed.
End Generic.

Lemma get_set_eq (k : string) (v : pyval) (d : dict) : get k (set k v d) = v.
Proof. unfold get, set. rewrite (dict_get_set_eq _ String.eqb_spec). reflexivity. Qed.

Lemma get_set_ne (k k' : string) (v : pyval) (d : dict) :
  k <> k' -> get k (set k' v d) = get k d.
Proof.
  intros H. unfold get, set.
  rewrite (dict_get_set_ne _ String.eqb_spec) by exact H. reflexivity.
Qed.

Lemma get_pop_eq (k : string) (d : dict) : get k (pop k d) = VNone.
Proof. unfold get, pop. rewrite (dict_get_pop_eq _ String.eqb_spec). reflexivity. Qed.

Lemma get_pop_ne (k k' : string) (d : dict) :
  k <> k' -> get k (pop k' d) = get k d.
Proof.
  intros H. unfold get, pop.
  rewrite (dict_get_pop_ne _ String.eqb_spec) by exact H. reflexivity.
Qed.

Lemma mem_set_ne (k k' : string) (v : pyval) (d : dict) :
  k <> k' -> mem k (set k' v d) = mem k d.
Proof.
  intros H. unfold mem, dict_mem, set.
  rewrite (dict_get_set_ne _ String.eqb_spec) by exact H. reflexivity.
Qed.

End DictFacts.

(** Reads of a dictionary through a chain of assignments and pops *)
Ltac dict_simpl :=
  repeat first
    [ rewrite DictFacts.get_set_eq
    | rewrite DictFacts.get_pop_eq
    | rewrite DictFacts.get_set_ne by discriminate
    | rewrite DictFacts.get_pop_ne by discriminate ].

(* ===================================================================== *)
(** * The shuffle *)
(* ===================================================================== *)

Module ShuffleFacts.
Import Py ShuffleService DictFacts Samples.

(** ** Enumerations and letters *)

Lemma combine_seq_lookup {A : Type} (l : list A) (s i j : nat) (x : A) :
  combine (seq s (length l)) l !! i = Some (j, x)
  <-> j = s + i /\ l !! i = Some x.
Proof.
  revert s i. induction l as [|y l IH]; intros s i; cbn.
  - split; [intros H; discriminate|intros [_ H]; discriminate].
  - destruct i as [|i]; cbn.
    + split; [intros [= <- <-]; split; [lia|reflexivity]
             |intros [-> [= ->]]; f_equal; f_equal; lia].
    + rewrite IH. split; intros [-> H]; (split; [lia|exact H]).
Qed.

Lemma enumerate_lookup {A : Type} (l : list A) (i j : nat) (x : A) :
  enumerate l !! i = Some (j, x) <-> j = i /\ l !! i = Some x.
Proof. unfold enumerate. rewrite combine_seq_lookup. reflexivity. Qed.

Lemma enumerate_lookup_Some {A : Type} (l : list A) (i : nat) (x : A) :
  l !! i = Some x -> enumerate l !! i = Some (i, x).
Proof. intros H. apply enumerate_lookup. auto. Qed.

Lemma map_enumerate_lookup {A B : Type} (f : nat * A -> B) (l : list A)
    (k : nat) (x : A) :
  l !! k = Some x -> map f (enumerate l) !! k = Some (f (k, x)).
Proof.
  intros H. rewrite list_lookup_fmap, (enumerate_lookup_Some l k x H).
  reflexivity.
Qed.

Lemma enumerate_length {A : Type} (l : list A) :
  length (enumerate l) = length l.
Proof.
  unfold enumerate. rewrite length_combine, length_seq. lia.
Qed.

Lemma enumerate_map_snd {A : Type} (l : list A) : map snd (enumerate l) = l.
Proof.
  unfold enumerate. generalize 0. induction l as [|x l IH]; intros s; cbn.
  - reflexivity.
  - f_equal. apply IH.
Qed.

Lemma enumerate_map_fst {A : Type} (l : list A) :
  map fst (enumerate l) = seq 0 (length l).
Proof.
  unfold enumerate. generalize 0. induction l as [|x l IH]; intros s; cbn.
  - reflexivity.
  - f_equal. apply IH.
Qed.

Lemma enumerate_In {A : Type} (l : list A) (i : nat) (x : A) :
  In (i, x) (enumerate l) <-> l !! i = Some x.
Proof.
  rewrite <- list_elem_of_In, list_elem_of_lookup. split.
  - intros [k Hk]. apply enumerate_lookup in Hk as [-> Hk]. exact Hk.
  - intros H. exists i. apply enumerate_lookup_Some. exact H.
Qed.

Lemma str_in_LETTERS (x : string) :
  str_in x _LETTERS = true <-> x = "A" \/ x = "B" \/ x = "C" \/ x = "D".
Proof.
  unfold str_in, _LETTERS. cbn [existsb].
  rewrite !orb_true_iff, !String.eqb_eq. intuition discriminate.
Qed.

Lemma letter_at_in (i : nat) : i < 4 -> str_in (letter_at i) _LETTERS = true.
Proof.
  intros H. do 4 (destruct i as [|i]; [reflexivity|]). lia.
Qed.

Lemma letter_at_inj (i j : nat) :
  i < 4 -> j < 4 -> letter_at i = letter_at j -> i = j.
Proof.
  intros Hi Hj.
  do 4 (destruct i as [|i]; [do 4 (destruct j as [|j]; [cbn; congruence|]); lia|]).
  lia.
Qed.

Lemma letter_clean (x : string) :
  str_in x _LETTERS = true -> upper (strip x) = x.
Proof.
  intros H. apply str_in_LETTERS in H as [->|[->|[->| ->]]]; reflexivity.
Qed.

Lemma parse_choice_letter (i : nat) (t : string) :
  parse_choice (VTuple [VStr (letter_at i); VStr t]) = (letter_at i, t).
Proof.
  do 4 (destruct i as [|i]; [reflexivity|]). destruct i; reflexivity.
Qed.

Lemma as_letter_list_letters (L : list string) :
  Forall (fun x => str_in x _LETTERS = true) L ->
  _as_letter_list (VList (map VStr L)) = L.
Proof.
  unfold _as_letter_list.
  induction 1 as [|x L Hx HL IH]; [reflexivity|].
  cbn [map flat_map str]. rewrite IH, (letter_clean x Hx).
  apply str_in_LETTERS in Hx as [->|[->|[->| ->]]]; reflexivity.
Qed.

(** ** [_set_correct_letters] *)

Lemma set_correct_letters_reads (d : dict) (L : list string) :
  L <> [] -> Forall (fun x => str_in x _LETTERS = true) L ->
  correct_letters_of (_set_correct_letters d L) = Some L
  /\ get "correct" (_set_correct_letters d L) = VList (map VStr L)
  /\ get "choices" (_set_correct_letters d L) = get "choices" d
  /\ get "meta" (_set_correct_letters d L) = get "meta" d.
Proof.
  intros Hne HL. unfold _set_correct_letters.
  destruct (String.eqb _ "multi" || (1 <? length L)%nat) eqn:Em.
  - unfold correct_letters_of, first_letter_list. dict_simpl.
    rewrite (as_letter_list_letters L HL).
    destruct L as [|x L]; [congruence|]. auto.
  - apply orb_false_iff in Em as [_ Hlen]. apply Nat.ltb_ge in Hlen.
    destruct L as [|x [|y L]]; [congruence| |cbn in Hlen; lia].
    unfold correct_letters_of, first_letter_list. dict_simpl.
    change (VList [VStr x]) with (VList (map VStr [x])).
    rewrite (as_letter_list_letters [x] HL). cbn. auto.
Qed.

Lemma correct_letters_of_set_meta (d : dict) (v : pyval) :
  correct_letters_of (set "meta" v d) = correct_letters_of d.
Proof.
  unfold correct_letters_of, first_letter_list, correct_index_letter.
  dict_simpl. reflexivity.
Qed.

Lemma get_correct_letters_top (d : dict) (L : list string) :
  correct_letters_of d = Some L -> _get_correct_letters d = L.
Proof. intros H. unfold _get_correct_letters. rewrite H. reflexivity. Qed.

(** ** One question *)

Section WithRandom.
Context (R : PyRandom).

Local Abbreviation indexed_of := (ShuffleService.indexed_of R).
Local Abbreviation new_letters_of := (ShuffleService.new_letters_of R).

Lemma shuffle_choices_one_eq (q : dict) (g : rng R) :
  four_choices q ->
  exists meta,
    fst (_shuffle_choices_one R q g)
    = set "meta" (VDict meta)
        (_set_correct_letters
           (set "choices" (VList (new_choices_of (indexed_of q g))) q)
           (new_letters_of q g)).
Proof.
  intros (c0 & c1 & c2 & c3 & Hc).
  unfold _shuffle_choices_one, new_letters_of, indexed_of, parsed_choices.
  rewrite Hc.
  destruct (shuffle R _ g) as [indexed g'] eqn:Es. cbn [fst].
  eexists. reflexivity.
Qed.

Lemma shuffle_choices_one_other (q : dict) (g : rng R) :
  ~ four_choices q -> fst (_shuffle_choices_one R q g) = q.
Proof.
  intros Hn. unfold _shuffle_choices_one.
  destruct (get "choices" q) as [| | | |l| |] eqn:Hc; try reflexivity.
  destruct l as [|c0 [|c1 [|c2 [|c3 [|c4 l]]]]]; try reflexivity.
  exfalso. apply Hn. exists c0, c1, c2, c3. exact Hc.
Qed.

(** *** The two index maps *)

Lemma old_index_to_new_index_get {A : Type} (indexed : list (nat * A))
    (new_i : nat) (e : nat * A) :
  NoDup (map fst indexed) -> indexed !! new_i = Some e ->
  dict_get Nat.eqb (fst e) (old_index_to_new_index_of indexed) = Some new_i.
Proof.
  intros Hnd He. unfold old_index_to_new_index_of.
  apply (dict_get_fold_set Nat.eqb Nat.eqb_spec
           (fun x : nat * (nat * A) => fst (snd x)) fst
           (enumerate indexed) [] (new_i, e)).
  - rewrite <- (map_map snd fst), enumerate_map_snd. exact Hnd.
  - apply enumerate_In. exact He.
Qed.

Lemma old_index_to_new_index_bound {A : Type} (indexed : list (nat * A))
    (old_i new_i : nat) :
  dict_get Nat.eqb old_i (old_index_to_new_index_of indexed) = Some new_i ->
  new_i < length indexed.
Proof.
  unfold old_index_to_new_index_of. intros H.
  apply (dict_get_fold_set_inv Nat.eqb Nat.eqb_spec
           (fun x : nat * (nat * A) => fst (snd x)) fst) in H
    as [([i e] & He & ->)|H]; [|discriminate].
  apply enumerate_In in He. apply lookup_lt_Some in He. exact He.
Qed.

Lemma label_to_old_index_get (parsed : list (string * string))
    (old_i : nat) (lab txt : string) :
  NoDup (map fst parsed) ->
  Forall (fun p => str_in (fst p) _LETTERS = true) parsed ->
  parsed !! old_i = Some (lab, txt) ->
  dict_get String.eqb lab (label_to_old_index_of parsed) = Some old_i.
Proof.
  intros Hnd Hin Hp. unfold label_to_old_index_of.
  set (key := fun e : nat * (string * string) =>
                if str_in (fst (snd e)) _LETTERS then fst (snd e)
                else letter_at (fst e)).
  assert (Hfold : forall l d,
    fold_left (fun d e =>
                 let lab := fst (snd e) in
                 if str_in lab _LETTERS
                 then dict_set String.eqb lab (fst e) d
                 else dict_set String.eqb (letter_at (fst e)) (fst e) d) l d
    = fold_left (fun d e => dict_set String.eqb (key e) (fst e) d) l d).
  { induction l as [|e l IH]; intros d; [reflexivity|].
    cbn [fold_left]. rewrite IH. unfold key.
    destruct (str_in (fst (snd e)) _LETTERS); reflexivity. }
  rewrite Hfold.
  rewrite Forall_forall in Hin.
  assert (Hkeys : map key (enumerate parsed) = map fst parsed).
  { rewrite <- (enumerate_map_snd parsed) at 2. rewrite map_map.
    apply map_ext_in. intros [i p] Hi. unfold key. cbn [fst snd].
    apply enumerate_In in Hi.
    rewrite (Hin p); [reflexivity|].
    eapply list_elem_of_lookup_2. exact Hi. }
  assert (Hl : str_in lab _LETTERS = true).
  { apply (Hin (lab, txt)). eapply list_elem_of_lookup_2. exact Hp. }
  assert (Hk : key (old_i, (lab, txt)) = lab).
  { unfold key. cbn [fst snd]. rewrite Hl. reflexivity. }
  rewrite <- Hk at 1.
  apply (dict_get_fold_set String.eqb String.eqb_spec key fst
           (enumerate parsed) [] (old_i, (lab, txt))).
  - rewrite Hkeys. exact Hnd.
  - apply enumerate_In. exact Hp.
Qed.

(** *** What the shuffled question holds *)

Lemma set_correct_letters_get_other (d : dict) (L : list string) (k : string) :
  k <> "correct_letters" -> k <> "correct" -> k <> "correct_letter" ->
  k <> "correct_index" ->
  get k (_set_correct_letters d L) = get k d.
Proof.
  intros H1 H2 H3 H4. unfold _set_correct_letters.
  destruct (_ || _);
    repeat first [rewrite get_pop_ne by assumption
                 |rewrite get_set_ne by assumption]; reflexivity.
Qed.

Lemma four_choices_parsed (q : dict) :
  four_choices q -> length (parsed_choices q) = 4.
Proof.
  intros (c0 & c1 & c2 & c3 & Hc). unfold parsed_choices. rewrite Hc.
  reflexivity.
Qed.

Lemma shuffled_choices (q : dict) (g : rng R) :
  four_choices q ->
  get "choices" (fst (_shuffle_choices_one R q g))
  = VList (new_choices_of (indexed_of q g)).
Proof.
  intros H4. destruct (shuffle_choices_one_eq q g H4) as [meta ->].
  rewrite get_set_ne by discriminate.
  rewrite set_correct_letters_get_other by discriminate.
  apply get_set_eq.
Qed.

Lemma shuffled_correct (q : dict) (g : rng R) :
  four_choices q ->
  Forall (fun x => str_in x _LETTERS = true) (new_letters_of q g) ->
  correct_letters_of (fst (_shuffle_choices_one R q g))
  = Some (new_letters_of q g)
  /\ get "correct" (fst (_shuffle_choices_one R q g))
     = VList (map VStr (new_letters_of q g)).
Proof.
  intros H4 HL. destruct (shuffle_choices_one_eq q g H4) as [meta ->].
  rewrite correct_letters_of_set_meta, get_set_ne by discriminate.
  assert (Hne : new_letters_of q g <> []).
  { unfold new_letters_of. destruct (new_correct_of _ _ _); discriminate. }
  destruct (set_correct_letters_reads
              (set "choices" (VList (new_choices_of (indexed_of q g))) q)
              (new_letters_of q g) Hne HL) as (H1 & H2 & _).
  split; assumption.
Qed.

Lemma new_correct_of_none (cb : list string) (l2o : list (string * nat))
    (o2n : list (nat * nat)) :
  Forall (fun lab => str_in lab _LETTERS = false) cb ->
  new_correct_of cb l2o o2n = [].
Proof.
  induction 1 as [|lab cb Hlab Hcb IH]; [reflexivity|].
  unfold new_correct_of in *. cbn [flat_map]. rewrite Hlab, IH. reflexivity.
Qed.

Lemma new_correct_of_cons (lab : string) (cb : list string)
    (l2o : list (string * nat)) (o2n : list (nat * nat)) :
  new_correct_of (lab :: cb) l2o o2n
  = new_correct_of [lab] l2o o2n ++ new_correct_of cb l2o o2n.
Proof.
  unfold new_correct_of. cbn [flat_map]. rewrite app_nil_r. reflexivity.
Qed.

(** *** Under a shuffle that permutes *)

Section Permuting.
Hypothesis Hperm : shuffle_permutes R.
Context (q : dict) (g : rng R).
Hypothesis H4 : four_choices q.

Lemma indexed_perm :
  Permutation (enumerate (parsed_choices q)) (indexed_of q g).
Proof. apply Hperm. Qed.

Lemma indexed_length : length (indexed_of q g) = 4.
Proof.
  rewrite <- (Permutation_length indexed_perm), enumerate_length.
  apply four_choices_parsed. exact H4.
Qed.

Lemma indexed_nodup : NoDup (map fst (indexed_of q g)).
Proof.
  rewrite <- (Permutation_map fst indexed_perm), enumerate_map_fst.
  apply NoDup_seq.
Qed.

Lemma new_letters_in :
  Forall (fun x => str_in x _LETTERS = true) (new_letters_of q g).
Proof.
  unfold new_letters_of.
  set (o2n := old_index_to_new_index_of (indexed_of q g)).
  set (l2o := label_to_old_index_of (parsed_choices q)).
  assert (H : Forall (fun x => str_in x _LETTERS = true)
                (new_correct_of (_get_correct_letters q) l2o o2n)).
  { unfold new_correct_of.
    induction (_get_correct_letters q) as [|lab cb IH]; [constructor|].
    cbn [flat_map]. apply Forall_app. split; [|exact IH].
    destruct (negb _); [constructor|].
    destruct (dict_get String.eqb lab l2o) as [old_i|]; [|constructor].
    destruct (dict_get Nat.eqb old_i o2n) as [new_i|] eqn:En; [|constructor].
    constructor; [|constructor].
    apply letter_at_in. rewrite <- indexed_length.
    eapply old_index_to_new_index_bound. exact En. }
  destruct (new_correct_of _ _ _); [|exact H].
  constructor; [reflexivity|constructor].
Qed.
End Permuting.

(** *** The texts at a letter *)

Lemma texts_of_label (l : list (string * string)) (i : nat) (lab txt : string) :
  NoDup (map fst l) -> l !! i = Some (lab, txt) ->
  map snd (List.filter (fun p => String.eqb (fst p) lab) l) = [txt].
Proof.
  revert i. induction l as [|[k v] l IH]; intros i Hnd Hi; [discriminate|].
  cbn [map fst] in Hnd. apply NoDup_cons in Hnd as [Hk Hnd].
  destruct i as [|i]; cbn in Hi.
  - injection Hi as -> ->. cbn [List.filter fst]. rewrite String.eqb_refl.
    cbn [map snd]. f_equal.
    clear IH Hnd. induction l as [|[k v] l IH]; [reflexivity|].
    cbn [map fst] in Hk. apply not_elem_of_cons in Hk as [Hne Hk].
    cbn [List.filter fst].
    destruct (String.eqb_spec k lab) as [->|_]; [congruence|]. apply IH, Hk.
  - cbn [List.filter fst].
    destruct (String.eqb_spec k lab) as [->|_].
    + exfalso. apply Hk. apply list_elem_of_fmap. exists (lab, txt).
      split; [reflexivity|]. eapply list_elem_of_lookup_2. exact Hi.
    + eapply IH; eassumption.
Qed.

Lemma LETTERS_nodup : NoDup _LETTERS.
Proof.
  unfold _LETTERS.
  repeat (constructor;
          [rewrite ?not_elem_of_cons; repeat split;
           try discriminate; apply not_elem_of_nil|]).
  constructor.
Qed.

(** The (letter, text) pairs of the shuffled choices. *)
Lemma shuffled_parsed (q : dict) (g : rng R) :
  four_choices q ->
  parsed_choices (fst (_shuffle_choices_one R q g))
  = map (fun e => (letter_at (fst e), snd (snd (snd e))))
        (enumerate (indexed_of q g)).
Proof.
  intros H4. unfold parsed_choices at 1. rewrite (shuffled_choices q g H4).
  unfold new_choices_of. rewrite map_map. apply map_ext.
  intros e. apply parse_choice_letter.
Qed.

Section Preserving.
Hypothesis Hperm : shuffle_permutes R.
Context (q : dict) (g : rng R).
Hypothesis H4 : four_choices q.
Hypothesis Hwl : well_lettered q.

Let q1 : dict := fst (_shuffle_choices_one R q g).

(** Every letter of A-D labels one choice. *)
Lemma letter_is_label (lab : string) :
  str_in lab _LETTERS = true ->
  exists old_i txt, parsed_choices q !! old_i = Some (lab, txt).
Proof.
  intros Hlab. destruct Hwl as [Hnd Hin].
  assert (Hincl : incl _LETTERS (map fst (parsed_choices q))).
  { apply NoDup_length_incl.
    - apply NoDup_ListNoDup. exact Hnd.
    - rewrite length_map, (four_choices_parsed q H4). reflexivity.
    - intros x Hx. apply in_map_iff in Hx as (p & <- & Hp).
      rewrite Forall_forall in Hin. apply list_elem_of_In in Hp.
      specialize (Hin p Hp).
      apply str_in_LETTERS in Hin as [->|[->|[->| ->]]]; cbn; tauto. }
  assert (Hl : In lab _LETTERS).
  { apply str_in_LETTERS in Hlab as [->|[->|[->| ->]]]; cbn; tauto. }
  apply Hincl, in_map_iff in Hl as ([lab' txt] & Hf & Hp). cbn in Hf. subst lab'.
  apply list_elem_of_In, list_elem_of_lookup in Hp as [old_i Hp].
  exists old_i, txt. exact Hp.
Qed.

(** The letter that a correct letter becomes carries the same text. *)
Lemma correct_letter_moves (lab : string) :
  str_in lab _LETTERS = true ->
  flat_map (texts_at q1)
    (new_correct_of [lab] (label_to_old_index_of (parsed_choices q))
       (old_index_to_new_index_of (indexed_of q g)))
  = texts_at q lab.
Proof.
  intros Hlab.
  destruct (letter_is_label lab Hlab) as (old_i & txt & Hp).
  destruct Hwl as [Hnd Hin].
  pose proof (label_to_old_index_get _ _ _ _ Hnd Hin Hp) as Hl2o.
  assert (Hmem : In (old_i, (lab, txt)) (indexed_of q g)).
  { eapply Permutation_in; [apply (indexed_perm Hperm)|].
    apply enumerate_In. exact Hp. }
  apply list_elem_of_In, list_elem_of_lookup in Hmem as [new_i Hn].
  pose proof (old_index_to_new_index_get _ _ _
                (indexed_nodup Hperm q g) Hn) as Ho2n.
  cbn [fst] in Ho2n.
  unfold new_correct_of. cbn [flat_map]. rewrite Hlab. cbn [negb].
  rewrite Hl2o, Ho2n. cbn [app flat_map]. rewrite app_nil_r.
  unfold texts_at at 2. rewrite (texts_of_label _ _ _ _ Hnd Hp).
  unfold texts_at, q1. rewrite (shuffled_parsed q g H4).
  apply (texts_of_label _ new_i).
  - rewrite map_map. cbn [fst].
    rewrite <- (map_map fst letter_at), enumerate_map_fst.
    rewrite (indexed_length Hperm q g H4). apply LETTERS_nodup.
  - rewrite list_lookup_fmap, (enumerate_lookup_Some _ _ _ Hn).
    reflexivity.
Qed.

Lemma new_correct_texts (cb : list string) :
  Forall (fun x => str_in x _LETTERS = true) cb ->
  flat_map (texts_at q1)
    (new_correct_of cb (label_to_old_index_of (parsed_choices q))
       (old_index_to_new_index_of (indexed_of q g)))
  = flat_map (texts_at q) cb.
Proof.
  induction 1 as [|lab cb Hlab Hcb IH]; [reflexivity|].
  rewrite new_correct_of_cons, flat_map_app, IH,
    (correct_letter_moves lab Hlab).
  reflexivity.
Qed.

Lemma new_correct_nonempty (cb : list string) :
  cb <> [] -> Forall (fun x => str_in x _LETTERS = true) cb ->
  new_correct_of cb (label_to_old_index_of (parsed_choices q))
    (old_index_to_new_index_of (indexed_of q g)) <> [].
Proof.
  intros Hne Hcb Hnil.
  pose proof (new_correct_texts cb Hcb) as Ht. rewrite Hnil in Ht.
  destruct Hcb as [|lab cb Hlab Hcb]; [congruence|].
  cbn [flat_map] in Ht.
  destruct (letter_is_label lab Hlab) as (old_i & txt & Hp).
  unfold texts_at at 1 in Ht.
  rewrite (texts_of_label _ _ _ _ (proj1 Hwl) Hp) in Ht. discriminate.
Qed.

(** The texts marked correct are those marked correct before. *)
Lemma shuffle_one_preserves :
  _get_correct_letters q <> [] ->
  Forall (fun x => str_in x _LETTERS = true) (_get_correct_letters q) ->
  correct_letters_of q1 = Some (new_letters_of q g)
  /\ get "correct" q1 = VList (map VStr (new_letters_of q g))
  /\ flat_map (texts_at q1) (new_letters_of q g) = correct_texts q.
Proof.
  intros Hne Hcb.
  destruct (shuffled_correct q g H4 (new_letters_in Hperm q g H4))
    as [H1 H2].
  split; [exact H1|]. split; [exact H2|].
  unfold new_letters_of.
  pose proof (new_correct_nonempty _ Hne Hcb) as Hnn.
  destruct (new_correct_of _ _ _) as [|x nc] eqn:En; [congruence|].
  rewrite <- En. apply new_correct_texts. exact Hcb.
Qed.
End Preserving.

Lemma set_seq_get (i : nat) (q : dict) (k : string) :
  k <> "meta" -> get k (set_seq i q) = get k q.
Proof. intros H. unfold set_seq. rewrite get_set_ne by exact H. reflexivity. Qed.

(** ** The exam set *)

Lemma dict_entries_map {A : Type} (f : A -> dict) (l : list A) :
  flat_map (fun q => match q with VDict d => [d] | _ => [] end)
           (map (fun e => VDict (f e)) l)
  = map f l.
Proof. induction l as [|x l IH]; cbn; [reflexivity|]. f_equal. exact IH. Qed.

(** The [k]-th question of the result is the [k]-th question that is an
    object, shuffled under the sub-seed [seed * 1000003 + k] and given its
    sequence number. *)
Lemma shuffle_exam_set_nth (E : dict) (seed : Z) (k : nat) (q : dict) :
  dict_questions E !! k = Some q ->
  dict_questions (shuffle_exam_set R E seed) !! k
  = Some (set_seq (S k)
            (fst (_shuffle_choices_one R q
                    (Random R (seed * 1000003 + Z.of_nat k)%Z)))).
Proof.
  unfold dict_questions, shuffle_exam_set.
  destruct (get "questions" E) as [| | | |qs| |] eqn:Hq;
    try (intros H; discriminate).
  destruct qs as [|q0 qs]; [intros H; discriminate|].
  set (nq := flat_map _ (q0 :: qs)). intros Hk.
  rewrite get_set_eq.
  rewrite (dict_entries_map (fun e => set_seq (S (fst e)) (snd e))).
  apply (map_enumerate_lookup (fun e => set_seq (S (fst e)) (snd e))).
  apply (map_enumerate_lookup
           (fun e => fst (_shuffle_choices_one R (snd e)
                            (Random R (seed * 1000003 + Z.of_nat (fst e))%Z)))).
  exact Hk.
Qed.

Lemma set_seq_correct_letters (i : nat) (q : dict) :
  correct_letters_of (set_seq i q) = correct_letters_of q.
Proof. unfold set_seq. apply correct_letters_of_set_meta. Qed.

Lemma set_seq_parsed (i : nat) (q : dict) :
  parsed_choices (set_seq i q) = parsed_choices q.
Proof.
  unfold parsed_choices. rewrite set_seq_get by discriminate. reflexivity.
Qed.

(** ** The claims on the exam set *)

(** C3: for a 4-choice question with distinct labels of A-D and a
    non-empty set of correct letters of A-D, the texts at the correct
    letters after [shuffle_exam_set] are the texts at the correct letters
    before it, letter by letter. *)
Theorem shuffle_preserves_correct_texts (E : dict) (seed : Z) (k : nat)
    (q : dict) :
  shuffle_permutes R ->
  dict_questions E !! k = Some q ->
  four_choices q -> well_lettered q ->
  _get_correct_letters q <> [] ->
  Forall (fun x => str_in x _LETTERS = true) (_get_correct_letters q) ->
  exists q',
    dict_questions (shuffle_exam_set R E seed) !! k = Some q'
    /\ correct_texts q' = correct_texts q
    /\ get "correct" q' = VList (map VStr (_get_correct_letters q')).
Proof.
  intros Hperm Hk H4 Hwl Hne Hcb.
  eexists. split; [apply shuffle_exam_set_nth; exact Hk|].
  set (g := Random R (seed * 1000003 + Z.of_nat k)%Z).
  destruct (shuffle_one_preserves Hperm q g H4 Hwl Hne Hcb)
    as (Hc & Hget & Htexts).
  assert (Hl : _get_correct_letters
                 (set_seq (S k) (fst (_shuffle_choices_one R q g)))
               = new_letters_of q g).
  { apply get_correct_letters_top. rewrite set_seq_correct_letters.
    exact Hc. }
  split.
  - unfold correct_texts at 1. rewrite Hl. unfold texts_at.
    rewrite set_seq_parsed. exact Htexts.
  - rewrite Hl, set_seq_get by discriminate. exact Hget.
Qed.

(** C8, as amended: after [shuffle_exam_set] a question with exactly 4
    choices carries the letters A, B, C, D in this order, and a question
    with another number of choices, a 6-choice summary question among
    them, keeps the choices it had. *)
Theorem shuffle_letters (E : dict) (seed : Z) (k : nat) (q : dict) :
  shuffle_permutes R ->
  dict_questions E !! k = Some q ->
  exists q',
    dict_questions (shuffle_exam_set R E seed) !! k = Some q'
    /\ (four_choices q ->
        exists t0 t1 t2 t3,
          get "choices" q'
          = VList [VTuple [VStr "A"; VStr t0]; VTuple [VStr "B"; VStr t1];
                   VTuple [VStr "C"; VStr t2]; VTuple [VStr "D"; VStr t3]])
    /\ (~ four_choices q -> get "choices" q' = get "choices" q).
Proof.
  intros Hperm Hk.
  eexists. split; [apply shuffle_exam_set_nth; exact Hk|].
  set (g := Random R (seed * 1000003 + Z.of_nat k)%Z).
  rewrite set_seq_get by discriminate. split.
  - intros H4. rewrite (shuffled_choices q g H4).
    pose proof (indexed_length Hperm q g H4) as Hlen.
    destruct (indexed_of q g) as [|e0 [|e1 [|e2 [|e3 [|e4 l]]]]];
      try discriminate.
    do 4 eexists. reflexivity.
  - intros Hn. rewrite (shuffle_choices_one_other q g Hn). reflexivity.
Qed.

(** C10: a 4-choice question none of whose correct letters is of A-D
    leaves [shuffle_exam_set] with the correct answer [["A"]]. *)
Theorem shuffle_defaults_to_A (E : dict) (seed : Z) (k : nat) (q : dict) :
  dict_questions E !! k = Some q ->
  four_choices q ->
  Forall (fun lab => str_in lab _LETTERS = false) (_get_correct_letters q) ->
  exists q',
    dict_questions (shuffle_exam_set R E seed) !! k = Some q'
    /\ get "correct" q' = VList [VStr "A"]
    /\ _get_correct_letters q' = ["A"].
Proof.
  intros Hk H4 Hcb.
  eexists. split; [apply shuffle_exam_set_nth; exact Hk|].
  set (g := Random R (seed * 1000003 + Z.of_nat k)%Z).
  assert (HL : new_letters_of q g = ["A"]).
  { unfold new_letters_of. rewrite (new_correct_of_none _ _ _ Hcb).
    reflexivity. }
  assert (HA : Forall (fun x => str_in x _LETTERS = true) (new_letters_of q g)).
  { rewrite HL. constructor; [reflexivity|constructor]. }
  destruct (shuffled_correct q g H4 HA) as [Hc Hget].
  rewrite HL in Hc, Hget. split.
  - rewrite set_seq_get by discriminate. exact Hget.
  - apply get_correct_letters_top. rewrite set_seq_correct_letters.
    exact Hc.
Qed.

End WithRandom.

(** ** The sample generator permutes *)

Lemma lcg_shuffle_from_perm {A : Type} (i : nat) (x : list A) (g : Z) :
  Permutation x (fst (Lcg.shuffle_from i x g)).
Proof.
  revert x g. induction i as [|i IH]; intros x g; [reflexivity|].
  cbn [Lcg.shuffle_from]. destruct (Lcg.randbelow (S i + 1) g) as [j g'].
  etransitivity; [|apply IH].
  unfold Lcg.swap.
  destruct (x !! S i) as [a|] eqn:Ha; [|reflexivity].
  destruct (x !! j) as [b|] eqn:Hb; [|reflexivity].
  symmetry. apply Permutation_insert_swap; assumption.
Qed.

Lemma lcg_permutes : shuffle_permutes Lcg.R.
Proof. intros A x g. apply lcg_shuffle_from_perm. Qed.

(** ** The claims on a sample *)

Lemma sample_q2_well_lettered : well_lettered sample_q2.
Proof.
  split.
  - cbn. apply LETTERS_nodup.
  - repeat constructor.
Qed.

Lemma shuffle_preserves_correct_texts_witness :
  exists q',
    dict_questions (shuffle_exam_set Lcg.R sample_exam 7) !! 1 = Some q'
    /\ correct_texts q' = correct_texts sample_q2
    /\ get "correct" q' = VList (map VStr (_get_correct_letters q')).
Proof.
  apply (shuffle_preserves_correct_texts Lcg.R sample_exam 7 1 sample_q2).
  - exact lcg_permutes.
  - reflexivity.
  - do 4 eexists. reflexivity.
  - exact sample_q2_well_lettered.
  - discriminate.
  - repeat constructor.
Defined.

Lemma shuffle_letters_witness :
  exists q',
    dict_questions (shuffle_exam_set Lcg.R sample_exam 7) !! 0 = Some q'
    /\ (four_choices sample_q1 ->
        exists t0 t1 t2 t3,
          get "choices" q'
          = VList [VTuple [VStr "A"; VStr t0]; VTuple [VStr "B"; VStr t1];
                   VTuple [VStr "C"; VStr t2]; VTuple [VStr "D"; VStr t3]])
    /\ (~ four_choices sample_q1 -> get "choices" q' = get "choices" sample_q1).
Proof.
  apply (shuffle_letters Lcg.R sample_exam 7 0 sample_q1).
  - exact lcg_permutes.
  - reflexivity.
Defined.

Lemma shuffle_defaults_to_A_witness :
  exists q',
    dict_questions (shuffle_exam_set Lcg.R sample_exam 7) !! 2 = Some q'
    /\ get "correct" q' = VList [VStr "A"]
    /\ _get_correct_letters q' = ["A"].
Proof.
  apply (shuffle_defaults_to_A Lcg.R sample_exam 7 2 sample_q3).
  - reflexivity.
  - do 4 eexists. reflexivity.
  - repeat constructor.
Defined.

End ShuffleFacts.

Module GraderFacts.
Import Py Grader Samples.

(** ** Plain text stays plain *)

Lemma all_chars_lstrip (p : ascii -> bool) (s : string) :
  all_chars p s = true -> all_chars p (lstrip s) = true.
Proof.
  induction s as [|c s IH]; [reflexivity|]. cbn [lstrip].
  destruct (is_space c); [|intros H; exact H].
  cbn [all_chars]. intros H. apply andb_true_iff in H as [_ H]. auto.
Qed.

Lemma all_chars_rstrip (p : ascii -> bool) (s : string) :
  all_chars p s = true -> all_chars p (rstrip s) = true.
Proof.
  induction s as [|c s IH]; [reflexivity|]. cbn [rstrip].
  destruct (all_space (String c s)); [reflexivity|].
  cbn [all_chars]. intros H. apply andb_true_iff in H as [H1 H2].
  rewrite H1, IH by exact H2. reflexivity.
Qed.

Lemma all_chars_strip (p : ascii -> bool) (s : string) :
  all_chars p s = true -> all_chars p (strip s) = true.
Proof.
  intros H. unfold strip. apply all_chars_rstrip, all_chars_lstrip, H.
Qed.

Lemma all_chars_remove_char (p : ascii -> bool) (c : ascii) (s : string) :
  all_chars p s = true -> all_chars p (remove_char c s) = true.
Proof.
  induction s as [|x s IH]; [reflexivity|]. cbn [remove_char all_chars].
  intros H. apply andb_true_iff in H as [H1 H2].
  destruct (Ascii.eqb x c); [auto|].
  cbn [all_chars]. rewrite H1, IH by exact H2. reflexivity.
Qed.

Lemma upper_char_ascii (c : ascii) :
  ascii_char c = true -> ascii_char (upper_char c) = true.
Proof.
  destruct c as [[] [] [] [] [] [] [] []]; vm_compute; intros H;
    first [reflexivity|exact H].
Qed.

Lemma lower_char_ascii (c : ascii) :
  ascii_char c = true -> ascii_char (lower_char c) = true.
Proof.
  destruct c as [[] [] [] [] [] [] [] []]; vm_compute; intros H;
    first [reflexivity|exact H].
Qed.

Lemma upper_ascii (s : string) :
  ascii_str s = true -> ascii_str (upper s) = true.
Proof.
  unfold ascii_str, upper.
  induction s as [|c s IH]; [reflexivity|]. cbn [map_string all_chars].
  intros H. apply andb_true_iff in H as [H1 H2].
  rewrite (upper_char_ascii c H1), IH by exact H2. reflexivity.
Qed.

Lemma lower_ascii (s : string) :
  ascii_str s = true -> ascii_str (lower s) = true.
Proof.
  unfold ascii_str, lower.
  induction s as [|c s IH]; [reflexivity|]. cbn [map_string all_chars].
  intros H. apply andb_true_iff in H as [H1 H2].
  rewrite (lower_char_ascii c H1), IH by exact H2. reflexivity.
Qed.

Lemma string_of_uint_ascii (d : Decimal.uint) :
  ascii_str (NilEmpty.string_of_uint d) = true.
Proof.
  unfold ascii_str. induction d; cbn [NilEmpty.string_of_uint all_chars];
    [reflexivity|rewrite IHd; reflexivity..].
Qed.

Lemma str_of_int_ascii (n : Z) : ascii_str (str_of_int n) = true.
Proof.
  unfold str_of_int, NilZero.string_of_int, NilZero.string_of_uint.
  destruct (Z.to_int n) as [d|d]; destruct d;
    try reflexivity; try apply string_of_uint_ascii;
    unfold ascii_str; cbn [all_chars];
    rewrite ?andb_true_l; try apply string_of_uint_ascii; reflexivity.
Qed.

(** [str] of a plain scalar is ASCII text. *)
Lemma plain_scalar_str (v : pyval) :
  plain_scalar v = true -> ascii_str (str v) = true.
Proof.
  destruct v as [|[]|n|s|l|l|d]; cbn [plain_scalar str repr];
    try discriminate; try reflexivity; intros H.
  - apply str_of_int_ascii.
  - exact H.
Qed.

Lemma digit_of_ascii (c : ascii) :
  ascii_char c = true -> is_digit_or_superscript c = true -> is_digit c = true.
Proof.
  destruct c as [[] [] [] [] [] [] [] []]; vm_compute; intros H1 H2;
    first [reflexivity|exact H2|exact H1].
Qed.

(** On ASCII text [isdigit] accepts decimal digits only. *)
Lemma isdigit_of_ascii (s : string) :
  ascii_str s = true -> str_isdigit s = true -> all_chars is_digit s = true.
Proof.
  intros Ha Hd.
  assert (Hd' : all_chars is_digit_or_superscript s = true)
    by (destruct s; [discriminate|exact Hd]).
  clear Hd. unfold ascii_str in Ha.
  induction s as [|c s IH]; [reflexivity|].
  cbn [all_chars] in *.
  apply andb_true_iff in Ha as [Ha1 Ha2].
  apply andb_true_iff in Hd' as [Hd1 Hd2].
  rewrite (digit_of_ascii c Ha1 Hd1), IH by assumption. reflexivity.
Qed.

Lemma get_forallb (P : pyval -> bool) (k : string) (d : dict) :
  P VNone = true ->
  forallb (fun kv => P (snd kv)) d = true -> P (get k d) = true.
Proof.
  intros H0. unfold get. induction d as [|[k' v] d IH]; [intros _; exact H0|].
  cbn [forallb snd dict_get]. intros H. apply andb_true_iff in H as [H1 H2].
  destruct (String.eqb k k'); [exact H1|apply IH, H2].
Qed.

Lemma getlist_forallb (P : pyval -> bool) (k : string)
    (fields : list (string * pyval)) :
  forallb (fun kv => P (snd kv)) fields = true ->
  forallb P (getlist k fields) = true.
Proof.
  unfold getlist. induction fields as [|[k' v] fields IH]; [reflexivity|].
  cbn [forallb snd fst List.filter]. intros H.
  apply andb_true_iff in H as [H1 H2].
  destruct (String.eqb k' k); [|apply IH, H2].
  cbn [map forallb snd]. rewrite H1, IH by exact H2. reflexivity.
Qed.

Lemma plain_scalar_answer (v : pyval) :
  plain_scalar v = true -> plain_answer v = true.
Proof. destruct v; try discriminate; intros H; exact H. Qed.

(** ** The normaliser returns on plain answers *)

Lemma normalize_returns (v : pyval) :
  plain_answer v = true -> exists l, _normalize_letter_list v = Ok l.
Proof.
  intros Hv.
  destruct v as [| | | |l| |]; try discriminate Hv;
    try (eexists; reflexivity).
  all: pose proof (plain_scalar_str _ Hv) as Hs.
  all: apply all_chars_strip, upper_ascii in Hs.
  all: apply (all_chars_remove_char _ ","%char),
             (all_chars_remove_char _ " "%char) in Hs.
  all: unfold _normalize_letter_list; cbv zeta.
  all: match goal with
       | |- context [String.eqb ?s ""] => destruct (String.eqb s "")
       end; [eexists; reflexivity|].
  all: destruct (str_isdigit _) eqn:Ed;
    [unfold digit_letters_of; rewrite (isdigit_of_ascii _ Hs Ed);
     eexists; reflexivity|].
  all: destruct (is_letter_run _); [eexists; reflexivity|].
  all: destruct (str_in _ LETTERS); eexists; reflexivity.
Qed.

Lemma py_or_cases (P : pyval -> bool) (a b : pyval) :
  P a = true -> P b = true -> P (py_or a b) = true.
Proof. intros Ha Hb. unfold py_or. destruct (truthy a); assumption. Qed.

Lemma user_answer_returns (qid : string) (answers : pyval) (form : form_t) :
  plain_answers answers = true -> plain_form form = true ->
  exists l, _get_user_answer_from_sources qid answers form = Ok l.
Proof.
  intros Ha Hf. unfold _get_user_answer_from_sources. cbv zeta.
  destruct (String.eqb _ ""); [eexists; reflexivity|].
  assert (Hform : exists l,
    match form with
    | NoForm => Ok []
    | FormData fields =>
        _normalize_letter_list (VList (getlist ("ans_" +:+ qid) fields))
    | FormGet fields =>
        _normalize_letter_list
          match get ("ans_" +:+ qid) fields with
          | VList _ => get ("ans_" +:+ qid) fields
          | VNone => VList []
          | _ => VList [get ("ans_" +:+ qid) fields]
          end
    end = Ok l).
  { destruct form as [|fields|fields]; [eexists; reflexivity| |];
      apply normalize_returns.
    - cbn [plain_answer]. apply getlist_forallb. exact Hf.
    - pose proof (get_forallb plain_answer ("ans_" +:+ qid) fields eq_refl Hf)
        as Hg.
      destruct (get ("ans_" +:+ qid) fields); try exact Hg; try reflexivity;
        cbn [plain_answer forallb]; cbn [plain_answer] in Hg;
        rewrite Hg; reflexivity. }
  destruct answers as [| | | | | |d]; try exact Hform.
  apply normalize_returns, py_or_cases; apply get_forallb;
    first [reflexivity|exact Ha].
Qed.

Lemma plain_question_fields (q : dict) :
  plain_question q = true ->
  plain_scalar (get "id" q) = true
  /\ (exists s, py_or (get "type" q) (VStr "single") = VStr s
                /\ ascii_str s = true)
  /\ plain_answer (get "correct" q) = true
  /\ plain_answer (get "correct_letters" q) = true
  /\ plain_answer (get "correct_letter" q) = true.
Proof.
  unfold plain_question. rewrite !andb_true_iff.
  intros ((((H1 & H2) & H3) & H4) & H5).
  repeat (apply conj); try assumption.
  destruct (py_or _ _); try discriminate. eexists. split; [reflexivity|exact H2].
Qed.

Lemma plain_question_typed (q : dict) :
  plain_question q = true -> typed_question q.
Proof.
  intros H. destruct (plain_question_fields q H) as (_ & (s & Hs & _) & _).
  unfold typed_question, question_type. rewrite Hs. eexists. reflexivity.
Qed.

Lemma correct_value_plain (q : dict) (ca : pyval) :
  plain_question q = true -> plain_answers ca = true ->
  plain_answer (correct_value q ca) = true.
Proof.
  intros Hq Hca.
  destruct (plain_question_fields q Hq) as (_ & _ & H1 & H2 & H3).
  assert (Hfb : plain_answer
                  (if is_none (get "correct" q)
                   then py_or (get "correct_letters" q) (get "correct_letter" q)
                   else get "correct" q) = true).
  { destruct (is_none _); [apply py_or_cases|]; assumption. }
  unfold correct_value. cbv zeta.
  destruct ca as [| | | | | |d]; try exact Hfb.
  set (qid := strip (str (get_default "id" (VStr "") q))).
  assert (Hv : plain_answer
                 (if is_none (get qid d) then get (upper qid) d
                  else get qid d) = true).
  { destruct (is_none (get qid d)); apply get_forallb;
      first [reflexivity|exact Hca]. }
  destruct (is_none (if is_none (get qid d) then _ else _));
    [exact Hfb|exact Hv].
Qed.

Lemma correct_answer_returns (q : dict) (ca : pyval) :
  plain_question q = true -> plain_answers ca = true ->
  exists l, _get_correct_answer q ca = Ok l.
Proof.
  intros Hq Hca. apply normalize_returns, correct_value_plain; assumption.
Qed.

(** ** The scaled score *)


Lemma table_11_range (k : Z) : (0 <= table_11 k <= 30)%Z.
Proof.
  unfold table_11.
  repeat (destruct (k =? _)%Z; [lia|]). lia.
Qed.

Lemma round_half_even_nearest (a b : Z) :
  (0 < b)%Z -> is_nearest (round_half_even a b) a b.
Proof.
  intros Hb. unfold is_nearest, round_half_even.
  pose proof (Z.div_mod a b ltac:(lia)) as Hdm.
  pose proof (Z.mod_pos_bound a b Hb) as Hr.
  destruct (2 * (a mod b) <? b)%Z eqn:E1; [apply Z.ltb_lt in E1; lia|].
  apply Z.ltb_ge in E1.
  destruct (b <? 2 * (a mod b))%Z eqn:E2; [apply Z.ltb_lt in E2; lia|].
  apply Z.ltb_ge in E2.
  destruct (Z.even (a / b)); lia.
Qed.

Lemma round_half_even_bounds (a b n : Z) :
  (0 < b)%Z -> (0 <= a <= n * b)%Z -> (0 <= round_half_even a b <= n)%Z.
Proof.
  intros Hb Ha. unfold round_half_even.
  pose proof (Z.div_mod a b ltac:(lia)) as Hdm.
  pose proof (Z.mod_pos_bound a b Hb) as Hr.
  assert (0 <= a / b)%Z by (apply Z.div_pos; lia).
  assert (a / b <= n)%Z.
  { apply Z.div_le_upper_bound; lia. }
  assert (a / b = n -> a mod b = 0)%Z by nia.
  destruct (2 * (a mod b) <? b)%Z eqn:E1; [lia|].
  apply Z.ltb_ge in E1.
  assert (a / b < n)%Z by lia.
  destruct (b <? 2 * (a mod b))%Z; [lia|].
  destruct (Z.even (a / b)); lia.
Qed.


(** Both scores of a raw score are those of the raw score kept within
    [0..total]. *)
Lemma scale_clamps (raw total : Z) :
  (0 < total)%Z -> total <> 11%Z ->
  scale_reading_score raw total
  = scale_reading_score (Z.max 0 (Z.min raw total)) total
  /\ scale_reading_score_exact raw total
     = scale_reading_score_exact (Z.max 0 (Z.min raw total)) total.
Proof.
  intros Hpos Hne. unfold scale_reading_score, scale_reading_score_exact.
  destruct (total =? 11)%Z eqn:E; [apply Z.eqb_eq in E; lia|].
  destruct (total <=? 0)%Z eqn:E0; [apply Z.leb_le in E0; lia|].
  cbv zeta.
  replace (Z.max 0 (Z.min (Z.max 0 (Z.min raw total)) total))
    with (Z.max 0 (Z.min raw total)) by lia.
  split; reflexivity.
Qed.

Lemma agrees_on_pairs : forallb agree_on (score_pairs 300) = true.
Proof. vm_compute. reflexivity. Qed.

(** For every total up to 300 the source returns, and the quotient it
    computes in binary64 rounds as the exact quotient does. *)
Lemma scale_reading_score_upto_300 (raw total : Z) :
  (0 < total <= 300)%Z ->
  scale_reading_score raw total = Ok (scale_reading_score_exact raw total).
Proof.
  intros Ht.
  destruct (Z.eq_dec total 11%Z) as [->|Hne]; [reflexivity|].
  destruct (scale_clamps raw total ltac:(lia) Hne) as [-> ->].
  set (sp := Z.max 0 (Z.min raw total)).
  assert (Hsp : (0 <= sp <= total)%Z) by (subst sp; lia).
  pose proof (proj1 (forallb_forall agree_on (score_pairs 300))
                agrees_on_pairs (sp, total)) as H.
  assert (Hin : In (sp, total) (score_pairs 300)).
  { unfold score_pairs. apply in_flat_map. exists (Z.to_nat total). split.
    - apply in_seq. lia.
    - apply in_map_iff. exists (Z.to_nat sp). split.
      + f_equal; lia.
      + apply in_seq. lia. }
  specialize (H Hin). unfold agree_on in H. cbn [fst snd] in H.
  destruct (scale_reading_score sp total) as [r|e]; [|discriminate].
  apply Z.eqb_eq in H. rewrite H. reflexivity.
Qed.

Lemma scale_reading_score_range (raw total s : Z) :
  scale_reading_score raw total = Ok s -> (0 <= s <= 30)%Z.
Proof.
  unfold scale_reading_score.
  destruct (total =? 11)%Z; [intros [= <-]; lia|].
  destruct (total <=? 0)%Z; [intros [= <-]; lia|].
  cbv zeta.
  destruct (float_of_int _); [|discriminate].
  destruct (float_of_int _); [|discriminate].
  destruct (round_float _); [|discriminate].
  intros [= <-]. lia.
Qed.




(** ** Questions without a resolved correct answer *)

Lemma score_empty_correct (user : list string) :
  _score_single user [] = (0%Z, 1%Z, false)
  /\ _score_multi_exact user [] = (0%Z, 1%Z, false)
  /\ _score_summary_q10 user [] = (0%Z, 2%Z, false).
Proof. repeat split. Qed.

Lemma grade_question_returns (q : dict) (answers ca : pyval) (form : form_t) :
  plain_question q = true -> plain_answers answers = true ->
  plain_answers ca = true -> plain_form form = true ->
  exists user correct fb,
    _get_user_answer_from_sources
      (str (get_default "id" (VStr "unknown") q)) answers form = Ok user
    /\ _get_correct_answer q ca = Ok correct
    /\ grade_question q answers ca form = Ok fb
    /\ (correct = [] ->
        fb_points fb = 0%Z /\ fb_ok fb = false /\ fb_correct fb = []).
Proof.
  intros Hq Ha Hca Hf.
  destruct (plain_question_typed q Hq) as [t Ht].
  destruct (user_answer_returns
              (str (get_default "id" (VStr "unknown") q)) answers form Ha Hf)
    as [user Hu].
  destruct (correct_answer_returns q ca Hq Hca) as [correct Hc].
  exists user, correct. unfold grade_question. rewrite Ht, Hu, Hc.
  destruct (String.eqb t "summary") eqn:E1;
    [|destruct (String.eqb t "single") eqn:E2].
  - destruct (_score_summary_q10 _ _) as [[pts mx] ok] eqn:Es.
    eexists. repeat (split; [reflexivity|]). intros ->.
    cbn in Es. injection Es as <- <- <-. auto.
  - destruct (_score_single _ _) as [[pts mx] ok] eqn:Es.
    eexists. repeat (split; [reflexivity|]). intros ->.
    cbn in Es. injection Es as <- <- <-. auto.
  - destruct (_score_multi_exact _ _) as [[pts mx] ok] eqn:Es.
    eexists. repeat (split; [reflexivity|]). intros ->.
    cbn in Es. injection Es as <- <- <-. auto.
Qed.

Lemma grade_loop_returns (answers ca : pyval) (form : form_t)
    (questions : list dict) :
  plain_answers answers = true -> plain_answers ca = true ->
  plain_form form = true ->
  Forall (fun q => plain_question q = true) questions ->
  forall sp tp fbs0,
  exists sp' tp' fbs,
    grade_loop questions answers ca form sp tp fbs0 = Ok (sp', tp', fbs0 ++ fbs)
    /\ Forall2 (fun q fb => grade_question q answers ca form = Ok fb)
               questions fbs.
Proof.
  intros Ha Hca Hf.
  induction 1 as [|q qs Hq Hqs IH]; intros sp tp fbs0.
  - exists sp, tp, []. cbn. rewrite app_nil_r. split; [reflexivity|constructor].
  - destruct (grade_question_returns q answers ca form Hq Ha Hca Hf)
      as (user & correct & fb & _ & _ & Hfb & _).
    cbn. rewrite Hfb.
    destruct (IH (sp + fb_points fb)%Z (tp + fb_max_points fb)%Z (fbs0 ++ [fb]))
      as (sp' & tp' & fbs & Hloop & Hall).
    exists sp', tp', (fb :: fbs). split.
    + rewrite Hloop. rewrite <- app_assoc. reflexivity.
    + constructor; assumption.
Qed.

(** Each of the three scoring rules gives 0 points and "incorrect" for an
    empty correct set, whatever was submitted; and on plain questions,
    answers and keys [_grade_core] returns, with 0 points and "incorrect"
    in the feedback of every question whose resolved correct set is
    empty. *)
Lemma empty_correct_scores_zero (questions : list dict)
    (answers ca : pyval) (form : form_t) :
  Forall (fun q => plain_question q = true) questions ->
  plain_answers answers = true -> plain_answers ca = true ->
  plain_form form = true ->
  (forall user, _score_single user [] = (0%Z, 1%Z, false)
                /\ _score_multi_exact user [] = (0%Z, 1%Z, false)
                /\ _score_summary_q10 user [] = (0%Z, 2%Z, false))
  /\ exists score_points total_points fbs,
      _grade_core questions answers ca form
      = Ok (score_points, total_points, fbs)
      /\ length fbs = length questions
      /\ forall i q fb,
          questions !! i = Some q -> fbs !! i = Some fb ->
          _get_correct_answer q ca = Ok [] ->
          fb_points fb = 0%Z /\ fb_ok fb = false.
Proof.
  intros Hplain Ha Hca Hf. split; [apply score_empty_correct|].
  destruct (grade_loop_returns answers ca form questions Ha Hca Hf Hplain
              0%Z 0%Z [])
    as (sp & tp & fbs & Hloop & Hall).
  exists sp, tp, fbs. split; [exact Hloop|].
  split; [symmetry; eapply Forall2_length; exact Hall|].
  intros i q fb Hq Hfb Hc.
  pose proof (Forall2_lookup_lr _ _ _ _ _ _ Hall Hq Hfb) as Hg.
  assert (Ht : plain_question q = true).
  { rewrite Forall_forall in Hplain. apply Hplain.
    eapply list_elem_of_lookup_2; exact Hq. }
  destruct (grade_question_returns q answers ca form Ht Ha Hca Hf)
    as (user & correct & fb' & _ & Hc' & Hfb' & Hz).
  rewrite Hg in Hfb'. injection Hfb' as <-.
  rewrite Hc in Hc'. injection Hc' as <-.
  destruct (Hz eq_refl) as (? & ? & ?). auto.
Qed.

(** C6: a submission can make the grader raise on a question without a
    resolved correct answer. None of the three sample questions has one;
    the superscript two, submitted for the first, is a digit for
    [isdigit] and none for [int], so [_normalize_letter_list] raises
    [ValueError], and with it [_grade_core] and [grade]: no question is
    scored. On the letters of [sample_answers] the same questions score 0
    of 4 points, each marked incorrect. *)
Theorem superscript_submission_raises :
  Forall (fun q => _get_correct_answer q VNone = Ok []) sample_unresolved
  /\ str_isdigit superscript_two = true
  /\ _normalize_letter_list (VStr superscript_two) = Raise ValueError
  /\ _get_user_answer_from_sources "P1-Q1" superscript_answers NoForm
     = Raise ValueError
  /\ _grade_core sample_unresolved superscript_answers VNone NoForm
     = Raise ValueError
  /\ grade sample_unresolved NoForm superscript_answers VNone
     = Raise ValueError
  /\ exists fbs,
      _grade_core sample_unresolved sample_answers VNone NoForm
      = Ok (0%Z, 4%Z, fbs)
      /\ Forall (fun fb => fb_ok fb = false /\ fb_points fb = 0%Z) fbs.
Proof.
  split; [repeat constructor|].
  repeat (split; [vm_compute; reflexivity|]).
  eexists. split; [vm_compute; reflexivity|].
  repeat constructor.
Qed.

End GraderFacts.

Module ResolverFacts.
Import Py ShuffleService ExamRoutes DictFacts Samples.

(** What [_put] writes is the normalised value after the remap. *)
Lemma put_remaps (q_by_id : dict) (qid : string) (raw : pyval) (out : dict)
    (x : string) (norm : list string) :
  _normalize_correct_value raw = x :: norm ->
  get qid (_put q_by_id qid raw out)
  = _remap_if_shuffled q_by_id qid
      (match norm with [] => VStr x | _ => VList (map VStr (x :: norm)) end).
Proof.
  intros H. unfold _put. rewrite H. rewrite get_set_eq.
  destruct norm; reflexivity.
Qed.

(** The fallback of step 3 goes through [_put], hence through the remap. *)
Lemma fallback_remaps (q_by_id : dict) (q out : dict) (x : string)
    (norm : list string) :
  let qid := strip (str (get_default "id" (VStr "") q)) in
  qid <> "" -> mem qid out = false ->
  _normalize_correct_value (get "correct" q) = x :: norm ->
  get qid (put_from_embedded q_by_id (VDict q) out)
  = _remap_if_shuffled q_by_id qid
      (match norm with [] => VStr x | _ => VList (map VStr (x :: norm)) end).
Proof.
  intros qid Hne Hmem Hnorm. unfold put_from_embedded. fold qid.
  destruct (String.eqb_spec qid ""); [contradiction|].
  rewrite Hmem. apply put_remaps. exact Hnorm.
Qed.

(** C1 (the code departs from it): with no answer-key file, the resolver
    takes the correct letter of the shuffled question P1-Q1, [A], from the
    question itself and passes it through the recorded map once more; it
    resolves [C], and a submission of [A] is graded wrong. *)
Theorem resolver_remaps_embedded_correct :
  exists q,
    dict_questions shuffled_sample !! 0 = Some q
    /\ get "correct" q = VList [VStr "A"]
    /\ texts_at q "A" = ["Asphalt and concrete re-radiate heat"]
    /\ _get_old_to_new_map_for_qid (index_questions [VDict q]) "P1-Q1"
       = Some [("B", VStr "A"); ("D", VStr "B"); ("A", VStr "C"); ("C", VStr "D")]
    /\ get "P1-Q1" (_build_correct_answers (VDict []) shuffled_sample) = VStr "C"
    /\ exists fb rest,
        Grader._grade_core [q] (VDict [("P1-Q1", VStr "A")])
          (VDict (_build_correct_answers (VDict []) shuffled_sample))
          Grader.NoForm = Ok (0%Z, 1%Z, fb :: rest)
        /\ Grader.fb_ok fb = false.
Proof.
  eexists. split; [vm_compute; reflexivity|].
  repeat (apply conj); try (vm_compute; reflexivity).
  do 2 eexists. apply conj; vm_compute; reflexivity.
Qed.

End ResolverFacts.

Module ServicesFacts.
Import Py ShuffleService ExamServices DictFacts Samples.

(** C2 (the code departs from it): when the Q10 entry of the bank is
    there and its answer is not resolved, [_load_q10_question_for_passage]
    appends its warning and raises, and so do the merge and
    [pick_full_exam_set_for_attempt]. *)
Theorem unresolved_q10_raises :
  (* no row for the passage *)
  _load_q10_question_for_passage (Ok (VList [q10_item "F"])) (Ok (VList []))
    "P1" []
  = (Raise TypeError,
     [W_keys_row_not_found 1; W_q10_correct_not_injected "p01_q10"])
  (* fewer than ten answers *)
  /\ _load_q10_question_for_passage (Ok (VList [q10_item "F"]))
       (Ok (keys_row nine_answers)) "P1" []
     = (Raise TypeError,
        [W_keys_invalid_answers 1; W_q10_correct_not_injected "p01_q10"])
  (* the tenth answer is not a string *)
  /\ _load_q10_question_for_passage (Ok (VList [q10_item "F"]))
       (Ok (keys_row (nine_answers ++ [VList [VStr "A"]]))) "P1" []
     = (Raise TypeError,
        [W_keys_q10_not_string 1; W_q10_correct_not_injected "p01_q10"])
  (* the tenth answer is blank *)
  /\ _load_q10_question_for_passage (Ok (VList [q10_item "F"]))
       (Ok (keys_row (nine_answers ++ [VStr " "]))) "P1" []
     = (Raise TypeError,
        [W_keys_q10_empty 1; W_q10_correct_not_injected "p01_q10"])
  /\ fst (merge_q10 (Ok (VList [q10_item "F"])) (Ok (VList []))
            sample_base "P1" [])
     = Raise TypeError
  /\ (forall seed, sample_pick (Ok (VList [])) seed = Raise TypeError).
Proof.
  repeat (apply conj); vm_compute; reflexivity.
Qed.

(** With the answer resolved the question is merged. *)
Lemma resolved_q10_is_merged :
  exists E q,
    sample_pick sample_keys 5 = Ok E
    /\ dict_questions E !! 1 = Some q
    /\ get "type" q = VStr "summary"
    /\ get "correct" q = VList [VStr "A"; VStr "B"; VStr "C"].
Proof. do 2 eexists. repeat (apply conj); vm_compute; reflexivity. Qed.

Section WithFiles.
Context (R : PyRandom).
Context (count_passages : Z)
      (load_exam_set : Z -> result (dict * list warning))
      (load_q9 : string -> result (pyval * list warning))
      (q10_bank answer_keys : result pyval).

(** C9, as amended: an attempt that [create_attempt] stores holds, as its
  passage seed and as its shuffle seed, the one integer that one call of
  [randint(1, 10**9)] on the module's generator returns. *)
Theorem create_attempt_one_seed (minutes_ : Z) (mode_ single_index_ : pyval)
  (w w' : world R) (attempt_id : string) :
create_attempt R count_passages load_exam_set load_q9 q10_bank answer_keys
  minutes_ mode_ single_index_ w = (Ok attempt_id, w') ->
exists a,
  dict_get String.eqb attempt_id (ATTEMPTS w') = Some a
  /\ passage_seed a = fst (randint R 1 (10 ^ 9) (global_rng w))
  /\ shuffle_seed a = passage_seed a
  /\ global_rng w' = snd (randint R 1 (10 ^ 9) (global_rng w)).
Proof.
unfold create_attempt.
destruct (randint R 1 (10 ^ 9) (global_rng w)) as [seed g].
destruct (py_or mode_ (VStr "full")); try discriminate.
destruct (pick_full_exam_set_for_attempt _ _ _ _ _ _ seed); [|discriminate].
intros [= <- <-]. eexists. cbn [ATTEMPTS global_rng].
rewrite (dict_get_set_eq _ String.eqb_spec).
repeat (apply conj); reflexivity.
Qed.
End WithFiles.

Lemma pair_fst {A B : Type} (p : A * B) (a : A) : fst p = a -> p = (a, snd p).
Proof. intros <-. destruct p; reflexivity. Qed.

Lemma create_attempt_one_seed_witness :
  exists a,
    dict_get String.eqb "1" (ATTEMPTS (snd (sample_create sample_world))) = Some a
    /\ passage_seed a
       = fst (randint Lcg.R 1 (10 ^ 9) (global_rng sample_world))
    /\ shuffle_seed a = passage_seed a
    /\ global_rng (snd (sample_create sample_world))
       = snd (randint Lcg.R 1 (10 ^ 9) (global_rng sample_world)).
Proof.
  apply (create_attempt_one_seed Lcg.R 1 one_passage no_q9
           (Ok (VList [q10_item "F"])) sample_keys 18 (VStr "full") (VInt 1)
           sample_world (snd (sample_create sample_world)) "1").
  apply pair_fst. vm_compute. reflexivity.
Defined.

(** C9 fails as stated: the attempt created in [sample_world] holds the
    first draw, 250496028, as both seeds; the generator is one draw
    further, and its next draw, 116302265, is in neither seed. *)
Lemma seeds_are_one_draw :
  exists a,
    fst (sample_create sample_world) = Ok "1"
    /\ dict_get String.eqb "1" (ATTEMPTS (snd (sample_create sample_world)))
       = Some a
    /\ passage_seed a = 250496028%Z
    /\ shuffle_seed a = 250496028%Z
    /\ fst (randint Lcg.R 1 (10 ^ 9)
              (global_rng (snd (sample_create sample_world))))
       = 116302265%Z.
Proof. eexists. repeat (apply conj); vm_compute; reflexivity. Qed.

(** C8 fails as stated: a summary question merged from a bank whose sixth
    choice is lettered G has six choices, and leaves [shuffle_exam_set]
    with the letters A, B, C, D, E, G. *)
Lemma summary_letters_are_the_bank_s :
  exists q10 q',
    fst (_load_q10_question_for_passage (Ok (VList [q10_item "G"]))
           (Ok (keys_row (nine_answers ++ [VStr "ABG"]))) "P1" [])
    = Ok (VDict q10)
    /\ get "type" q10 = VStr "summary"
    /\ length (parsed_choices q10) = 6
    /\ dict_questions
         (ShuffleService.shuffle_exam_set Lcg.R
            [("id", VStr "reading-P1"); ("questions", VList [VDict q10])] 7)
       !! 0 = Some q'
    /\ map fst (parsed_choices q') = ["A"; "B"; "C"; "D"; "E"; "G"]
    /\ ~ In "F" (map fst (parsed_choices q')).
Proof.
  do 2 eexists. repeat (apply conj); try (vm_compute; reflexivity).
  vm_compute. intros H. repeat (destruct H as [H|H]; [discriminate H|]).
  exact H.
Qed.

End ServicesFacts.

Module HeapFacts.
Import Py ShuffleHeap HeapRel Samples.

(** Induction on values, through the items of a tuple *)
Lemma val_ind_nested (P : val -> Prop) :
  P HNone -> (forall b, P (HBool b)) -> (forall n, P (HInt n)) ->
  (forall s, P (HStr s)) ->
  (forall l, Forall P l -> P (HTuple l)) ->
  (forall a, P (HRef a)) ->
  forall v, P v.
Proof.
  intros Hn Hb Hi Hs Ht Hr.
  fix IH 1. intros [| b | n | s | l | a].
  - exact Hn.
  - apply Hb.
  - apply Hi.
  - apply Hs.
  - apply Ht. induction l as [|x l IHl]; constructor; [apply IH|exact IHl].
  - apply Hr.
Qed.

Section Shift.
Context (n0 d : nat).

Lemma sh_old (a : addr) : a < n0 -> sh n0 d a = a.
Proof. intros H. unfold sh. destruct (Nat.ltb_spec a n0); [reflexivity|lia]. Qed.

Lemma sh_new (a : addr) : n0 <= a -> sh n0 d a = a + d.
Proof. intros H. unfold sh. destruct (Nat.ltb_spec a n0); [lia|reflexivity]. Qed.

Lemma sh_inj (a b : addr) : sh n0 d a = sh n0 d b -> a = b.
Proof.
unfold sh. destruct (Nat.ltb_spec a n0), (Nat.ltb_spec b n0); lia.
Qed.

Lemma sh_fresh (a : addr) : n0 <= a -> n0 <= sh n0 d a.
Proof. intros H. rewrite sh_new by exact H. lia. Qed.

Lemma shv_old (v : val) :
Forall (fun a => a < n0) (refs v) -> shv n0 d v = v.
Proof.
induction v as [| | | |l IH|a] using val_ind_nested; intros H; try reflexivity.
- cbn [shv refs] in *. f_equal.
  induction IH as [|x l Hx Hl IHl]; [reflexivity|].
  cbn [flat_map] in H. apply Forall_app in H as [H1 H2].
  cbn [map]. f_equal; [apply Hx, H1|apply IHl, H2].
- cbn in *. apply Forall_inv in H. rewrite sh_old by exact H. reflexivity.
Qed.

Lemma sho_old (o : obj) :
Forall (fun a => a < n0) (obj_refs o) -> sho n0 d o = o.
Proof.
destruct o as [l|e]; cbn [sho obj_refs]; intros H; f_equal.
- induction l as [|x l IH]; [reflexivity|].
  cbn [flat_map] in H. apply Forall_app in H as [H1 H2].
  cbn [map]. f_equal; [apply shv_old, H1|apply IH, H2].
- induction e as [|[k x] e IH]; [reflexivity|].
  cbn [flat_map snd] in H. apply Forall_app in H as [H1 H2].
  cbn [map fst snd]. f_equal; [f_equal; apply shv_old, H1|apply IH, H2].
Qed.
End Shift.

Lemma sh_zero (n0 a : nat) : sh n0 0 a = a.
Proof. unfold sh. destruct (a <? n0)%nat; lia. Qed.

Lemma shv_zero (n0 : nat) (v : val) : shv n0 0 v = v.
Proof.
  induction v as [| | | |l IH|a] using val_ind_nested; try reflexivity.
  - cbn [shv]. f_equal. induction IH as [|x l Hx Hl IHl]; [reflexivity|].
    cbn [map]. f_equal; assumption.
  - cbn. rewrite sh_zero. reflexivity.
Qed.

Lemma sho_zero (n0 : nat) (o : obj) : sho n0 0 o = o.
Proof.
  destruct o as [l|e]; cbn [sho]; f_equal.
  - induction l as [|x l IH]; [reflexivity|].
    cbn [map]. rewrite shv_zero, IH. reflexivity.
  - induction e as [|[k x] e IH]; [reflexivity|].
    cbn [map fst snd]. rewrite shv_zero, IH. reflexivity.
Qed.

(** ** Dictionaries of values under a map of the values *)

Section Entries.
Context {V W : Type} (f : V -> W).

Local Abbreviation map_entries := (HeapRel.map_entries f).

Lemma dict_get_map_entries (k : string) (e : list (string * V)) :
dict_get String.eqb k (map_entries e) = f <$> dict_get String.eqb k e.
Proof.
induction e as [|[k' v] e IH]; [reflexivity|].
cbn. destruct (String.eqb k k'); [reflexivity|exact IH].
Qed.

Lemma dict_set_map_entries (k : string) (v : V) (e : list (string * V)) :
dict_set String.eqb k (f v) (map_entries e)
= map_entries (dict_set String.eqb k v e).
Proof.
induction e as [|[k' v'] e IH]; [reflexivity|].
cbn. destruct (String.eqb k k'); [reflexivity|].
cbn. f_equal. exact IH.
Qed.

Lemma dict_pop_map_entries (k : string) (e : list (string * V)) :
dict_pop String.eqb k (map_entries e) = map_entries (dict_pop String.eqb k e).
Proof.
induction e as [|[k' v'] e IH]; [reflexivity|].
cbn. destruct (String.eqb k k'); [exact IH|].
cbn. f_equal. exact IH.
Qed.

Lemma dict_mem_map_entries (k : string) (e : list (string * V)) :
dict_mem String.eqb k (map_entries e) = dict_mem String.eqb k e.
Proof.
unfold dict_mem. rewrite dict_get_map_entries.
destruct (dict_get String.eqb k e); reflexivity.
Qed.
End Entries.

Section EntryRefs.
Context (P : addr -> Prop).

Lemma refs_dict_get (k : string) (e : list (string * val)) (v : val) :
Forall P (obj_refs (ODict e)) -> dict_get String.eqb k e = Some v ->
Forall P (refs v).
Proof.
cbn [obj_refs]. induction e as [|[k' v'] e IH]; [discriminate|].
cbn [flat_map snd]. intros H Hg. apply Forall_app in H as [H1 H2].
cbn in Hg. destruct (String.eqb k k'); [congruence|auto].
Qed.

Lemma refs_dict_set (k : string) (v : val) (e : list (string * val)) :
Forall P (refs v) -> Forall P (obj_refs (ODict e)) ->
Forall P (obj_refs (ODict (dict_set String.eqb k v e))).
Proof.
cbn [obj_refs]. intros Hv. induction e as [|[k' v'] e IH]; cbn [flat_map snd].
- intros _. cbn. rewrite app_nil_r. exact Hv.
- intros H. apply Forall_app in H as [H1 H2]. cbn [dict_set].
  destruct (String.eqb k k'); cbn [flat_map snd]; apply Forall_app; auto.
Qed.

Lemma refs_dict_pop (k : string) (e : list (string * val)) :
Forall P (obj_refs (ODict e)) ->
Forall P (obj_refs (ODict (dict_pop String.eqb k e))).
Proof.
cbn [obj_refs]. induction e as [|[k' v'] e IH]; cbn [flat_map snd]; [auto|].
intros H. apply Forall_app in H as [H1 H2]. cbn [dict_pop].
destruct (String.eqb k k'); [auto|].
cbn [flat_map snd]. apply Forall_app; auto.
Qed.

Lemma refs_list_app (l : list val) (v : val) :
Forall P (obj_refs (OList l)) -> Forall P (refs v) ->
Forall P (obj_refs (OList (l ++ [v]))).
Proof.
cbn [obj_refs]. intros Hl Hv. rewrite flat_map_app. apply Forall_app.
split; [exact Hl|]. cbn. rewrite app_nil_r. exact Hv.
Qed.

Lemma refs_list_items (l : list val) :
Forall P (obj_refs (OList l)) <-> Forall (fun v => Forall P (refs v)) l.
Proof.
cbn [obj_refs]. induction l as [|x l IH]; cbn [flat_map].
- split; constructor.
- rewrite Forall_app, IH, Forall_cons. reflexivity.
Qed.
End EntryRefs.

(** ** Related heaps *)

Section Related.
Context (base X : heap).
Hypothesis base_fixed :
Forall (fun o => sho (length base) (length X) o = o) base.

Local Abbreviation n0 := (length base).
Local Abbreviation d := (length X).
Local Abbreviation hrel := (HeapRel.hrel base X).
Local Abbreviation brel := (HeapRel.brel base X).

Lemma hrel_length (h1 h2 : heap) :
hrel h1 h2 -> n0 <= length h1 /\ length h2 = length h1 + d.
Proof.
intros (F & -> & -> & _). rewrite !length_app, length_map. lia.
Qed.

Lemma hrel_lookup (h1 h2 : heap) (a : addr) :
hrel h1 h2 -> h2 !! sh n0 d a = sho n0 d <$> h1 !! a.
Proof.
intros (F & -> & -> & _).
destruct (Nat.lt_ge_cases a n0) as [Ha|Ha].
- rewrite sh_old by exact Ha. rewrite !lookup_app_l by exact Ha.
  destruct (base !! a) as [o|] eqn:Ho; [|reflexivity].
  cbn. f_equal. symmetry.
  rewrite Forall_forall in base_fixed. apply base_fixed.
  eapply list_elem_of_lookup_2. exact Ho.
- rewrite sh_new by exact Ha.
  rewrite !lookup_app_r by lia.
  change (map (sho n0 d) F) with (sho n0 d <$> F).
  rewrite list_lookup_fmap. f_equal. f_equal. lia.
Qed.

Lemma hrel_closed (h1 h2 : heap) (a : addr) (o : obj) :
hrel h1 h2 -> n0 <= a -> h1 !! a = Some o -> fresh_obj n0 o.
Proof.
intros (F & -> & -> & HF) Ha Ho.
rewrite lookup_app_r in Ho by exact Ha.
rewrite Forall_forall in HF. apply HF.
eapply list_elem_of_lookup_2. exact Ho.
Qed.

Lemma hrel_alloc (h1 h2 : heap) (o : obj) :
hrel h1 h2 -> fresh_obj n0 o -> hrel (h1 ++ [o]) (h2 ++ [sho n0 d o]).
Proof.
intros (F & -> & -> & HF) Ho. exists (F ++ [o]).
rewrite map_app, <- !app_assoc. repeat split.
apply Forall_app. split; [exact HF|]. constructor; [exact Ho|constructor].
Qed.

Lemma hrel_insert (h1 h2 : heap) (a : addr) (o : obj) :
hrel h1 h2 -> n0 <= a -> fresh_obj n0 o ->
hrel (<[a := o]> h1) (<[sh n0 d a := sho n0 d o]> h2).
Proof.
intros (F & -> & -> & HF) Ha Ho. exists (<[a - n0 := o]> F).
rewrite sh_new by exact Ha. repeat split.
- rewrite insert_app_r_alt by exact Ha. reflexivity.
- rewrite insert_app_r_alt by lia. f_equal.
  rewrite insert_app_r_alt by lia. f_equal.
  change (map (sho n0 d) ?l) with (sho n0 d <$> l).
  rewrite list_fmap_insert. f_equal. lia.
- apply Forall_insert; assumption.
Qed.

(** ** Related computations *)

Lemma brel_ret {A B : Type} (Q : A -> B -> Prop) (a : A) (b : B) :
Q a b -> brel Q (ret a) (ret b).
Proof. intros H h1 h2 Hh. split; [exact Hh|exact H]. Qed.

Lemma brel_raise {A B : Type} (Q : A -> B -> Prop) (e : exn) :
brel Q (raise e) (raise e).
Proof. intros h1 h2 Hh. split; [exact Hh|reflexivity]. Qed.

Lemma brel_bind {A A' B B' : Type} (P : A -> A' -> Prop) (Q : B -> B' -> Prop)
  (m1 : M A) (m2 : M A') (f1 : A -> M B) (f2 : A' -> M B') :
brel P m1 m2 ->
(forall a1 a2, P a1 a2 -> brel Q (f1 a1) (f2 a2)) ->
brel Q (bind m1 f1) (bind m2 f2).
Proof.
intros Hm Hf h1 h2 Hh. unfold bind.
destruct (Hm h1 h2 Hh) as [Hh' Hr].
destruct (m1 h1) as [[a1|e1] h1'], (m2 h2) as [[a2|e2] h2'];
  cbn in Hh', Hr; try contradiction.
- apply Hf; assumption.
- split; assumption.
Qed.

Lemma brel_weaken {A B : Type} (P Q : A -> B -> Prop) (m1 : M A) (m2 : M B) :
brel P m1 m2 -> (forall a b, P a b -> Q a b) -> brel Q m1 m2.
Proof.
intros Hm HPQ h1 h2 Hh. destruct (Hm h1 h2 Hh) as [Hh' Hr].
split; [exact Hh'|].
destruct (fst (m1 h1)), (fst (m2 h2)); cbn in *; auto.
Qed.

Lemma brel_reads {A B : Type} (Q : A -> B -> Prop) (f1 : heap -> A)
  (f2 : heap -> B) :
(forall h1 h2, hrel h1 h2 -> Q (f1 h1) (f2 h2)) ->
brel Q (reads f1) (reads f2).
Proof. intros H h1 h2 Hh. split; [exact Hh|apply H, Hh]. Qed.

Lemma brel_alloc (o1 o2 : obj) :
fresh_obj n0 o1 -> o2 = sho n0 d o1 ->
brel (twin_addr n0 d) (alloc o1) (alloc o2).
Proof.
intros Ho -> h1 h2 Hh. unfold alloc. cbn [fst snd].
destruct (hrel_length h1 h2 Hh) as [Hn Hl].
split; [apply hrel_alloc; assumption|].
split; [exact Hn|]. rewrite sh_new by exact Hn. exact Hl.
Qed.

Lemma brel_setitem (a1 a2 : addr) (k : string) (v1 v2 : val) :
twin_addr n0 d a1 a2 -> twin n0 d v1 v2 ->
brel (fun _ _ => True) (setitem a1 k v1) (setitem a2 k v2).
Proof.
intros [Ha ->] [Hv ->] h1 h2 Hh. unfold setitem.
rewrite (hrel_lookup h1 h2 a1 Hh).
destruct (h1 !! a1) as [[l|e]|] eqn:Ho; cbn; try (split; [exact Hh|reflexivity]).
split; [|exact I].
change (map (fun kv => (fst kv, shv n0 d (snd kv))) e)
  with (map_entries (shv n0 d) e).
rewrite dict_set_map_entries.
apply (hrel_insert h1 h2 a1 (ODict (dict_set String.eqb k v1 e)) Hh Ha).
apply refs_dict_set; [exact Hv|]. exact (hrel_closed h1 h2 a1 _ Hh Ha Ho).
Qed.

Lemma brel_popitem (a1 a2 : addr) (k : string) :
twin_addr n0 d a1 a2 ->
brel (fun _ _ => True) (popitem a1 k) (popitem a2 k).
Proof.
intros [Ha ->] h1 h2 Hh. unfold popitem.
rewrite (hrel_lookup h1 h2 a1 Hh).
destruct (h1 !! a1) as [[l|e]|] eqn:Ho; cbn; try (split; [exact Hh|reflexivity]).
split; [|exact I].
change (map (fun kv => (fst kv, shv n0 d (snd kv))) e)
  with (map_entries (shv n0 d) e).
rewrite dict_pop_map_entries.
apply (hrel_insert h1 h2 a1 (ODict (dict_pop String.eqb k e)) Hh Ha).
apply refs_dict_pop. exact (hrel_closed h1 h2 a1 _ Hh Ha Ho).
Qed.

Lemma brel_append (a1 a2 : addr) (v1 v2 : val) :
twin_addr n0 d a1 a2 -> twin n0 d v1 v2 ->
brel (fun _ _ => True) (append a1 v1) (append a2 v2).
Proof.
intros [Ha ->] [Hv ->] h1 h2 Hh. unfold append.
rewrite (hrel_lookup h1 h2 a1 Hh).
destruct (h1 !! a1) as [[l|e]|] eqn:Ho; cbn; try (split; [exact Hh|reflexivity]).
split; [|exact I].
replace (map (shv n0 d) l ++ [shv n0 d v1])
  with (map (shv n0 d) (l ++ [v1])) by (rewrite map_app; reflexivity).
apply (hrel_insert h1 h2 a1 (OList (l ++ [v1])) Hh Ha).
apply refs_list_app; [|exact Hv]. exact (hrel_closed h1 h2 a1 _ Hh Ha Ho).
Qed.

Lemma brel_getitem (a1 a2 : addr) (k : string) :
twin_addr n0 d a1 a2 ->
brel (twin n0 d) (getitem a1 k) (getitem a2 k).
Proof.
intros [Ha ->]. apply brel_reads. intros h1 h2 Hh.
rewrite (hrel_lookup h1 h2 a1 Hh).
destruct (h1 !! a1) as [[l|e]|] eqn:Ho; cbn;
  try (split; [constructor|reflexivity]).
change (map (fun kv => (fst kv, shv n0 d (snd kv))) e)
  with (map_entries (shv n0 d) e).
rewrite dict_get_map_entries.
destruct (dict_get String.eqb k e) as [v|] eqn:Hg; cbn;
  [|split; [constructor|reflexivity]].
split; [|reflexivity].
eapply refs_dict_get; [|exact Hg]. exact (hrel_closed h1 h2 a1 _ Hh Ha Ho).
Qed.

(** What a value is, in related heaps *)
Lemma as_dict_twin (h1 h2 : heap) (v : val) :
hrel h1 h2 ->
as_dict h2 (shv n0 d v) = map_entries (shv n0 d) <$> as_dict h1 v.
Proof.
intros Hh. destruct v as [| | | | |a]; try reflexivity.
cbn [shv as_dict]. rewrite (hrel_lookup h1 h2 a Hh).
destruct (h1 !! a) as [[l|e]|]; reflexivity.
Qed.

Lemma as_list_twin (h1 h2 : heap) (v : val) :
hrel h1 h2 ->
as_list h2 (shv n0 d v) = map (shv n0 d) <$> as_list h1 v.
Proof.
intros Hh. destruct v as [| | | | |a]; try reflexivity.
cbn [shv as_list]. rewrite (hrel_lookup h1 h2 a Hh).
destruct (h1 !! a) as [[l|e]|]; reflexivity.
Qed.

(** The two heaps read as the same tree. *)
Lemma snapshot_twin (fuel : nat) (h1 h2 : heap) (v : val) :
hrel h1 h2 -> snapshot fuel h2 (shv n0 d v) = snapshot fuel h1 v.
Proof.
intros Hh. revert v. induction fuel as [|fuel IH]; intros v; [reflexivity|].
destruct v as [| | | |l|a]; try reflexivity.
- cbn [shv snapshot]. f_equal. rewrite map_map. apply map_ext. exact IH.
- cbn [shv snapshot]. rewrite (hrel_lookup h1 h2 a Hh).
  destruct (h1 !! a) as [[l|e]|]; cbn; [| |reflexivity].
  + f_equal. rewrite map_map. apply map_ext. exact IH.
  + f_equal. rewrite map_map. apply map_ext. intros [k x]. cbn.
    f_equal. apply IH.
Qed.

Lemma brel_snapshot_dict (fuel : nat) (a1 a2 : addr) :
twin_addr n0 d a1 a2 ->
brel eq (snapshot_dict fuel a1) (snapshot_dict fuel a2).
Proof.
intros [Ha ->]. apply brel_reads. intros h1 h2 Hh.
change (HRef (sh n0 d a1)) with (shv n0 d (HRef a1)).
rewrite (snapshot_twin fuel h1 h2 _ Hh). reflexivity.
Qed.

(** ** Twins *)

Lemma twin_ref (a1 a2 : addr) :
twin_addr n0 d a1 a2 -> twin n0 d (HRef a1) (HRef a2).
Proof.
intros [Ha ->]. split; [constructor; [exact Ha|constructor]|reflexivity].
Qed.

Lemma twin_str (s : string) : twin n0 d (HStr s) (HStr s).
Proof. split; [constructor|reflexivity]. Qed.

Lemma twin_bool (b : bool) : twin n0 d (HBool b) (HBool b).
Proof. split; [constructor|reflexivity]. Qed.

Lemma twin_int (n : Z) : twin n0 d (HInt n) (HInt n).
Proof. split; [constructor|reflexivity]. Qed.

Lemma twin_tuple (l1 l2 : list val) :
Forall2 (twin n0 d) l1 l2 -> twin n0 d (HTuple l1) (HTuple l2).
Proof.
intros H. split.
- unfold fresh. cbn [refs].
  induction H as [|x y l1 l2 [Hx _] _ IH]; [constructor|].
  cbn [flat_map]. apply Forall_app. split; assumption.
- cbn [shv]. f_equal.
  induction H as [|x y l1 l2 [_ ->] _ IH]; [reflexivity|].
  cbn [map]. f_equal. exact IH.
Qed.

Lemma twin_list_obj (l1 l2 : list val) :
Forall2 (twin n0 d) l1 l2 ->
fresh_obj n0 (OList l1) /\ OList l2 = sho n0 d (OList l1).
Proof.
intros H. split.
- apply refs_list_items.
  induction H as [|x y l1 l2 [Hx _] _ IH]; constructor; assumption.
- cbn [sho]. f_equal.
  induction H as [|x y l1 l2 [_ ->] _ IH]; [reflexivity|].
  cbn [map]. f_equal. exact IH.
Qed.

Lemma twin_pure (v : val) : refs v = [] -> twin n0 d v v.
Proof.
intros H. split.
- unfold fresh. rewrite H. constructor.
- symmetry. apply shv_old. rewrite H. constructor.
Qed.

Lemma pure_list_obj (l : list val) :
Forall (fun v => refs v = []) l ->
fresh_obj n0 (OList l) /\ OList l = sho n0 d (OList l).
Proof.
intros H. apply twin_list_obj.
induction H as [|x l Hx Hl IH]; constructor; [apply twin_pure, Hx|exact IH].
Qed.

(** ** [copy.deepcopy] *)

Lemma twin_memo_get (m1 m2 : memo_t) (a : addr) :
twin_memo n0 d m1 m2 ->
dict_get Nat.eqb (sh n0 d a) m2 = sh n0 d <$> dict_get Nat.eqb a m1
/\ forall a', dict_get Nat.eqb a m1 = Some a' -> n0 <= a'.
Proof.
intros [Hf ->]. induction m1 as [|[k v] m1 IH]; [split; [reflexivity|discriminate]|].
apply Forall_cons in Hf as [Hv Hf]. destruct (IH Hf) as [IH1 IH2].
cbn [shm map dict_get fst snd].
destruct (Nat.eqb_spec a k) as [->|Hne].
- rewrite Nat.eqb_refl. split; [reflexivity|]. intros a' [= <-]. exact Hv.
- destruct (Nat.eqb_spec (sh n0 d a) (sh n0 d k)) as [He|_].
  + apply sh_inj in He. contradiction.
  + split; [exact IH1|exact IH2].
Qed.

Lemma twin_memo_set (m1 m2 : memo_t) (a y : addr) :
twin_memo n0 d m1 m2 -> n0 <= y ->
twin_memo n0 d (dict_set Nat.eqb a y m1)
               (dict_set Nat.eqb (sh n0 d a) (sh n0 d y) m2).
Proof.
intros [Hf ->] Hy. split.
- induction m1 as [|[k v] m1 IH]; cbn [dict_set].
  + constructor; [exact Hy|constructor].
  + apply Forall_cons in Hf as [Hv Hf].
    destruct (Nat.eqb a k); constructor; auto.
- clear Hf. induction m1 as [|[k v] m1 IH]; [reflexivity|].
  cbn [shm map dict_set fst snd].
  destruct (Nat.eqb_spec a k) as [->|Hne].
  + rewrite Nat.eqb_refl. reflexivity.
  + destruct (Nat.eqb_spec (sh n0 d a) (sh n0 d k)) as [He|_].
    * apply sh_inj in He. contradiction.
    * cbn [map fst snd]. f_equal. exact IH.
Qed.

Local Abbreviation copy_rel := (HeapRel.copy_rel n0 d).

Section Items.
Context (rec : val -> memo_t -> M (val * memo_t)).
Hypothesis Hrec : forall v m1 m2, twin_memo n0 d m1 m2 ->
brel copy_rel (rec v m1) (rec (shv n0 d v) m2).

Lemma brel_copy_items (y1 y2 : addr) (items : list val) :
twin_addr n0 d y1 y2 ->
forall m1 m2, twin_memo n0 d m1 m2 ->
brel (twin_memo n0 d) (copy_items rec y1 items m1)
   (copy_items rec y2 (map (shv n0 d) items) m2).
Proof.
intros Hy. induction items as [|x items IH]; intros m1 m2 Hm; cbn.
- apply brel_ret. exact Hm.
- eapply brel_bind; [apply Hrec; exact Hm|].
intros c1 c2 [Hc Hm']. eapply brel_bind; [apply brel_append; eassumption|].
intros _ _ _. apply IH. exact Hm'.
Qed.

Lemma brel_copy_entries (y1 y2 : addr) (items : list (string * val)) :
twin_addr n0 d y1 y2 ->
forall m1 m2, twin_memo n0 d m1 m2 ->
brel (twin_memo n0 d) (copy_entries rec y1 items m1)
   (copy_entries rec y2 (map_entries (shv n0 d) items) m2).
Proof.
intros Hy. induction items as [|[k x] items IH]; intros m1 m2 Hm; cbn.
- apply brel_ret. exact Hm.
- eapply brel_bind; [apply Hrec; exact Hm|].
intros c1 c2 [Hc Hm']. eapply brel_bind; [apply brel_setitem; eassumption|].
intros _ _ _. apply IH. exact Hm'.
Qed.

Lemma brel_copy_tuple (items : list val) :
forall m1 m2, twin_memo n0 d m1 m2 ->
brel (fun c1 c2 => Forall2 (twin n0 d) (fst c1) (fst c2)
                 /\ twin_memo n0 d (snd c1) (snd c2))
   (copy_tuple rec items m1)
   (copy_tuple rec (map (shv n0 d) items) m2).
Proof.
induction items as [|x items IH]; intros m1 m2 Hm; cbn.
- apply brel_ret. split; [constructor|exact Hm].
- eapply brel_bind; [apply Hrec; exact Hm|].
intros c1 c2 [Hc Hm']. eapply brel_bind; [apply IH; exact Hm'|].
intros cs1 cs2 [Hcs Hm'']. apply brel_ret. cbn [fst snd].
split; [constructor; assumption|exact Hm''].
Qed.
End Items.

Lemma brel_deepcopy (fuel : nat) (v : val) (m1 m2 : memo_t) :
twin_memo n0 d m1 m2 ->
brel copy_rel (deepcopy fuel v m1) (deepcopy fuel (shv n0 d v) m2).
Proof.
revert v m1 m2. induction fuel as [|fuel IH]; intros v m1 m2 Hm;
  [apply brel_raise|].
destruct v as [| b | n | s | items | a]; cbn [deepcopy shv].
- apply brel_ret. split; [split; [constructor|reflexivity]|exact Hm].
- apply brel_ret. split; [apply twin_bool|exact Hm].
- apply brel_ret. split; [apply twin_int|exact Hm].
- apply brel_ret. split; [apply twin_str|exact Hm].
- eapply brel_bind; [apply (brel_copy_tuple _ IH); exact Hm|].
  intros c1 c2 [Hc Hm']. apply brel_ret. cbn [fst snd].
  split; [apply twin_tuple; exact Hc|exact Hm'].
- destruct (twin_memo_get m1 m2 a Hm) as [Hg Hfr]. rewrite Hg.
  destruct (dict_get Nat.eqb a m1) as [a'|] eqn:Ea; cbn [fmap option_fmap option_map].
  + apply brel_ret. split; [|exact Hm].
    apply twin_ref. split; [apply Hfr; reflexivity|reflexivity].
  + eapply (brel_bind (fun o1 o2 => o2 = sho n0 d <$> o1)).
    { apply brel_reads. intros h1 h2 Hh. apply hrel_lookup. exact Hh. }
    intros o1 o2 ->. destruct o1 as [[items|items]|]; cbn.
    * eapply brel_bind; [apply brel_alloc; [constructor|reflexivity]|].
      intros y1 y2 Hy. pose proof Hy as [Hy1 ->].
      eapply brel_bind.
      { apply (brel_copy_items _ IH _ _ _ Hy).
        apply twin_memo_set; assumption. }
      intros m1' m2' Hm'. apply brel_ret.
      split; [apply twin_ref; exact Hy|exact Hm'].
    * eapply brel_bind; [apply brel_alloc; [constructor|reflexivity]|].
      intros y1 y2 Hy. pose proof Hy as [Hy1 ->].
      eapply brel_bind.
      { apply (brel_copy_entries _ IH _ _ _ Hy).
        apply twin_memo_set; assumption. }
      intros m1' m2' Hm'. apply brel_ret.
      split; [apply twin_ref; exact Hy|exact Hm'].
    * apply brel_raise.
Qed.

Lemma brel_mapM {A A' B B' : Type} (P : A -> A' -> Prop) (Q : B -> B' -> Prop)
  (f1 : A -> M B) (f2 : A' -> M B') (l1 : list A) (l2 : list A') :
Forall2 P l1 l2 ->
(forall a a', P a a' -> brel Q (f1 a) (f2 a')) ->
brel (Forall2 Q) (mapM f1 l1) (mapM f2 l2).
Proof.
intros Hl Hf. induction Hl as [|a a' l1 l2 Ha Hl IH]; cbn.
- apply brel_ret. constructor.
- eapply brel_bind; [apply Hf; exact Ha|].
  intros b b' Hb. eapply brel_bind; [exact IH|].
  intros bs bs' Hbs. apply brel_ret. constructor; assumption.
Qed.

(** ** The shuffle *)

Lemma strs_obj (L : list string) :
fresh_obj n0 (OList (map HStr L))
/\ OList (map HStr L) = sho n0 d (OList (map HStr L)).
Proof.
apply twin_list_obj. induction L as [|x L IH]; constructor;
  [apply twin_str|exact IH].
Qed.

Lemma letters_obj_twin (e : dict) :
fresh_obj n0 (letters_obj e) /\ letters_obj e = sho n0 d (letters_obj e).
Proof.
unfold letters_obj. split.
- unfold fresh_obj. cbn [obj_refs].
  induction e as [|[k v] e IH]; [constructor|].
  cbn [map flat_map fst snd]. apply Forall_app. split; [|exact IH].
  destruct v; constructor.
- cbn [sho]. f_equal. rewrite map_map. apply map_ext.
  intros [k v]. cbn. destruct v; reflexivity.
Qed.

Lemma brel_set_correct_letters (fuel : nat) (q1 q2 : addr) (L : list string) :
twin_addr n0 d q1 q2 ->
brel (fun _ _ => True) (_set_correct_letters fuel q1 L)
     (_set_correct_letters fuel q2 L).
Proof.
intros Hq. unfold _set_correct_letters.
eapply brel_bind; [apply brel_snapshot_dict; exact Hq|].
intros qt ? <-.
destruct (String.eqb _ "multi" || _).
- eapply brel_bind; [apply brel_alloc; apply strs_obj|]. intros l1 l1' Hl1.
  eapply brel_bind; [apply brel_setitem; [exact Hq|apply twin_ref, Hl1]|].
  intros _ _ _.
  eapply brel_bind; [apply brel_alloc; apply strs_obj|]. intros l2 l2' Hl2.
  eapply brel_bind; [apply brel_setitem; [exact Hq|apply twin_ref, Hl2]|].
  intros _ _ _.
  eapply brel_bind; [apply brel_popitem; exact Hq|]. intros _ _ _.
  apply brel_popitem; exact Hq.
- eapply brel_bind; [apply brel_setitem; [exact Hq|apply twin_str]|].
  intros _ _ _.
  eapply brel_bind; [apply brel_alloc; apply (strs_obj [_])|]. intros l l' Hl.
  eapply brel_bind; [apply brel_setitem; [exact Hq|apply twin_ref, Hl]|].
  intros _ _ _.
  eapply brel_bind; [apply brel_setitem; [exact Hq|apply twin_int]|].
  intros _ _ _.
  apply brel_popitem; exact Hq.
Qed.

Lemma brel_meta_of (q1 q2 : addr) :
twin_addr n0 d q1 q2 -> brel (twin_addr n0 d) (meta_of q1) (meta_of q2).
Proof.
intros Hq. unfold meta_of.
eapply brel_bind; [apply brel_getitem; exact Hq|]. intros m1 m2 [Hm ->].
eapply (brel_bind (fun o1 o2 => o2 = map_entries (shv n0 d) <$> o1)).
{ apply brel_reads. intros h1 h2 Hh. apply as_dict_twin. exact Hh. }
intros o1 o2 ->.
assert (Hnew : brel (twin_addr n0 d)
          (a <- alloc (ODict []) ;; setitem q1 "meta" (HRef a) ;;; ret a)
          (a <- alloc (ODict []) ;; setitem q2 "meta" (HRef a) ;;; ret a)).
{ eapply brel_bind; [apply brel_alloc; [constructor|reflexivity]|].
  intros a1 a2 Ha.
  eapply brel_bind; [apply brel_setitem; [exact Hq|apply twin_ref, Ha]|].
  intros _ _ _. apply brel_ret. exact Ha. }
destruct m1 as [| | | | |a]; cbn [shv]; try exact Hnew.
destruct o1 as [e|]; cbn; [|exact Hnew].
apply brel_ret. apply Forall_inv in Hm. split; [exact Hm|reflexivity].
Qed.

Section WithRandom.
Context (R : PyRandom).

Lemma brel_shuffle_choices_one (fuel : nat) (q1 q2 : val) (g : rng R) :
q2 = shv n0 d q1 ->
brel (twin n0 d) (_shuffle_choices_one R fuel q1 g)
   (_shuffle_choices_one R fuel q2 g).
Proof.
intros ->. unfold _shuffle_choices_one.
eapply brel_bind.
{ apply brel_deepcopy. split; [constructor|reflexivity]. }
intros c1 c2 [[Hf Hc] _]. rewrite Hc.
destruct (fst c1) as [| | | | |qa] eqn:Eq; cbn [shv];
try (apply brel_ret; split; [exact Hf|reflexivity]).
assert (Hq : twin_addr n0 d qa (sh n0 d qa)).
{ apply Forall_inv in Hf. split; [exact Hf|reflexivity]. }
eapply brel_bind; [apply brel_snapshot_dict; exact Hq|].
intros qt ? <-.
destruct (get "choices" qt) as [| | | |l| |];
try (apply brel_ret; apply twin_ref; exact Hq).
destruct l as [|c0 [|c1' [|c2' [|c3' [|c4' l]]]]];
try (apply brel_ret; apply twin_ref; exact Hq).
eapply brel_bind.
{ apply brel_alloc; apply pure_list_obj;
  apply Forall_forall; intros v Hv;
  apply list_elem_of_fmap in Hv as (e & -> & _); reflexivity. }
intros nc1 nc2 Hnc.
eapply brel_bind; [apply brel_setitem; [exact Hq|apply twin_ref, Hnc]|].
intros _ _ _.
eapply brel_bind; [apply brel_set_correct_letters; exact Hq|].
intros _ _ _.
eapply brel_bind; [apply brel_meta_of; exact Hq|].
intros meta1 meta2 Hmeta.
eapply brel_bind; [apply brel_setitem; [exact Hmeta|apply twin_bool]|].
intros _ _ _.
eapply brel_bind; [apply brel_alloc; apply letters_obj_twin|].
intros o2n1 o2n2 Ho2n.
eapply brel_bind; [apply brel_alloc; apply letters_obj_twin|].
intros n2o1 n2o2 Hn2o.
eapply brel_bind; [apply brel_setitem; [exact Hmeta|apply twin_ref, Ho2n]|].
intros _ _ _.
eapply brel_bind; [apply brel_setitem; [exact Hmeta|apply twin_ref, Hn2o]|].
intros _ _ _.
apply brel_ret. apply twin_ref. exact Hq.
Qed.

Lemma brel_set_seq (e1 e2 : nat * val) :
fst e1 = fst e2 -> twin n0 d (snd e1) (snd e2) ->
brel (fun _ _ => True) (set_seq e1) (set_seq e2).
Proof.
destruct e1 as [i v1], e2 as [j v2]. cbn [fst snd]. intros <- [Hf ->].
unfold set_seq. cbn [fst snd].
destruct v1 as [| | | | |qa]; cbn [shv]; try apply brel_raise.
assert (Hq : twin_addr n0 d qa (sh n0 d qa)).
{ apply Forall_inv in Hf. split; [exact Hf|reflexivity]. }
eapply brel_bind; [apply brel_meta_of; exact Hq|].
intros m1 m2 Hm. pose proof Hm as [Hm1 ->].
eapply (brel_bind (fun o1 o2 => o2 = map_entries (shv n0 d) <$> o1)).
{ apply brel_reads. intros h1 h2 Hh.
apply (as_dict_twin h1 h2 (HRef m1) Hh). }
intros o1 o2 ->. destruct o1 as [e|]; cbn; [|apply brel_raise].
rewrite dict_mem_map_entries.
destruct (dict_mem String.eqb "seq" e); [apply brel_ret; exact I|].
apply brel_setitem; [exact Hm|apply twin_int].
Qed.

Lemma enumerate_twin (l1 l2 : list val) :
Forall2 (twin n0 d) l1 l2 ->
Forall2 (fun e1 e2 => fst e1 = fst e2 /\ twin n0 d (snd e1) (snd e2))
      (ShuffleService.enumerate l1) (ShuffleService.enumerate l2).
Proof.
unfold ShuffleService.enumerate. intros H. generalize 0.
induction H as [|x y l1 l2 Hxy Hl IH]; intros s; cbn; constructor.
- split; [reflexivity|exact Hxy].
- apply IH.
Qed.

Lemma brel_alloc_list (l1 l2 : list val) :
Forall2 (twin n0 d) l1 l2 ->
brel (twin_addr n0 d) (alloc (OList l1)) (alloc (OList l2)).
Proof.
intros H. destruct (twin_list_obj l1 l2 H) as [Hf He].
apply brel_alloc; assumption.
Qed.

Lemma filter_dicts_twin (h1 h2 : heap) (l1 l2 : list val) :
hrel h1 h2 -> Forall2 (twin n0 d) l1 l2 ->
Forall2 (twin n0 d)
(List.filter (fun q => match as_dict h1 q with
                       | Some _ => true
                       | None => false
                       end) l1)
(List.filter (fun q => match as_dict h2 q with
                       | Some _ => true
                       | None => false
                       end) l2).
Proof.
intros Hh H. induction H as [|x y l1 l2 [Hx ->] Hl IH]; [constructor|].
cbn [List.filter]. rewrite (as_dict_twin h1 h2 x Hh).
destruct (as_dict h1 x); cbn; [|exact IH].
constructor; [split; [exact Hx|reflexivity]|exact IH].
Qed.

Lemma brel_shuffle_exam_set (fuel : nat) (E : val) (seed : Z) :
brel (twin n0 d) (shuffle_exam_set R fuel E seed)
   (shuffle_exam_set R fuel (shv n0 d E) seed).
Proof.
unfold shuffle_exam_set.
eapply brel_bind.
{ apply brel_deepcopy. split; [constructor|reflexivity]. }
intros c1 c2 [[Hf Hc] _]. rewrite Hc.
destruct (fst c1) as [| | | | |oa] eqn:Eq; cbn [shv]; try apply brel_raise.
assert (Ho : twin_addr n0 d oa (sh n0 d oa)).
{ apply Forall_inv in Hf. split; [exact Hf|reflexivity]. }
eapply brel_bind; [apply brel_getitem; exact Ho|].
intros qs1 qs2 [Hqs ->].
eapply (brel_bind (fun l1 l2 =>
        match l1, l2 with
        | Some a, Some b => Forall2 (twin n0 d) a b
        | None, None => True
        | _, _ => False
        end)).
{ apply brel_reads. intros h1 h2 Hh. rewrite (as_list_twin h1 h2 qs1 Hh).
destruct qs1 as [| | | | |a]; cbn; try exact I.
destruct (h1 !! a) as [[l|e]|] eqn:Ha; cbn; try exact I.
apply Forall_inv in Hqs.
pose proof (hrel_closed h1 h2 a _ Hh Hqs Ha) as Hl.
apply refs_list_items in Hl.
clear Ha. induction Hl as [|x l Hx Hl IH]; constructor;
  [split; [exact Hx|reflexivity]|exact IH]. }
intros l1 l2 Hl.
destruct l1 as [[|x1 l1]|], l2 as [[|x2 l2]|]; try contradiction;
try (apply brel_ret; apply twin_ref; exact Ho);
try (exfalso; inversion Hl; fail).
eapply (brel_bind (Forall2 (twin n0 d))).
{ apply brel_reads. intros h1 h2 Hh.
apply filter_dicts_twin; assumption. }
intros nq1 nq2 Hnq.
eapply brel_bind; [apply brel_alloc_list; exact Hnq|].
intros a1 a2 Ha.
eapply brel_bind; [apply brel_setitem; [exact Ho|apply twin_ref, Ha]|].
intros _ _ _.
eapply (brel_bind (Forall2 (twin n0 d))).
{ eapply brel_mapM; [apply enumerate_twin; exact Hnq|].
intros [i q1] [j q2] [Hi [Hq1 Hq2]]. cbn [fst snd] in *. subst j.
apply brel_shuffle_choices_one. exact Hq2. }
intros sq1 sq2 Hsq.
eapply brel_bind; [apply brel_alloc_list; exact Hsq|].
intros b1 b2 Hb.
eapply brel_bind; [apply brel_setitem; [exact Ho|apply twin_ref, Hb]|].
intros _ _ _.
eapply (brel_bind (Forall2 (fun _ _ => True))).
{ eapply brel_mapM; [apply enumerate_twin; exact Hsq|].
intros e1 e2 [He1 He2]. apply brel_set_seq; assumption. }
intros _ _ _. apply brel_ret. apply twin_ref. exact Ho.
Qed.

End WithRandom.

End Related.

(** ** The claims on the heap *)

Section Claims.
Context (R : PyRandom).

Lemma hrel_start (h X : heap) : hrel h X h (h ++ X).
Proof.
exists []. cbn [map]. rewrite !app_nil_r. repeat split. constructor.
Qed.

(** The heap after a run is the heap before it, and new objects that hold
  new addresses only. *)
Lemma shuffle_exam_set_extends (fuel : nat) (E : val) (seed : Z) (h : heap) :
exists F,
  snd (shuffle_exam_set R fuel E seed h) = h ++ F
  /\ Forall (fresh_obj (length h)) F
  /\ forall v, fst (shuffle_exam_set R fuel E seed h) = Ok v ->
               fresh (length h) v.
Proof.
assert (Hfix : Forall (fun o => sho (length h) (length (@nil obj)) o = o) h).
{ apply Forall_forall. intros o _. apply sho_zero. }
pose proof (brel_shuffle_exam_set h [] Hfix R fuel E seed h h) as H.
cbn [length] in H. rewrite shv_zero in H.
destruct H as [(F & HF1 & _ & HF) Hout].
{ pose proof (hrel_start h []) as Hs. rewrite app_nil_r in Hs. exact Hs. }
exists F. split; [exact HF1|]. split; [exact HF|].
intros v Hv. rewrite Hv in Hout. cbn in Hout. apply Hout.
Qed.

(** C7: [shuffle_exam_set] writes to no object that existed before the
  call, so that the exam set it is given reads after the call as it did
  before; what it returns holds new objects only. *)
Theorem shuffle_exam_set_frame (fuel : nat) (E : val) (seed : Z) (h : heap) :
let r := shuffle_exam_set R fuel E seed h in
(forall a o, h !! a = Some o -> snd r !! a = Some o)
/\ (forall v, fst r = Ok v -> fresh (length h) v)
/\ (forall a o, length h <= a -> snd r !! a = Some o ->
                fresh_obj (length h) o).
Proof.
cbv zeta.
destruct (shuffle_exam_set_extends fuel E seed h) as (F & -> & HF & Hv).
split; [|split; [exact Hv|]].
- intros a o Ha. apply lookup_app_l_Some. exact Ha.
- intros a o Ha Ho. rewrite lookup_app_r in Ho by exact Ha.
  rewrite Forall_forall in HF. apply HF.
  eapply list_elem_of_lookup_2. exact Ho.
Qed.

(** C4: a second call on the same exam set with the same seed, on the heap
  the first call leaves, ends as the first did: with the same exception,
  or with a result that reads as the same tree, choices, correct letters
  and recorded maps. *)
Theorem shuffle_exam_set_reinvoke (fuel : nat) (E : val) (seed : Z) (h : heap) :
heap_wf h -> Forall (fun a => a < length h) (refs E) ->
let r1 := shuffle_exam_set R fuel E seed h in
let r2 := shuffle_exam_set R fuel E seed (snd r1) in
match fst r1, fst r2 with
| Ok v1, Ok v2 =>
    forall k, snapshot k (snd r2) v2 = snapshot k (snd r1) v1
| Raise e1, Raise e2 => e1 = e2
| _, _ => False
end.
Proof.
intros Hwf HE. cbv zeta.
destruct (shuffle_exam_set_extends fuel E seed h) as (F & HF & _ & _).
assert (Hfix : Forall (fun o => sho (length h) (length F) o = o) h).
{ unfold heap_wf in Hwf. eapply Forall_impl; [exact Hwf|].
  intros o Ho. apply sho_old. exact Ho. }
pose proof (brel_shuffle_exam_set h F Hfix R fuel E seed h (h ++ F)
              (hrel_start h F)) as [Hh Hout].
rewrite (shv_old _ _ E HE) in Hh, Hout. rewrite <- HF in Hh, Hout.
destruct (fst (shuffle_exam_set R fuel E seed h)) as [v1|e1],
         (fst (shuffle_exam_set R fuel E seed
                 (snd (shuffle_exam_set R fuel E seed h)))) as [v2|e2];
  cbn in Hout; try contradiction; [|exact Hout].
intros k. destruct Hout as [_ ->].
apply (snapshot_twin h F Hfix k _ _ v1 Hh).
Qed.

End Claims.

(** ** The claims on a sample heap *)

Lemma sample_heap_wf : heap_wf sample_heap.
Proof. unfold heap_wf, sample_heap. cbn. repeat constructor. Qed.

Lemma shuffle_exam_set_reinvoke_witness :
  let r1 := shuffle_exam_set Lcg.R 20 (HRef 0) 7 sample_heap in
  let r2 := shuffle_exam_set Lcg.R 20 (HRef 0) 7 (snd r1) in
  match fst r1, fst r2 with
  | Ok v1, Ok v2 =>
      forall k, snapshot k (snd r2) v2 = snapshot k (snd r1) v1
  | Raise e1, Raise e2 => e1 = e2
  | _, _ => False
  end.
Proof.
  apply (shuffle_exam_set_reinvoke Lcg.R 20 (HRef 0) 7 sample_heap).
  - exact sample_heap_wf.
  - cbn. repeat constructor.
Defined.

(** On the sample heap the call returns, and its result reads as the
    result of [ShuffleService.shuffle_exam_set] on the exam set read as a
    tree. *)
Lemma shuffle_exam_set_on_sample_heap :
  exists v,
    fst (shuffle_exam_set Lcg.R 20 (HRef 0) 7 sample_heap) = Ok v
    /\ snapshot 20 (snd (shuffle_exam_set Lcg.R 20 (HRef 0) 7 sample_heap)) v
       = VDict (ShuffleService.shuffle_exam_set Lcg.R sample_heap_exam 7).
Proof.
  eexists. split; [vm_compute; reflexivity|].
  vm_compute. reflexivity.
Qed.

End HeapFacts.

(* ===================================================================== *)
(** * The grader: normal forms, verdicts and the report *)
(* ===================================================================== *)

Module GraderMore.
Import Py Grader.

(** ** Letter lists in normal form *)

(** The letters of A-F that occur in [l], in the order of the alphabet *)
Local Abbreviation letters_in l := (List.filter (fun x => str_in x l) LETTERS).

Lemma str_in_In (x : string) (l : list string) :
  str_in x l = true <-> In x l.
Proof.
  unfold str_in. rewrite existsb_exists. split.
  - intros (y & Hy & He). apply String.eqb_eq in He. subst. exact Hy.
  - intros H. exists x. split; [exact H|apply String.eqb_refl].
Qed.

Lemma str_in_cons (x y : string) (l : list string) :
  str_in x (y :: l) = String.eqb x y || str_in x l.
Proof. reflexivity. Qed.

Lemma in_LETTERS (x : string) :
  str_in x LETTERS = true ->
  x = "A" \/ x = "B" \/ x = "C" \/ x = "D" \/ x = "E" \/ x = "F".
Proof.
  rewrite str_in_In. cbn. intuition.
Qed.

Lemma insert_sorted_letters (x : string) (l : list string) :
  str_in x LETTERS = true ->
  insert_sorted x (letters_in l) = letters_in (x :: l).
Proof.
  intros Hx. unfold LETTERS. cbn [List.filter]. rewrite !str_in_cons.
  destruct (str_in "A" l), (str_in "B" l), (str_in "C" l),
           (str_in "D" l), (str_in "E" l), (str_in "F" l);
    apply in_LETTERS in Hx;
    destruct Hx as [->|[->|[->|[->|[->| ->]]]]]; reflexivity.
Qed.

Lemma sorted_set_letters (l : list string) :
  Forall (fun x => str_in x LETTERS = true) l ->
  sorted_set l = letters_in l.
Proof.
  induction 1 as [|x l Hx Hl IH]; [reflexivity|].
  cbn [sorted_set fold_right]. fold (sorted_set l). rewrite IH.
  apply insert_sorted_letters. exact Hx.
Qed.

Lemma letters_in_ext (a b : list string) :
  (forall x, str_in x LETTERS = true -> str_in x a = str_in x b) ->
  letters_in a = letters_in b.
Proof.
  intros H. unfold LETTERS. cbn [List.filter].
  rewrite !(H "A"), !(H "B"), !(H "C"), !(H "D"), !(H "E"), !(H "F");
    reflexivity.
Qed.

Lemma str_in_letters_in (x : string) (l : list string) :
  str_in x (letters_in l) = str_in x LETTERS && str_in x l.
Proof.
  apply eq_true_iff_eq. rewrite andb_true_iff, !str_in_In.
  rewrite filter_In, str_in_In. tauto.
Qed.

Lemma letters_in_idem (l : list string) :
  letters_in (letters_in l) = letters_in l.
Proof.
  apply letters_in_ext. intros x Hx. rewrite str_in_letters_in, Hx.
  reflexivity.
Qed.

Lemma letters_in_sublist (l : list string) : sublist (letters_in l) LETTERS.
Proof.
  generalize LETTERS. intros L. induction L as [|y L IH]; cbn.
  - constructor.
  - destruct (str_in y l); [apply sublist_skip|apply sublist_cons]; exact IH.
Qed.

Lemma letters_in_letters (l : list string) :
  Forall (fun x => str_in x LETTERS = true) (letters_in l).
Proof.
  apply List.Forall_forall. intros x Hx. apply filter_In in Hx as [Hx _].
  apply str_in_In. exact Hx.
Qed.

Lemma filter_letters (l : list string) :
  Forall (fun x => str_in x LETTERS = true)
         (List.filter (fun x => str_in x LETTERS) l).
Proof.
  apply List.Forall_forall. intros x Hx. apply filter_In in Hx as [_ Hx].
  exact Hx.
Qed.

Lemma digit_letters_letters (s : string) :
  Forall (fun x => str_in x LETTERS = true) (digit_letters s).
Proof.
  unfold digit_letters. apply List.Forall_forall. intros x Hx.
  apply in_flat_map in Hx as (c & _ & Hx).
  destruct ((0 <=? digit_val c)%Z && (digit_val c <? Z.of_nat (length LETTERS))%Z)
    eqn:E; [|destruct Hx].
  destruct Hx as [<-|[]].
  apply andb_true_iff in E as [E1 E2].
  apply Z.leb_le in E1. apply Z.ltb_lt in E2. cbn in E2.
  assert (Hn : Z.to_nat (digit_val c) < 6) by lia.
  destruct (Z.to_nat (digit_val c)) as [|[|[|[|[|[|n]]]]]];
    try reflexivity; lia.
Qed.

(** The normal form: what [_normalize_letter_list] returns is the list of
    the letters of A-F that occur in it, in the order of the alphabet. *)
Lemma normalize_letters_in (v : pyval) (r : list string) :
  _normalize_letter_list v = Ok r -> exists l, r = letters_in l.
Proof.
  assert (Hs : forall l, Forall (fun x => str_in x LETTERS = true) l ->
                         exists l', sorted_set l = letters_in l').
  { intros l Hl. exists l. apply sorted_set_letters. exact Hl. }
  assert (H0 : exists l, @nil string = letters_in l) by (exists []; reflexivity).
  assert (Hscalar : forall s,
    (if String.eqb s "" then Ok []
     else
       let s2 := remove_char " " (remove_char "," s) in
       if str_isdigit s2 then
         match digit_letters_of s2 with
         | Raise e => Raise e
         | Ok out => Ok (sorted_set out)
         end
       else if is_letter_run s2
            then Ok (sorted_set
                       (List.filter (fun ch => str_in ch LETTERS) (chars s2)))
            else if str_in s2 LETTERS then Ok [s2] else Ok []) = Ok r ->
    exists l, r = letters_in l).
  { intros s. destruct (String.eqb s ""); [intros [= <-]; exact H0|]. cbv zeta.
    destruct (str_isdigit _).
    { unfold digit_letters_of. destruct (all_chars is_digit _); [|discriminate].
      intros [= <-]. apply Hs, digit_letters_letters. }
    destruct (is_letter_run _); [intros [= <-]; apply Hs, filter_letters|].
    destruct (str_in _ LETTERS) eqn:E; intros [= <-]; [|exact H0].
    exists [remove_char " " (remove_char "," s)].
    apply in_LETTERS in E.
    destruct E as [->|[->|[->|[->|[->| ->]]]]]; reflexivity. }
  destruct v; try (intros [= <-]; exact H0); try apply Hscalar.
  intros [= <-]. apply Hs, filter_letters.
Qed.

Lemma normalize_fixed (v : pyval) (r : list string) :
  _normalize_letter_list v = Ok r -> letters_in r = r.
Proof.
  intros H. destruct (normalize_letters_in v r H) as [l ->].
  apply letters_in_idem.
Qed.

Lemma user_answer_fixed (qid : string) (answers : pyval) (form : form_t)
    (r : list string) :
  _get_user_answer_from_sources qid answers form = Ok r -> letters_in r = r.
Proof.
  unfold _get_user_answer_from_sources.
  destruct (String.eqb _ ""); [intros [= <-]; reflexivity|].
  destruct answers; try apply normalize_fixed;
    destruct form; try (intros [= <-]; reflexivity); apply normalize_fixed.
Qed.

Lemma correct_answer_fixed (q : dict) (ca : pyval) (r : list string) :
  _get_correct_answer q ca = Ok r -> letters_in r = r.
Proof. apply normalize_fixed. Qed.

Lemma letters_in_inj (a b : list string) :
  letters_in a = a -> letters_in b = b -> set_eqb a b = true -> a = b.
Proof.
  intros Ha Hb He. rewrite <- Ha, <- Hb. apply letters_in_ext.
  intros x _. unfold set_eqb in He. apply andb_true_iff in He as [H1 H2].
  rewrite forallb_forall in H1, H2.
  apply eq_true_iff_eq. split; intros H; apply str_in_In in H.
  - apply H1. exact H.
  - apply H2. exact H.
Qed.

Lemma set_eqb_refl (a : list string) : set_eqb a a = true.
Proof.
  unfold set_eqb. rewrite andb_diag. apply forallb_forall.
  intros x Hx. apply str_in_In. exact Hx.
Qed.

Lemma letter_stays (x : string) :
  str_in x LETTERS = true -> upper (strip x) = x /\ x <> "".
Proof.
  intros H. apply in_LETTERS in H.
  destruct H as [->|[->|[->|[->|[->| ->]]]]]; split; try reflexivity;
    discriminate.
Qed.

Lemma sorted_set_fixed (l : list string) :
  letters_in l = l -> sorted_set l = l.
Proof.
  intros H. rewrite sorted_set_letters; [exact H|].
  rewrite <- H. apply letters_in_letters.
Qed.

(** ** The normal form of a letter list *)

(** X1: on a plain answer, a plain scalar or a list of plain scalars,
    [_normalize_letter_list] returns, and what it returns is a subsequence
    of [A, B, C, D, E, F]: only letters of A-F, in the order of the
    alphabet, none twice. *)
Theorem normalize_letter_list_sublist (v : pyval) :
  plain_answer v = true ->
  exists l, _normalize_letter_list v = Ok l /\ sublist l LETTERS.
Proof.
  intros Hv. destruct (GraderFacts.normalize_returns v Hv) as [r Hr].
  exists r. split; [exact Hr|].
  destruct (normalize_letters_in v r Hr) as [l ->]. apply letters_in_sublist.
Qed.

Lemma normalize_letters (l : list string) :
  letters_in l = l ->
  _normalize_letter_list (VList (map VStr l)) = Ok l.
Proof.
  intros Hfix.
  assert (Hall : Forall (fun x => str_in x LETTERS = true) l).
  { rewrite <- Hfix. apply letters_in_letters. }
  cbn [_normalize_letter_list].
  match goal with
  | |- context [flat_map ?f (map VStr l)] =>
      assert (Hout : flat_map f (map VStr l) = l)
  end.
  { clear Hfix. induction Hall as [|x l Hx Hl IH]; [reflexivity|].
    cbn [map flat_map str]. rewrite IH. cbv zeta.
    destruct (letter_stays x Hx) as [-> Hne].
    destruct (String.eqb_spec x ""); [contradiction|reflexivity]. }
  rewrite Hout.
  assert (Hf : List.filter (fun x => str_in x LETTERS) l = l).
  { clear Hfix Hout. induction Hall as [|x l Hx Hl IH]; [reflexivity|].
    cbn [List.filter]. rewrite Hx, IH. reflexivity. }
  rewrite Hf. f_equal. apply sorted_set_fixed. exact Hfix.
Qed.

(** X2: normalising is idempotent: the list that [_normalize_letter_list]
    returns on a plain answer, read again as a list of answers, is
    returned as it is. *)
Theorem normalize_letter_list_idempotent (v : pyval) :
  plain_answer v = true ->
  exists l,
    _normalize_letter_list v = Ok l
    /\ _normalize_letter_list (VList (map VStr l)) = Ok l.
Proof.
  intros Hv. destruct (GraderFacts.normalize_returns v Hv) as [r Hr].
  exists r. split; [exact Hr|].
  apply normalize_letters, (normalize_fixed v r Hr).
Qed.

(** ** The verdict on one question *)

Lemma score_summary_spec (user correct : list string) :
  (set_eqb user correct = true <-> user = correct) ->
  exists ok : bool,
    _score_summary_q10 user correct = ((if ok then 2 else 0)%Z, 2%Z, ok)
    /\ (ok = true <-> user = correct /\ correct <> []).
Proof.
  intros Heq. unfold _score_summary_q10.
  destruct correct as [|c0 correct'].
  { exists false. split; [reflexivity|]. split; [discriminate|].
    intros [_ H]. contradiction. }
  destruct user as [|u0 user'].
  { exists false. split; [reflexivity|]. split; [discriminate|].
    intros [H _]. discriminate. }
  cbn [length Nat.eqb]. eexists. split; [reflexivity|].
  rewrite Heq. split; [intros H; split; [exact H|discriminate]|tauto].
Qed.

Lemma score_multi_spec (user correct : list string) :
  (set_eqb user correct = true <-> user = correct) ->
  exists ok : bool,
    _score_multi_exact user correct = ((if ok then 1 else 0)%Z, 1%Z, ok)
    /\ (ok = true <-> user = correct /\ correct <> []).
Proof.
  intros Heq. unfold _score_multi_exact.
  destruct correct as [|c0 correct'].
  { exists false. split; [reflexivity|]. split; [discriminate|].
    intros [_ H]. contradiction. }
  eexists. split; [reflexivity|].
  rewrite andb_true_iff, Heq. split.
  - intros [H _]. split; [exact H|discriminate].
  - intros [-> _]. split; reflexivity.
Qed.

Lemma score_single_spec (user correct : list string) :
  exists ok : bool,
    _score_single user correct = ((if ok then 1 else 0)%Z, 1%Z, ok)
    /\ (ok = true <-> exists u, user = [u] /\ In u correct).
Proof.
  unfold _score_single.
  destruct correct as [|c0 correct'].
  { exists false. split; [reflexivity|]. split; [discriminate|].
    intros (u & _ & H). destruct H. }
  destruct user as [|u0 [|u1 user']].
  - exists false. split; [reflexivity|]. split; [discriminate|].
    intros (u & H & _). discriminate.
  - eexists. split; [reflexivity|].
    assert (Hok : (if (length (c0 :: correct') =? 1)%nat
                   then String.eqb u0 c0 else str_in u0 (c0 :: correct'))
                  = str_in u0 (c0 :: correct')).
    { destruct correct' as [|c1 r]; cbn; [rewrite orb_false_r|]; reflexivity. }
    rewrite Hok, str_in_In. split.
    + intros H. exists u0. split; [reflexivity|exact H].
    + intros (u & [= <-] & H). exact H.
  - exists false. split; [reflexivity|]. split; [discriminate|].
    intros (u & H & _). discriminate.
Qed.

(** X3: on a plain question, with plain answers, keys and form, the
    submitted and the correct answers are read, and the loop body of
    [_grade_core] returns a feedback entry that lists them as they are; a
    [single] question is right exactly when one letter was submitted and it
    is among the correct ones; a question of any other type is right
    exactly when the submitted letters are the correct letters and there is
    one at least; the maximum is 2 points for a [summary] question and 1
    otherwise, and the points are the maximum or nothing. *)
Theorem grade_question_verdict (q : dict) (answers ca : pyval) (form : form_t) :
  plain_question q = true -> plain_answers answers = true ->
  plain_answers ca = true -> plain_form form = true ->
  exists user correct fb,
    _get_user_answer_from_sources
      (str (get_default "id" (VStr "unknown") q)) answers form = Ok user
    /\ _get_correct_answer q ca = Ok correct
    /\ grade_question q answers ca form = Ok fb
    /\ fb_user fb = user /\ fb_correct fb = correct
    /\ (fb_qtype fb = "single" ->
        (fb_ok fb = true <-> exists u, user = [u] /\ In u correct))
    /\ (fb_qtype fb <> "single" ->
        (fb_ok fb = true <-> user = correct /\ correct <> []))
    /\ fb_max_points fb
       = (if String.eqb (fb_qtype fb) "summary" then 2 else 1)%Z
    /\ fb_points fb = (if fb_ok fb then fb_max_points fb else 0)%Z.
Proof.
  intros Hq Ha Hca Hf.
  destruct (GraderFacts.plain_question_typed q Hq) as [t Ht].
  destruct (GraderFacts.user_answer_returns
              (str (get_default "id" (VStr "unknown") q)) answers form Ha Hf)
    as [user Huser].
  destruct (GraderFacts.correct_answer_returns q ca Hq Hca)
    as [correct Hcorrect].
  exists user, correct. unfold grade_question.
  rewrite Ht, Huser, Hcorrect.
  pose proof (user_answer_fixed _ _ _ _ Huser) as Hu.
  pose proof (correct_answer_fixed _ _ _ Hcorrect) as Hc.
  assert (Hsu : sorted_set user = user) by (apply sorted_set_fixed; exact Hu).
  assert (Hsc : sorted_set correct = correct)
    by (apply sorted_set_fixed; exact Hc).
  assert (Heq : set_eqb user correct = true <-> user = correct).
  { split; [apply letters_in_inj; assumption|].
    intros ->. apply set_eqb_refl. }
  rewrite Hsu, Hsc.
  destruct (String.eqb_spec t "summary") as [->|Hsum].
  - destruct (score_summary_spec user correct Heq) as (ok & -> & Hok).
    eexists. do 3 (split; [reflexivity|]). cbn.
    split; [reflexivity|]. split; [reflexivity|].
    split; [discriminate|]. split; [intros _; exact Hok|].
    split; [reflexivity|]. destruct ok; reflexivity.
  - assert (Et : String.eqb t "summary" = false)
      by (apply String.eqb_neq; exact Hsum).
    destruct (String.eqb_spec t "single") as [->|Hsin].
    + destruct (score_single_spec user correct) as (ok & -> & Hok).
      eexists. do 3 (split; [reflexivity|]). cbn.
      split; [reflexivity|]. split; [reflexivity|].
      split; [intros _; exact Hok|]. split; [intros H; contradiction|].
      split; [reflexivity|]. destruct ok; reflexivity.
    + destruct (score_multi_spec user correct Heq) as (ok & -> & Hok).
      eexists. do 3 (split; [reflexivity|]). cbn.
      split; [reflexivity|]. split; [reflexivity|].
      split; [intros H; contradiction|]. split; [intros _; exact Hok|].
      rewrite Et. split; [reflexivity|]. destruct ok; reflexivity.
Qed.

(** ** The report *)

Local Abbreviation sumZ l := (fold_right Z.add 0%Z l).

Lemma feedback_points (q : dict) (answers ca : pyval) (form : form_t)
    (fb : feedback) :
  grade_question q answers ca form = Ok fb ->
  (fb_max_points fb = 1 \/ fb_max_points fb = 2)%Z
  /\ fb_points fb = (if fb_ok fb then fb_max_points fb else 0)%Z.
Proof.
  unfold grade_question. destruct (question_type q) as [t|e]; [|discriminate].
  destruct (_get_user_answer_from_sources _ _ _) as [user|e]; [|discriminate].
  destruct (_get_correct_answer _ _) as [correct|e]; [|discriminate].
  destruct (if String.eqb t "summary" then _ else _) as [[pts mx] ok] eqn:E.
  intros [= <-]. cbn.
  destruct (String.eqb t "summary"); [|destruct (String.eqb t "single")];
    [unfold _score_summary_q10 in E|unfold _score_single in E
    |unfold _score_multi_exact in E];
    repeat match type of E with
           | context [match ?x with _ => _ end] => destruct x
           end;
    injection E as <- <- <-; auto.
Qed.

Lemma grade_loop_sums (answers ca : pyval) (form : form_t)
    (questions : list dict) :
  plain_answers answers = true -> plain_answers ca = true ->
  plain_form form = true ->
  Forall (fun q => plain_question q = true) questions ->
  forall sp tp fbs0,
  exists fbs,
    grade_loop questions answers ca form sp tp fbs0
    = Ok ((sp + sumZ (map fb_points fbs))%Z,
          (tp + sumZ (map fb_max_points fbs))%Z, fbs0 ++ fbs)
    /\ Forall2 (fun q fb => grade_question q answers ca form = Ok fb)
               questions fbs.
Proof.
  intros Ha Hca Hf.
  induction 1 as [|q qs Hq Hqs IH]; intros sp tp fbs0.
  - exists []. cbn. rewrite app_nil_r, !Z.add_0_r.
    split; [reflexivity|constructor].
  - destruct (GraderFacts.grade_question_returns q answers ca form
                Hq Ha Hca Hf) as (user & correct & fb & _ & _ & Hfb & _).
    cbn [grade_loop]. rewrite Hfb.
    destruct (IH (sp + fb_points fb)%Z (tp + fb_max_points fb)%Z (fbs0 ++ [fb]))
      as (fbs & Hloop & Hall).
    exists (fb :: fbs). split.
    + rewrite Hloop. cbn [map fold_right]. rewrite <- app_assoc.
      cbn [app]. f_equal. f_equal. f_equal; lia.
    + constructor; assumption.
Qed.

Lemma feedback_sums (fbs : list feedback) :
  Forall (fun fb =>
            (fb_max_points fb = 1 \/ fb_max_points fb = 2)%Z
            /\ fb_points fb = (if fb_ok fb then fb_max_points fb else 0)%Z) fbs ->
  (Z.of_nat (length (List.filter fb_ok fbs)) <= sumZ (map fb_points fbs)
   /\ sumZ (map fb_points fbs) <= sumZ (map fb_max_points fbs)
   /\ Z.of_nat (length fbs) <= sumZ (map fb_max_points fbs)
   /\ sumZ (map fb_max_points fbs) <= 2 * Z.of_nat (length fbs))%Z.
Proof.
  induction 1 as [|fb fbs [Hm Hp] Hall IH]; [cbn; lia|].
  cbn [List.filter map fold_right length]. rewrite Hp.
  destruct (fb_ok fb); cbn [length]; lia.
Qed.

Lemma scale_returns_upto_300 (raw total : Z) :
  (total <= 300)%Z -> exists s, scale_reading_score raw total = Ok s.
Proof.
  intros H. destruct (Z_lt_le_dec 0 total) as [Hpos|Hneg].
  - eexists. apply GraderFacts.scale_reading_score_upto_300. lia.
  - exists 0%Z. unfold scale_reading_score.
    destruct (Z.eqb_spec total 11); [lia|].
    destruct (Z.leb_spec total 0); [reflexivity|lia].
Qed.

(** X4: on at most 150 plain questions, with plain answers, keys and
    form, [grade] returns a report with one feedback entry per question;
    the points are the sums over the entries, every question counts 1 or 2
    points in the total, the number of right answers is at most the points
    scored, the points scored are at most the total, and the scaled score
    is of 0..30. *)
Theorem grade_report_bounds (questions : list dict) (form : form_t)
    (answers ca : pyval) :
  Forall (fun q => plain_question q = true) questions ->
  plain_answers answers = true -> plain_answers ca = true ->
  plain_form form = true ->
  length questions <= 150 ->
  exists rp,
    grade questions form answers ca = Ok rp
    /\ length (rp_feedback rp) = length questions
    /\ rp_question_count rp = Z.of_nat (length questions)
    /\ rp_score_points rp = sumZ (map fb_points (rp_feedback rp))
    /\ rp_total_points rp = sumZ (map fb_max_points (rp_feedback rp))
    /\ (0 <= rp_correct_count rp <= rp_score_points rp)%Z
    /\ (rp_score_points rp <= rp_total_points rp)%Z
    /\ (rp_question_count rp <= rp_total_points rp
        <= 2 * rp_question_count rp)%Z
    /\ (0 <= rp_scaled rp <= 30)%Z.
Proof.
  intros Hplain Ha Hca Hf Hmany. unfold grade, _grade_core.
  destruct (grade_loop_sums answers ca form questions Ha Hca Hf Hplain
              0%Z 0%Z [])
    as (fbs & -> & Hall).
  cbn [app].
  assert (Hlen : length fbs = length questions).
  { symmetry. eapply Forall2_length. exact Hall. }
  assert (Hfb : Forall (fun fb =>
            (fb_max_points fb = 1 \/ fb_max_points fb = 2)%Z
            /\ fb_points fb = (if fb_ok fb then fb_max_points fb else 0)%Z) fbs).
  { clear Hlen Hmany. induction Hall as [|q fb qs fbs Hq Hrest IH]; constructor.
    - eapply feedback_points. exact Hq.
    - apply IH. inversion Hplain; assumption. }
  destruct (feedback_sums fbs Hfb) as (H1 & H2 & H3 & H4).
  destruct (scale_returns_upto_300 (0 + sumZ (map fb_points fbs))
              (0 + sumZ (map fb_max_points fbs)) ltac:(lia)) as [s Hs].
  rewrite Hs. pose proof (GraderFacts.scale_reading_score_range _ _ _ Hs).
  eexists. split; [reflexivity|]. cbn.
  rewrite Hlen in *.
  split; [reflexivity|]. split; [reflexivity|].
  split; [reflexivity|]. split; [reflexivity|].
  split; [lia|]. split; [lia|]. split; lia.
Qed.

(** ** The scaled score *)

Lemma round_half_even_mono (a1 a2 b : Z) :
  (0 < b)%Z -> (a1 <= a2)%Z ->
  (round_half_even a1 b <= round_half_even a2 b)%Z.
Proof.
  intros Hb Ha.
  destruct (Z.eq_dec a1 a2) as [->|Hne]; [lia|].
  pose proof (GraderFacts.round_half_even_nearest a1 b Hb) as H1.
  pose proof (GraderFacts.round_half_even_nearest a2 b Hb) as H2.
  unfold is_nearest in H1, H2.
  destruct (Z_le_gt_dec (round_half_even a1 b) (round_half_even a2 b))
    as [|Hgt]; [assumption|].
  exfalso. nia.
Qed.

Lemma round_half_even_exact (n b : Z) :
  (0 < b)%Z -> round_half_even (n * b) b = n.
Proof.
  intros Hb. unfold round_half_even.
  rewrite Z.div_mul, Z.mod_mul by lia.
  destruct (2 * 0 <? b)%Z eqn:E; [reflexivity|].
  apply Z.ltb_ge in E. lia.
Qed.

Lemma table_11_mono (k1 k2 : Z) :
  (0 <= k1 <= k2)%Z -> (k2 <= 11)%Z -> (table_11 k1 <= table_11 k2)%Z.
Proof.
  intros H1 H2.
  assert (Hk1 : (k1 = 0 \/ k1 = 1 \/ k1 = 2 \/ k1 = 3 \/ k1 = 4 \/ k1 = 5
                 \/ k1 = 6 \/ k1 = 7 \/ k1 = 8 \/ k1 = 9 \/ k1 = 10
                 \/ k1 = 11)%Z) by lia.
  assert (Hk2 : (k2 = 0 \/ k2 = 1 \/ k2 = 2 \/ k2 = 3 \/ k2 = 4 \/ k2 = 5
                 \/ k2 = 6 \/ k2 = 7 \/ k2 = 8 \/ k2 = 9 \/ k2 = 10
                 \/ k2 = 11)%Z) by lia.
  repeat (destruct Hk1 as [->|Hk1]); try subst k1;
    repeat (destruct Hk2 as [->|Hk2]); try subst k2;
    cbn; lia.
Qed.

Lemma scale_exact_monotone (raw1 raw2 total : Z) :
  (0 < total)%Z -> (raw1 <= raw2)%Z ->
  (total = 11 -> 0 <= raw1 /\ raw2 <= 11)%Z ->
  (scale_reading_score_exact raw1 total
   <= scale_reading_score_exact raw2 total)%Z.
Proof.
  intros Hpos Hle H11. unfold scale_reading_score_exact.
  destruct (Z.eqb_spec total 11) as [->|Hne].
  - destruct (H11 eq_refl) as [Ha Hb].
    pose proof (table_11_mono raw1 raw2 ltac:(lia) Hb).
    pose proof (GraderFacts.table_11_range raw1).
    pose proof (GraderFacts.table_11_range raw2). lia.
  - destruct (total <=? 0)%Z eqn:E; [apply Z.leb_le in E; lia|].
    cbv zeta.
    set (s1 := Z.max 0 (Z.min raw1 total)).
    set (s2 := Z.max 0 (Z.min raw2 total)).
    assert (Hs : (0 <= s1 <= s2)%Z /\ (s2 <= total)%Z) by (subst s1 s2; lia).
    pose proof (round_half_even_mono (s1 * 11) (s2 * 11) total Hpos ltac:(lia)).
    pose proof (GraderFacts.round_half_even_bounds (s1 * 11) total 11 Hpos
                  ltac:(lia)).
    pose proof (GraderFacts.round_half_even_bounds (s2 * 11) total 11 Hpos
                  ltac:(lia)).
    pose proof (table_11_mono (round_half_even (s1 * 11) total)
                  (round_half_even (s2 * 11) total) ltac:(lia) ltac:(lia)).
    lia.
Qed.

(** X5: the scaled score does not decrease with the raw score: for a
    total of 1..300 other than 11 on all raw scores, and for the total 11
    on the raw scores of 0..11, the source returns on both raw scores, and
    no less on the greater. *)
Theorem scale_reading_score_monotone (raw1 raw2 total : Z) :
  (0 < total <= 300)%Z -> (raw1 <= raw2)%Z ->
  (total = 11 -> 0 <= raw1 /\ raw2 <= 11)%Z ->
  exists s1 s2,
    scale_reading_score raw1 total = Ok s1
    /\ scale_reading_score raw2 total = Ok s2
    /\ (s1 <= s2)%Z.
Proof.
  intros Hpos Hle H11.
  exists (scale_reading_score_exact raw1 total),
         (scale_reading_score_exact raw2 total).
  rewrite !GraderFacts.scale_reading_score_upto_300 by exact Hpos.
  split; [reflexivity|]. split; [reflexivity|].
  apply scale_exact_monotone; [lia|exact Hle|exact H11].
Qed.

Lemma scale_exact_full (t r : Z) :
  (0 < t)%Z -> t <> 11%Z -> (t <= r)%Z -> scale_reading_score_exact r t = 30%Z.
Proof.
  intros Ht Hne Hr. unfold scale_reading_score_exact.
  destruct (Z.eqb_spec t 11); [contradiction|].
  destruct (t <=? 0)%Z eqn:E; [apply Z.leb_le in E; lia|]. cbv zeta.
  replace (Z.max 0 (Z.min r t)) with t by lia.
  replace (t * 11)%Z with (11 * t)%Z by lia.
  rewrite round_half_even_exact by exact Ht. reflexivity.
Qed.

Lemma scale_exact_zero (t r : Z) :
  (0 < t)%Z -> t <> 11%Z -> (r <= 0)%Z -> scale_reading_score_exact r t = 0%Z.
Proof.
  intros Ht Hne Hr. unfold scale_reading_score_exact.
  destruct (Z.eqb_spec t 11); [contradiction|].
  destruct (t <=? 0)%Z eqn:E; [apply Z.leb_le in E; lia|]. cbv zeta.
  replace (Z.max 0 (Z.min r t)) with 0%Z by lia.
  change (0 * 11)%Z with (0 * t)%Z.
  rewrite round_half_even_exact by exact Ht. reflexivity.
Qed.

(** X6: the ends of the scale. A total that is not positive scores 0; for
    every total of 1..300 a full raw score scores 30 and a raw score of 0
    scores 0; for such a total other than 11 a raw score above the total
    counts as the total and one below 0 as 0, but for the total 11 a raw
    score outside 0..11 is not in the table and scores 0. *)
Theorem scale_reading_score_ends (raw total : Z) :
  ((total <= 0)%Z -> scale_reading_score raw total = Ok 0%Z)
  /\ ((0 < total <= 300)%Z ->
      scale_reading_score total total = Ok 30%Z
      /\ scale_reading_score 0 total = Ok 0%Z)
  /\ ((0 < total <= 300)%Z -> total <> 11%Z ->
      ((total <= raw)%Z -> scale_reading_score raw total = Ok 30%Z)
      /\ ((raw <= 0)%Z -> scale_reading_score raw total = Ok 0%Z))
  /\ ((raw < 0 \/ 11 < raw)%Z -> scale_reading_score raw 11 = Ok 0%Z).
Proof.
  split; [|split; [|split]].
  - intros Hle. unfold scale_reading_score.
    destruct (Z.eqb_spec total 11); [lia|].
    destruct (total <=? 0)%Z eqn:E; [reflexivity|].
    apply Z.leb_gt in E. lia.
  - intros Hpos. rewrite !GraderFacts.scale_reading_score_upto_300 by exact Hpos.
    destruct (Z.eq_dec total 11%Z) as [->|Hne].
    + split; reflexivity.
    + split; f_equal; [apply scale_exact_full|apply scale_exact_zero]; lia.
  - intros Hpos Hne.
    rewrite !GraderFacts.scale_reading_score_upto_300 by exact Hpos.
    split; intros H; f_equal;
      [apply scale_exact_full|apply scale_exact_zero]; lia.
  - intros H.
    change (scale_reading_score raw 11)
      with (Ok (Z.max 0 (Z.min 30 (table_11 raw)))).
    unfold table_11.
    repeat match goal with
           | |- context [(raw =? ?a)%Z] =>
               destruct (Z.eqb_spec raw a); [lia|]
           end.
    reflexivity.
Qed.

(** ** Instances on the samples *)

Lemma normalize_letter_list_sublist_witness :
  exists l, _normalize_letter_list (VStr "c, a") = Ok l /\ sublist l LETTERS.
Proof.
  apply (normalize_letter_list_sublist (VStr "c, a")). reflexivity.
Defined.

Lemma normalize_letter_list_idempotent_witness :
  exists l,
    _normalize_letter_list (VInt 20) = Ok l
    /\ _normalize_letter_list (VList (map VStr l)) = Ok l.
Proof.
  apply (normalize_letter_list_idempotent (VInt 20)). reflexivity.
Defined.

Lemma grade_question_verdict_witness :
  exists user correct fb,
    _get_user_answer_from_sources
      (str (get_default "id" (VStr "unknown") Samples.sample_q2))
      Samples.sample_answers NoForm = Ok user
    /\ _get_correct_answer Samples.sample_q2 VNone = Ok correct
    /\ grade_question Samples.sample_q2 Samples.sample_answers VNone NoForm
       = Ok fb
    /\ fb_user fb = user /\ fb_correct fb = correct
    /\ (fb_qtype fb = "single" ->
        (fb_ok fb = true <-> exists u, user = [u] /\ In u correct))
    /\ (fb_qtype fb <> "single" ->
        (fb_ok fb = true <-> user = correct /\ correct <> []))
    /\ fb_max_points fb
       = (if String.eqb (fb_qtype fb) "summary" then 2 else 1)%Z
    /\ fb_points fb = (if fb_ok fb then fb_max_points fb else 0)%Z.
Proof.
  apply (grade_question_verdict Samples.sample_q2 Samples.sample_answers VNone
           NoForm); reflexivity.
Defined.

Lemma grade_report_bounds_witness :
  exists rp,
    grade [Samples.sample_q1; Samples.sample_q2] NoForm Samples.sample_answers
      VNone = Ok rp
    /\ length (rp_feedback rp) = 2
    /\ rp_question_count rp = 2%Z
    /\ rp_score_points rp = fold_right Z.add 0%Z (map fb_points (rp_feedback rp))
    /\ rp_total_points rp = fold_right Z.add 0%Z (map fb_max_points (rp_feedback rp))
    /\ (0 <= rp_correct_count rp <= rp_score_points rp)%Z
    /\ (rp_score_points rp <= rp_total_points rp)%Z
    /\ (rp_question_count rp <= rp_total_points rp
        <= 2 * rp_question_count rp)%Z
    /\ (0 <= rp_scaled rp <= 30)%Z.
Proof.
  apply (grade_report_bounds [Samples.sample_q1; Samples.sample_q2] NoForm
           Samples.sample_answers VNone);
    [repeat constructor|reflexivity|reflexivity|reflexivity|cbn; lia].
Defined.

Lemma scale_reading_score_monotone_witness :
  exists s1 s2,
    scale_reading_score 5 20 = Ok s1
    /\ scale_reading_score 7 20 = Ok s2
    /\ (s1 <= s2)%Z.
Proof.
  apply (scale_reading_score_monotone 5 7 20); lia.
Defined.

End GraderMore.

(* ===================================================================== *)
(** * The shuffle: what it records and what it keeps *)
(* ===================================================================== *)

Module ShuffleMore.
Import Py ShuffleService ShuffleObs DictFacts ShuffleFacts Samples.

(** ** Dictionaries filled in a loop *)

Section Fill.
Context {K V : Type} (eqb : K -> K -> bool).
Hypothesis eqb_spec : forall a b, reflect (a = b) (eqb a b).

Lemma dict_set_fresh (k : K) (v : V) (d : list (K * V)) :
  dict_get eqb k d = None -> dict_set eqb k v d = d ++ [(k, v)].
Proof.
  induction d as [|[k' v'] d IH]; cbn; [reflexivity|].
  destruct (eqb k k'); [discriminate|]. intros H. rewrite IH by exact H.
  reflexivity.
Qed.

Lemma dict_get_app_fresh (k k' : K) (v : V) (d : list (K * V)) :
  k <> k' -> dict_get eqb k (d ++ [(k', v)]) = dict_get eqb k d.
Proof.
  intros Hne. induction d as [|[k2 v2] d IH]; cbn.
  - destruct (eqb_spec k k'); [contradiction|reflexivity].
  - destruct (eqb k k2); [reflexivity|exact IH].
Qed.

(** Assignments under pairwise different keys, none of them present, add
    the entries in the order of the loop. *)
Lemma fold_set_fresh {E : Type} (key : E -> K) (val : E -> V) (l : list E)
    (d0 : list (K * V)) :
  NoDup (map key l) ->
  (forall x, In x l -> dict_get eqb (key x) d0 = None) ->
  fold_left (fun d x => dict_set eqb (key x) (val x) d) l d0
  = d0 ++ map (fun x => (key x, val x)) l.
Proof.
  revert d0. induction l as [|x l IH]; intros d0 Hnd Hfresh; cbn.
  - rewrite app_nil_r. reflexivity.
  - cbn in Hnd. apply NoDup_cons in Hnd as [Hx Hnd].
    rewrite dict_set_fresh by (apply Hfresh; left; reflexivity).
    rewrite IH; [rewrite <- app_assoc; reflexivity|exact Hnd|].
    intros y Hy. rewrite dict_get_app_fresh.
    + apply Hfresh. right. exact Hy.
    + intros Heq. apply Hx. rewrite <- Heq.
      apply list_elem_of_In, in_map. exact Hy.
Qed.
End Fill.

Lemma letter_at_nodup (l : list nat) :
  NoDup l -> Forall (fun i => i < 4) l -> NoDup (map letter_at l).
Proof.
  induction 1 as [|i l Hi Hnd IH]; intros Hall; [constructor|].
  apply Forall_cons in Hall as [Hi4 Hall]. cbn. constructor; [|apply IH, Hall].
  intros Hin. apply list_elem_of_In, in_map_iff in Hin as (j & Hj & Hin).
  apply letter_at_inj in Hj.
  - subst j. apply Hi, list_elem_of_In. exact Hin.
  - rewrite Forall_forall in Hall. apply Hall, list_elem_of_In. exact Hin.
  - exact Hi4.
Qed.

Lemma old_index_to_new_index_entries {A : Type} (indexed : list (nat * A)) :
  NoDup (map fst indexed) ->
  old_index_to_new_index_of indexed
  = map (fun e => (fst (snd e), fst e)) (enumerate indexed).
Proof.
  intros Hnd. unfold old_index_to_new_index_of.
  rewrite (fold_set_fresh Nat.eqb Nat.eqb_spec
             (fun e : nat * (nat * A) => fst (snd e)) fst).
  - reflexivity.
  - rewrite <- (map_map snd fst), enumerate_map_snd. exact Hnd.
  - reflexivity.
Qed.

Section WithRandom.
Context (R : PyRandom).

Local Abbreviation indexed_of := (ShuffleService.indexed_of R).

(** ** The record on one question *)

Lemma shuffle_choices_one_meta (q : dict) (g : rng R) :
  four_choices q ->
  let o2n := old_index_to_new_index_of (indexed_of q g) in
  get "meta" (fst (_shuffle_choices_one R q g))
  = VDict (set "new_to_old_letter" (VDict (new_to_old_of o2n))
             (set "old_to_new_letter" (VDict (old_to_new_of o2n))
                (set "shuffled_choices" (VBool true) (meta_of q)))).
Proof.
  intros (c0 & c1 & c2 & c3 & Hc).
  unfold _shuffle_choices_one, indexed_of, parsed_choices, meta_of.
  rewrite Hc.
  destruct (shuffle R _ g) as [indexed g'] eqn:Es. cbn [fst].
  rewrite get_set_eq.
  rewrite set_correct_letters_get_other by discriminate.
  rewrite get_set_ne by discriminate. reflexivity.
Qed.

Section Permuting.
Hypothesis Hperm : shuffle_permutes R.
Context (q : dict) (g : rng R).
Hypothesis H4 : four_choices q.

Let q1 : dict := fst (_shuffle_choices_one R q g).
Let o2n : list (nat * nat) := old_index_to_new_index_of (indexed_of q g).

Lemma indexed_old_bound (new_i old_i : nat) (x : string * string) :
  indexed_of q g !! new_i = Some (old_i, x) ->
  new_i < 4 /\ old_i < 4 /\ parsed_choices q !! old_i = Some x.
Proof.
  intros H. split.
  - rewrite <- (indexed_length R Hperm q g H4). eapply lookup_lt_Some, H.
  - assert (Hin : In (old_i, x) (enumerate (parsed_choices q))).
    { apply list_elem_of_In.
      rewrite (indexed_perm R Hperm q g).
      eapply list_elem_of_lookup_2, H. }
    apply enumerate_In in Hin. split; [|exact Hin].
    rewrite <- (four_choices_parsed q H4). eapply lookup_lt_Some, Hin.
Qed.

Lemma old_bound : Forall (fun i => i < 4) (map fst (indexed_of q g)).
Proof.
  apply Forall_forall. intros i Hi.
  apply list_elem_of_In, in_map_iff in Hi as ([old_i x] & <- & Hin).
  apply list_elem_of_In, list_elem_of_lookup_1 in Hin as [new_i Hn].
  apply indexed_old_bound in Hn as (_ & H & _). exact H.
Qed.

Lemma o2n_entries :
  o2n = map (fun e => (fst (snd e), fst e)) (enumerate (indexed_of q g)).
Proof.
  apply old_index_to_new_index_entries, (indexed_nodup R Hperm q g).
Qed.

Lemma o2n_old : map fst o2n = map fst (indexed_of q g).
Proof.
  rewrite o2n_entries, map_map. cbn [fst].
  rewrite <- (map_map snd fst), enumerate_map_snd. reflexivity.
Qed.

Lemma o2n_new : map snd o2n = seq 0 4.
Proof.
  rewrite o2n_entries, map_map. cbn [snd].
  rewrite enumerate_map_fst, (indexed_length R Hperm q g H4). reflexivity.
Qed.

Lemma o2n_In (new_i old_i : nat) (x : string * string) :
  indexed_of q g !! new_i = Some (old_i, x) -> In (old_i, new_i) o2n.
Proof.
  intros H. rewrite o2n_entries. apply in_map_iff.
  exists (new_i, (old_i, x)). split; [reflexivity|].
  apply enumerate_In. exact H.
Qed.

(** The two maps at an entry of the new order *)
Lemma maps_at (new_i old_i : nat) (x : string * string) :
  indexed_of q g !! new_i = Some (old_i, x) ->
  get (letter_at old_i) (old_to_new_of o2n) = VStr (letter_at new_i)
  /\ get (letter_at new_i) (new_to_old_of o2n) = VStr (letter_at old_i).
Proof.
  intros H. pose proof (o2n_In _ _ _ H) as Hin.
  unfold get, old_to_new_of, new_to_old_of, set, dict. split.
  - pose proof (dict_get_fold_set String.eqb String.eqb_spec
                  (fun e : nat * nat => letter_at (fst e))
                  (fun e => VStr (letter_at (snd e))) o2n [] (old_i, new_i))
      as Hg.
    cbn [fst snd] in Hg. rewrite Hg; [reflexivity| |exact Hin].
    rewrite <- (map_map fst letter_at), o2n_old.
    apply letter_at_nodup;
      [apply (indexed_nodup R Hperm q g)|apply old_bound].
  - pose proof (dict_get_fold_set String.eqb String.eqb_spec
                  (fun e : nat * nat => letter_at (snd e))
                  (fun e => VStr (letter_at (fst e))) o2n [] (old_i, new_i))
      as Hg.
    cbn [fst snd] in Hg. rewrite Hg; [reflexivity| |exact Hin].
    rewrite <- (map_map snd letter_at), o2n_new.
    apply letter_at_nodup; [apply NoDup_seq|].
    apply Forall_forall. intros i Hi. apply elem_of_seq in Hi. lia.
Qed.

(** Every old position is at some new position, and back. *)
Lemma old_is_somewhere (old_i : nat) :
  old_i < 4 -> exists new_i x, indexed_of q g !! new_i = Some (old_i, x).
Proof.
  intros Hi.
  assert (Hl : old_i < length (parsed_choices q))
    by (rewrite (four_choices_parsed q H4); exact Hi).
  apply lookup_lt_is_Some_2 in Hl as [x Hx].
  assert (Hin : (old_i, x) ∈ indexed_of q g).
  { rewrite <- (indexed_perm R Hperm q g).
    apply list_elem_of_In, enumerate_In. exact Hx. }
  apply list_elem_of_lookup_1 in Hin as [new_i Hn]. exists new_i, x. exact Hn.
Qed.

Lemma new_is_something (new_i : nat) :
  new_i < 4 -> exists old_i x, indexed_of q g !! new_i = Some (old_i, x).
Proof.
  intros Hi. rewrite <- (indexed_length R Hperm q g H4) in Hi.
  apply lookup_lt_is_Some_2 in Hi as [[old_i x] Hx]. exists old_i, x. exact Hx.
Qed.

Lemma letter_is_at (L : string) :
  str_in L _LETTERS = true -> exists i, i < 4 /\ L = letter_at i.
Proof.
  intros H. apply str_in_LETTERS in H as [->|[->|[->| ->]]];
    [exists 0|exists 1|exists 2|exists 3]; split; (lia || reflexivity).
Qed.

Lemma q1_maps :
  get "shuffled_choices" (meta_of q1) = VBool true
  /\ old_to_new_letter q1 = old_to_new_of o2n
  /\ new_to_old_letter q1 = new_to_old_of o2n.
Proof.
  unfold old_to_new_letter, new_to_old_letter, meta_of, q1.
  rewrite (shuffle_choices_one_meta q g H4). cbv zeta. fold o2n.
  dict_simpl. repeat split.
Qed.

Lemma q1_texts (new_i old_i : nat) (lab txt : string) :
  indexed_of q g !! new_i = Some (old_i, (lab, txt)) ->
  texts_at q1 (letter_at new_i) = [txt].
Proof.
  intros H. unfold texts_at, q1. rewrite (shuffled_parsed R q g H4).
  eapply texts_of_label.
  - rewrite map_map. cbn [fst].
    rewrite <- (map_map fst letter_at), enumerate_map_fst.
    apply letter_at_nodup; [apply NoDup_seq|].
    apply Forall_forall. intros i Hi. apply elem_of_seq in Hi.
    rewrite (indexed_length R Hperm q g H4) in Hi. lia.
  - apply (map_enumerate_lookup
             (fun e : nat * (nat * (string * string)) =>
                (letter_at (fst e), snd (snd (snd e))))
             (indexed_of q g) new_i (old_i, (lab, txt)) H).
Qed.

Lemma q1_texts_perm :
  Permutation (map snd (parsed_choices q1)) (map snd (parsed_choices q)).
Proof.
  unfold q1. rewrite (shuffled_parsed R q g H4), map_map. cbn [snd].
  rewrite <- (map_map snd (fun x : nat * (string * string) => snd (snd x))).
  rewrite enumerate_map_snd.
  rewrite <- (indexed_perm R Hperm q g).
  rewrite <- (map_map snd snd), enumerate_map_snd. reflexivity.
Qed.
End Permuting.

(** ** The questions of the shuffled exam set *)

Lemma four_choices_dec (q : dict) : four_choices q \/ ~ four_choices q.
Proof.
  unfold four_choices.
  destruct (get "choices" q) as [| | | |l| |];
    try (right; intros (c0 & c1 & c2 & c3 & H); discriminate).
  destruct l as [|c0 [|c1 [|c2 [|c3 [|c4 l]]]]];
    try (right; intros (d0 & d1 & d2 & d3 & H); discriminate).
  left. exists c0, c1, c2, c3. reflexivity.
Qed.

Lemma set_seq_meta (i : nat) (q : dict) :
  meta_of (set_seq i q)
  = (if mem "seq" (meta_of q) then meta_of q
     else set "seq" (VInt (Z.of_nat i)) (meta_of q)).
Proof.
  unfold meta_of at 1, set_seq. rewrite get_set_eq. reflexivity.
Qed.

Lemma set_seq_meta_get (i : nat) (q : dict) (key : string) :
  key <> "seq" -> get key (meta_of (set_seq i q)) = get key (meta_of q).
Proof.
  intros Hne. rewrite set_seq_meta.
  destruct (mem "seq" (meta_of q)); [reflexivity|].
  apply get_set_ne. exact Hne.
Qed.

Lemma set_seq_maps (i : nat) (q : dict) :
  old_to_new_letter (set_seq i q) = old_to_new_letter q
  /\ new_to_old_letter (set_seq i q) = new_to_old_letter q.
Proof.
  unfold old_to_new_letter, new_to_old_letter.
  rewrite !set_seq_meta_get by discriminate. split; reflexivity.
Qed.

Lemma set_seq_texts (i : nat) (q : dict) (lab : string) :
  texts_at (set_seq i q) lab = texts_at q lab.
Proof. unfold texts_at. rewrite set_seq_parsed. reflexivity. Qed.

Lemma old_to_new_keys (o2n : list (nat * nat)) :
  NoDup (map letter_at (map fst o2n)) ->
  map fst (old_to_new_of o2n) = map letter_at (map fst o2n).
Proof.
  intros Hnd. unfold old_to_new_of, set, dict.
  rewrite (fold_set_fresh String.eqb String.eqb_spec
             (fun e : nat * nat => letter_at (fst e))
             (fun e => VStr (letter_at (snd e)))).
  - cbn [app]. rewrite !map_map. reflexivity.
  - rewrite <- (map_map fst letter_at). exact Hnd.
  - reflexivity.
Qed.

Lemma new_to_old_keys (o2n : list (nat * nat)) :
  NoDup (map letter_at (map snd o2n)) ->
  map fst (new_to_old_of o2n) = map letter_at (map snd o2n).
Proof.
  intros Hnd. unfold new_to_old_of, set, dict.
  rewrite (fold_set_fresh String.eqb String.eqb_spec
             (fun e : nat * nat => letter_at (snd e))
             (fun e => VStr (letter_at (fst e)))).
  - cbn [app]. rewrite !map_map. reflexivity.
  - rewrite <- (map_map snd letter_at). exact Hnd.
  - reflexivity.
Qed.

(** X7: for a 4-choice question the shuffle records two maps on the
    letters A-D that are inverse to each other: [old_to_new_letter] has the
    keys A-D, [new_to_old_letter] has them in this order, and a letter sent
    to another by one map is sent back by the other. *)
Theorem shuffle_records_inverse_maps (E : dict) (seed : Z) (k : nat)
    (q : dict) :
  shuffle_permutes R ->
  dict_questions E !! k = Some q -> four_choices q ->
  exists q',
    dict_questions (shuffle_exam_set R E seed) !! k = Some q'
    /\ get "shuffled_choices" (meta_of q') = VBool true
    /\ Permutation (map fst (old_to_new_letter q')) _LETTERS
    /\ map fst (new_to_old_letter q') = _LETTERS
    /\ (forall L, str_in L _LETTERS = true ->
        exists L', str_in L' _LETTERS = true
                   /\ get L (old_to_new_letter q') = VStr L'
                   /\ get L' (new_to_old_letter q') = VStr L)
    /\ (forall L', str_in L' _LETTERS = true ->
        exists L, str_in L _LETTERS = true
                  /\ get L' (new_to_old_letter q') = VStr L
                  /\ get L (old_to_new_letter q') = VStr L').
Proof.
  intros Hperm Hk H4.
  eexists. split; [apply shuffle_exam_set_nth; exact Hk|].
  set (g := Random R (seed * 1000003 + Z.of_nat k)%Z).
  destruct (set_seq_maps (S k) (fst (_shuffle_choices_one R q g))) as [-> ->].
  rewrite set_seq_meta_get by discriminate.
  destruct (q1_maps q g H4) as (Hs & -> & ->).
  split; [exact Hs|].
  set (o2n := old_index_to_new_index_of (indexed_of q g)).
  assert (Hold : NoDup (map letter_at (map fst o2n))).
  { unfold o2n. rewrite (o2n_old Hperm q g).
    apply letter_at_nodup; [apply (indexed_nodup R Hperm q g)|].
    apply (old_bound Hperm q g H4). }
  assert (Hnew : map snd o2n = seq 0 4) by apply (o2n_new Hperm q g H4).
  split; [|split; [|split]].
  - rewrite (old_to_new_keys o2n Hold). unfold o2n.
    rewrite (o2n_old Hperm q g).
    rewrite <- (Permutation_map fst (indexed_perm R Hperm q g)).
    rewrite enumerate_map_fst, (four_choices_parsed q H4). reflexivity.
  - rewrite new_to_old_keys; rewrite Hnew; [reflexivity|].
    apply letter_at_nodup; [apply NoDup_seq|].
    apply Forall_forall. intros i Hi. apply elem_of_seq in Hi. lia.
  - intros L HL. destruct (letter_is_at L HL) as (i & Hi & ->).
    destruct (old_is_somewhere Hperm q g H4 i Hi) as (new_i & x & Hx).
    destruct (maps_at Hperm q g H4 _ _ _ Hx) as [H1 H2].
    destruct (indexed_old_bound Hperm q g H4 _ _ _ Hx) as (Hn & _ & _).
    exists (letter_at new_i).
    split; [apply letter_at_in; exact Hn|]. split; assumption.
  - intros L HL. destruct (letter_is_at L HL) as (i & Hi & ->).
    destruct (new_is_something Hperm q g H4 i Hi) as (old_i & x & Hx).
    destruct (maps_at Hperm q g H4 _ _ _ Hx) as [H1 H2].
    destruct (indexed_old_bound Hperm q g H4 _ _ _ Hx) as (_ & Ho & _).
    exists (letter_at old_i).
    split; [apply letter_at_in; exact Ho|]. split; assumption.
Qed.

(** X8: the recorded map follows the choices: the choice that stood at
    position [i] of a 4-choice question stands, after the shuffle, at the
    letter that [old_to_new_letter] gives for the [i]-th letter, and it is
    the one choice at that letter. *)
Theorem shuffle_map_follows_choices (E : dict) (seed : Z) (k : nat)
    (q : dict) (i : nat) (lab txt : string) :
  shuffle_permutes R ->
  dict_questions E !! k = Some q -> four_choices q ->
  parsed_choices q !! i = Some (lab, txt) ->
  exists q' L',
    dict_questions (shuffle_exam_set R E seed) !! k = Some q'
    /\ get (letter_at i) (old_to_new_letter q') = VStr L'
    /\ str_in L' _LETTERS = true
    /\ texts_at q' L' = [txt].
Proof.
  intros Hperm Hk H4 Hi.
  set (g := Random R (seed * 1000003 + Z.of_nat k)%Z).
  assert (Hi4 : i < 4).
  { rewrite <- (four_choices_parsed q H4). eapply lookup_lt_Some, Hi. }
  destruct (old_is_somewhere Hperm q g H4 i Hi4) as (new_i & x & Hx).
  destruct (indexed_old_bound Hperm q g H4 _ _ _ Hx) as (Hn & _ & Hp).
  rewrite Hi in Hp. injection Hp as <-.
  eexists. exists (letter_at new_i).
  split; [apply shuffle_exam_set_nth; exact Hk|]. fold g.
  destruct (set_seq_maps (S k) (fst (_shuffle_choices_one R q g))) as [-> _].
  destruct (q1_maps q g H4) as (_ & -> & _).
  destruct (maps_at Hperm q g H4 _ _ _ Hx) as [H1 _].
  split; [exact H1|]. split; [apply letter_at_in; exact Hn|].
  rewrite set_seq_texts. apply (q1_texts Hperm q g H4 _ _ _ _ Hx).
Qed.

(** X9: the shuffle rearranges the choice texts of a question and does
    nothing else to them: the texts after the shuffle are a permutation of
    the texts before it. *)
Theorem shuffle_permutes_texts (E : dict) (seed : Z) (k : nat) (q : dict) :
  shuffle_permutes R ->
  dict_questions E !! k = Some q ->
  exists q',
    dict_questions (shuffle_exam_set R E seed) !! k = Some q'
    /\ Permutation (map snd (parsed_choices q')) (map snd (parsed_choices q)).
Proof.
  intros Hperm Hk.
  eexists. split; [apply shuffle_exam_set_nth; exact Hk|].
  rewrite set_seq_parsed.
  destruct (four_choices_dec q) as [H4|Hn].
  - apply (q1_texts_perm Hperm q _ H4).
  - rewrite (shuffle_choices_one_other R q _ Hn). reflexivity.
Qed.

Lemma dict_questions_length (E : dict) (seed : Z) :
  length (dict_questions (shuffle_exam_set R E seed))
  = length (dict_questions E).
Proof.
  unfold shuffle_exam_set, dict_questions.
  destruct (get "questions" E) as [| | | |qs| |] eqn:Hq;
    try (rewrite Hq; reflexivity).
  destruct qs as [|q0 qs]; [rewrite Hq; reflexivity|].
  rewrite get_set_eq.
  rewrite (dict_entries_map
             (fun e : nat * dict => set_seq (S (fst e)) (snd e))).
  rewrite !length_map, !enumerate_length, length_map, enumerate_length.
  reflexivity.
Qed.

Lemma exam_set_other_keys (E : dict) (seed : Z) (key : string) :
  key <> "questions" -> get key (shuffle_exam_set R E seed) = get key E.
Proof.
  intros Hne. unfold shuffle_exam_set.
  destruct (get "questions" E) as [| | | |qs| |]; try reflexivity.
  destruct qs; [reflexivity|]. apply get_set_ne. exact Hne.
Qed.

(** X10: the shuffle keeps the questions in their places and touches
    nothing but the choices, the correct answer and the meta record: the
    exam set has as many questions as before, every other key of the exam
    set reads as before, and so does every key of a question other than
    [choices], [correct], [correct_letter], [correct_letters],
    [correct_index] and [meta]. *)
Theorem shuffle_keeps_other_fields (E : dict) (seed : Z) (k : nat)
    (q : dict) :
  dict_questions E !! k = Some q ->
  length (dict_questions (shuffle_exam_set R E seed))
  = length (dict_questions E)
  /\ (forall key, key <> "questions" ->
        get key (shuffle_exam_set R E seed) = get key E)
  /\ exists q',
      dict_questions (shuffle_exam_set R E seed) !! k = Some q'
      /\ forall key,
          ~ In key ["choices"; "correct"; "correct_letter"; "correct_letters";
                    "correct_index"; "meta"] ->
          get key q' = get key q.
Proof.
  intros Hk. split; [apply dict_questions_length|].
  split; [intros key; apply exam_set_other_keys|].
  eexists. split; [apply shuffle_exam_set_nth; exact Hk|].
  intros key Hkey.
  assert (Hne : forall key', In key' ["choices"; "correct"; "correct_letter";
                                      "correct_letters"; "correct_index";
                                      "meta"] -> key <> key').
  { intros key' Hin ->. contradiction. }
  rewrite set_seq_get by (apply Hne; cbn; tauto).
  destruct (four_choices_dec q) as [H4|Hn].
  - destruct (shuffle_choices_one_eq R q
                (Random R (seed * 1000003 + Z.of_nat k)%Z) H4) as [meta ->].
    rewrite get_set_ne by (apply Hne; cbn; tauto).
    rewrite set_correct_letters_get_other by (apply Hne; cbn; tauto).
    apply get_set_ne. apply Hne; cbn; tauto.
  - rewrite (shuffle_choices_one_other R q _ Hn). reflexivity.
Qed.

(** X11: after the shuffle every question carries a sequence number in
    its meta record: the one it had, or its 1-based place in the exam set
    when it had none. *)
Theorem shuffle_numbers_questions (E : dict) (seed : Z) (k : nat) (q : dict) :
  dict_questions E !! k = Some q ->
  exists q',
    dict_questions (shuffle_exam_set R E seed) !! k = Some q'
    /\ mem "seq" (meta_of q') = true
    /\ get "seq" (meta_of q')
       = (if mem "seq" (meta_of q) then get "seq" (meta_of q)
          else VInt (Z.of_nat (S k))).
Proof.
  intros Hk.
  eexists. split; [apply shuffle_exam_set_nth; exact Hk|].
  set (g := Random R (seed * 1000003 + Z.of_nat k)%Z).
  assert (Hm : mem "seq" (meta_of (fst (_shuffle_choices_one R q g)))
               = mem "seq" (meta_of q)
               /\ get "seq" (meta_of (fst (_shuffle_choices_one R q g)))
                  = get "seq" (meta_of q)).
  { destruct (four_choices_dec q) as [H4|Hn].
    - unfold meta_of at 1 3. rewrite (shuffle_choices_one_meta q g H4).
      cbv zeta. rewrite !mem_set_ne by discriminate.
      rewrite !get_set_ne by discriminate. split; reflexivity.
    - rewrite (shuffle_choices_one_other R q g Hn). split; reflexivity. }
  destruct Hm as [Hm Hg]. rewrite set_seq_meta, Hm.
  destruct (mem "seq" (meta_of q)) eqn:Em.
  - split; [exact Hm|exact Hg].
  - split.
    + unfold mem, dict_mem, set.
      rewrite (dict_get_set_eq _ String.eqb_spec). reflexivity.
    + apply get_set_eq.
Qed.

End WithRandom.
(** ** Instances on the samples *)

Lemma shuffle_records_inverse_maps_witness :
  exists q',
    dict_questions (shuffle_exam_set Lcg.R sample_exam 7) !! 0 = Some q'
    /\ get "shuffled_choices" (meta_of q') = VBool true
    /\ Permutation (map fst (old_to_new_letter q')) _LETTERS
    /\ map fst (new_to_old_letter q') = _LETTERS
    /\ (forall L, str_in L _LETTERS = true ->
        exists L', str_in L' _LETTERS = true
                   /\ get L (old_to_new_letter q') = VStr L'
                   /\ get L' (new_to_old_letter q') = VStr L)
    /\ (forall L', str_in L' _LETTERS = true ->
        exists L, str_in L _LETTERS = true
                  /\ get L' (new_to_old_letter q') = VStr L
                  /\ get L (old_to_new_letter q') = VStr L').
Proof.
  apply (shuffle_records_inverse_maps Lcg.R sample_exam 7 0 sample_q1).
  - exact lcg_permutes.
  - reflexivity.
  - do 4 eexists. reflexivity.
Defined.

Lemma shuffle_map_follows_choices_witness :
  exists q' L',
    dict_questions (shuffle_exam_set Lcg.R sample_exam 7) !! 0 = Some q'
    /\ get (letter_at 1) (old_to_new_letter q') = VStr L'
    /\ str_in L' _LETTERS = true
    /\ texts_at q' L' = ["Asphalt and concrete re-radiate heat"].
Proof.
  apply (shuffle_map_follows_choices Lcg.R sample_exam 7 0 sample_q1 1 "B").
  - exact lcg_permutes.
  - reflexivity.
  - do 4 eexists. reflexivity.
  - reflexivity.
Defined.

Lemma shuffle_permutes_texts_witness :
  exists q',
    dict_questions (shuffle_exam_set Lcg.R sample_exam 7) !! 1 = Some q'
    /\ Permutation (map snd (parsed_choices q'))
                   (map snd (parsed_choices sample_q2)).
Proof.
  apply (shuffle_permutes_texts Lcg.R sample_exam 7 1 sample_q2).
  - exact lcg_permutes.
  - reflexivity.
Defined.

Lemma shuffle_keeps_other_fields_witness :
  length (dict_questions (shuffle_exam_set Lcg.R sample_exam 7))
  = length (dict_questions sample_exam)
  /\ (forall key, key <> "questions" ->
        get key (shuffle_exam_set Lcg.R sample_exam 7) = get key sample_exam)
  /\ exists q',
      dict_questions (shuffle_exam_set Lcg.R sample_exam 7) !! 2 = Some q'
      /\ forall key,
          ~ In key ["choices"; "correct"; "correct_letter"; "correct_letters";
                    "correct_index"; "meta"] ->
          get key q' = get key sample_q3.
Proof.
  apply (shuffle_keeps_other_fields Lcg.R sample_exam 7 2 sample_q3).
  reflexivity.
Defined.

Lemma shuffle_numbers_questions_witness :
  exists q',
    dict_questions (shuffle_exam_set Lcg.R sample_exam 7) !! 2 = Some q'
    /\ mem "seq" (meta_of q') = true
    /\ get "seq" (meta_of q')
       = (if mem "seq" (meta_of sample_q3) then get "seq" (meta_of sample_q3)
          else VInt (Z.of_nat 3)).
Proof.
  apply (shuffle_numbers_questions Lcg.R sample_exam 7 2 sample_q3).
  reflexivity.
Defined.

End ShuffleMore.

(* ===================================================================== *)
(** * The resolver: question numbers read from ids *)
(* ===================================================================== *)

Module QnoFacts.
Import Py ExamRoutes.

(** ** Strings as lists of characters *)








(** ** [strip] *)







(** ** Runs of characters *)




(** ** Instances *)


End QnoFacts.

(* ===================================================================== *)
(** * The resolver: the fallback and the remap *)
(* ===================================================================== *)

Module ResolverMore.
Import Py ShuffleService ShuffleObs ExamRoutes ResolverSteps DictFacts
       ShuffleFacts ShuffleMore Samples.

(** The fallback loop runs on what the key file gave. *)
Lemma build_correct_answers_steps (keys : pyval) (exam_set : dict) :
  _build_correct_answers keys exam_set
  = fold_left (fun out q =>
                 put_from_embedded (index_questions (questions_list exam_set))
                                   q out)
              (questions_list exam_set) (from_key_file keys exam_set).
Proof. reflexivity. Qed.

Lemma mem_set_eq (k : string) (v : pyval) (d : dict) : mem k (set k v d) = true.
Proof.
  unfold mem, dict_mem, set. rewrite (dict_get_set_eq _ String.eqb_spec).
  reflexivity.
Qed.

Lemma put_mem_mono (q_by_id : dict) (qid k : string) (raw : pyval) (out : dict) :
  mem k out = true -> mem k (_put q_by_id qid raw out) = true.
Proof.
  intros H. unfold _put. destruct (_normalize_correct_value raw); [exact H|].
  destruct (String.eqb_spec k qid) as [->|Hne]; [apply mem_set_eq|].
  rewrite mem_set_ne by exact Hne. exact H.
Qed.

Lemma put_from_embedded_keeps (q_by_id : dict) (q : pyval) (out : dict)
    (k : string) :
  mem k out = true ->
  mem k (put_from_embedded q_by_id q out) = true
  /\ get k (put_from_embedded q_by_id q out) = get k out.
Proof.
  intros H. unfold put_from_embedded.
  destruct q as [| | | | | |q]; try (split; [exact H|reflexivity]).
  set (qid := strip (str (get_default "id" (VStr "") q))).
  destruct (String.eqb qid ""); [split; [exact H|reflexivity]|].
  destruct (mem qid out) eqn:Em; [split; [exact H|reflexivity]|].
  split; [apply put_mem_mono; exact H|].
  unfold _put. destruct (_normalize_correct_value _); [reflexivity|].
  apply get_set_ne. intros ->. congruence.
Qed.

Lemma fallback_keeps (q_by_id : dict) (qs : list pyval) (out : dict)
    (k : string) :
  mem k out = true ->
  mem k (fold_left (fun out q => put_from_embedded q_by_id q out) qs out) = true
  /\ get k (fold_left (fun out q => put_from_embedded q_by_id q out) qs out)
     = get k out.
Proof.
  revert out. induction qs as [|q qs IH]; intros out H;
    [split; [exact H|reflexivity]|].
  cbn [fold_left].
  destruct (put_from_embedded_keeps q_by_id q out k H) as [Hm Hg].
  destruct (IH _ Hm) as [Hm' Hg']. split; [exact Hm'|].
  rewrite Hg'. exact Hg.
Qed.

(** X12: the fallback never overrides the key file: an id that the key
    file gave an answer keeps that answer, whatever the question itself
    says. *)
Theorem fallback_keeps_file_answers (keys : pyval) (exam_set : dict)
    (qid : string) :
  mem qid (from_key_file keys exam_set) = true ->
  get qid (_build_correct_answers keys exam_set)
  = get qid (from_key_file keys exam_set).
Proof.
  intros H. rewrite build_correct_answers_steps.
  apply fallback_keeps. exact H.
Qed.

(** X13: every question that carries an answer of its own is resolved:
    with a key file and an exam set of plain content, if a question of the
    exam set has an id and its [correct] field normalises to one letter at
    least, the resolver has an entry for the id, whatever plain content
    the key file holds. *)
Theorem embedded_answers_are_resolved (keys : pyval) (exam_set : dict)
    (q : dict) :
  let qid := strip (str (get_default "id" (VStr "") q)) in
  plain_val keys = true -> plain_val (VDict exam_set) = true ->
  In (VDict q) (questions_list exam_set) ->
  qid <> "" ->
  _normalize_correct_value (get "correct" q) <> [] ->
  mem qid (_build_correct_answers keys exam_set) = true.
Proof.
  intros qid _ _ Hin Hid Hnorm. rewrite build_correct_answers_steps.
  generalize (from_key_file keys exam_set).
  generalize (index_questions (questions_list exam_set)). intros q_by_id.
  revert Hin. generalize (questions_list exam_set). intros qs.
  induction qs as [|q0 qs IH]; intros Hin out; [destruct Hin|].
  cbn [fold_left]. destruct Hin as [->|Hin]; [|apply IH; exact Hin].
  apply fallback_keeps.
  unfold put_from_embedded. fold qid.
  destruct (String.eqb_spec qid ""); [contradiction|].
  destruct (mem qid out) eqn:Em; [exact Em|].
  unfold _put. destruct (_normalize_correct_value _); [contradiction|].
  apply mem_set_eq.
Qed.

(** ** The remap on a shuffled question *)

Lemma get_Some (k : string) (d : dict) (s : string) :
  get k d = VStr s -> dict_get String.eqb k d = Some (VStr s).
Proof.
  unfold get. destruct (dict_get String.eqb k d); [intros ->|discriminate].
  reflexivity.
Qed.

Lemma remap_letter_at (m : dict) (L L' : string) :
  str_in L _LETTERS = true -> get L m = VStr L' ->
  remap_letter m L = VStr L'.
Proof.
  intros HL Hg. unfold remap_letter, get_default.
  rewrite (letter_clean L HL), (get_Some _ _ _ Hg). reflexivity.
Qed.

Section WithRandom.
Context (R : PyRandom).

(** X14: the remap of the resolver follows the shuffle. On a 4-choice
    question whose choices are lettered A, B, C, D in this order, a letter
    of the key file, which names a choice as it stood before the shuffle,
    is remapped through the recorded map to the letter at which the same
    choice stands after the shuffle. *)
Theorem remap_follows_choice (E : dict) (seed : Z) (k : nat) (q : dict)
    (q_by_id : dict) (qid L : string) :
  shuffle_permutes R ->
  dict_questions E !! k = Some q -> four_choices q ->
  map fst (parsed_choices q) = _LETTERS ->
  str_in L _LETTERS = true ->
  exists q' L',
    dict_questions (shuffle_exam_set R E seed) !! k = Some q'
    /\ (get qid q_by_id = VDict q' ->
        _remap_if_shuffled q_by_id qid (VStr L) = VStr L'
        /\ _remap_if_shuffled q_by_id qid (VList [VStr L]) = VList [VStr L'])
    /\ texts_at q' L' = texts_at q L
    /\ length (texts_at q L) = 1.
Proof.
  intros Hperm Hk H4 Hlab HL.
  set (g := Random R (seed * 1000003 + Z.of_nat k)%Z).
  destruct (letter_is_at L HL) as (i & Hi & ->).
  assert (Hp : exists txt, parsed_choices q !! i = Some (letter_at i, txt)).
  { assert (Hl : i < length (parsed_choices q))
      by (rewrite (four_choices_parsed q H4); exact Hi).
    apply lookup_lt_is_Some_2 in Hl as [[lab txt] Hx]. exists txt.
    assert (Hlab' : map fst (parsed_choices q) !! i = Some lab)
      by (rewrite list_lookup_fmap, Hx; reflexivity).
    rewrite Hlab in Hlab'. unfold letter_at.
    rewrite (nth_lookup_Some _ _ "" _ Hlab'). exact Hx. }
  destruct Hp as [txt Hp].
  assert (Hold : texts_at q (letter_at i) = [txt]).
  { unfold texts_at. eapply texts_of_label; [|exact Hp].
    rewrite Hlab. apply LETTERS_nodup. }
  destruct (old_is_somewhere R Hperm q g H4 i Hi) as (new_i & x & Hx).
  destruct (indexed_old_bound R Hperm q g H4 _ _ _ Hx) as (Hn & _ & Hp').
  rewrite Hp in Hp'. injection Hp' as <-.
  destruct (maps_at R Hperm q g H4 _ _ _ Hx) as [H1 _].
  eexists. exists (letter_at new_i).
  split; [apply shuffle_exam_set_nth; exact Hk|]. fold g.
  split; [|split].
  - intros Hq. unfold _remap_if_shuffled, _get_old_to_new_map_for_qid.
    rewrite Hq.
    pose proof (set_seq_maps (S k) (fst (_shuffle_choices_one R q g)))
      as [Hm _].
    destruct (q1_maps R q g H4) as (_ & Hm' & _). rewrite Hm' in Hm.
    unfold old_to_new_letter, meta_of in Hm.
    destruct (get "meta" (set_seq (S k) (fst (_shuffle_choices_one R q g))))
      as [| | | | | |meta]; try (rewrite <- Hm in H1; discriminate).
    destruct (get "old_to_new_letter" meta) as [| | | | | |m];
      try (rewrite <- Hm in H1; discriminate).
    rewrite Hm. destruct (old_to_new_of _) eqn:Em; [discriminate|].
    rewrite <- Em in *. cbn [flat_map app].
    rewrite (remap_letter_at _ _ _ HL H1). split; reflexivity.
  - rewrite set_seq_texts, Hold. apply (q1_texts R Hperm q g H4 _ _ _ _ Hx).
  - rewrite Hold. reflexivity.
Qed.

End WithRandom.

(** ** Instances on the samples *)

Lemma fallback_keeps_file_answers_witness :
  get "P1-Q1" (_build_correct_answers (keys_row nine_answers) sample_base)
  = get "P1-Q1" (from_key_file (keys_row nine_answers) sample_base).
Proof.
  apply (fallback_keeps_file_answers (keys_row nine_answers) sample_base
           "P1-Q1").
  vm_compute. reflexivity.
Defined.

Lemma embedded_answers_are_resolved_witness :
  mem "P1-Q1" (_build_correct_answers (VDict []) sample_exam) = true.
Proof.
  apply (embedded_answers_are_resolved (VDict []) sample_exam sample_q1).
  - reflexivity.
  - vm_compute. reflexivity.
  - cbn. left. reflexivity.
  - discriminate.
  - vm_compute. discriminate.
Defined.

Lemma remap_follows_choice_witness :
  exists q' L',
    dict_questions (shuffle_exam_set Lcg.R sample_exam 7) !! 0 = Some q'
    /\ (get "P1-Q1" [("P1-Q1", VDict q')] = VDict q' ->
        _remap_if_shuffled [("P1-Q1", VDict q')] "P1-Q1" (VStr "B") = VStr L'
        /\ _remap_if_shuffled [("P1-Q1", VDict q')] "P1-Q1" (VList [VStr "B"])
           = VList [VStr L'])
    /\ texts_at q' L' = texts_at sample_q1 "B"
    /\ length (texts_at sample_q1 "B") = 1.
Proof.
  destruct (remap_follows_choice Lcg.R sample_exam 7 0 sample_q1
              [("P1-Q1", VDict (nth 0 (dict_questions
                                        (shuffle_exam_set Lcg.R sample_exam 7))
                                     []))]
              "P1-Q1" "B")
    as (q' & L' & Hq & Hmap & Ht & Hl).
  - exact lcg_permutes.
  - reflexivity.
  - do 4 eexists. reflexivity.
  - reflexivity.
  - reflexivity.
  - exists q', L'. split; [exact Hq|]. split; [|split; [exact Ht|exact Hl]].
    assert (Hn : nth 0 (dict_questions (shuffle_exam_set Lcg.R sample_exam 7)) []
                 = q').
    { apply nth_lookup_Some with (d := []) in Hq. exact Hq. }
    rewrite Hn in Hmap. exact Hmap.
Defined.

End ResolverMore.

(* ===================================================================== *)
(** * The services: sequence numbers, the merges and the attempts *)
(* ===================================================================== *)

Module ServicesMore.
Import Py ShuffleService ShuffleObs ExamServices DictFacts ShuffleFacts
       ShuffleMore Samples.

(** ** Sequence numbers *)

Lemma dict_set_set {K V : Type} (eqb : K -> K -> bool) (k : K) (v v' : V)
    (d : list (K * V)) :
  (forall a, eqb a a = true) ->
  dict_set eqb k v' (dict_set eqb k v d) = dict_set eqb k v' d.
Proof.
  intros Hrefl. induction d as [|[k0 v0] d IH]; cbn.
  - rewrite Hrefl. reflexivity.
  - destruct (eqb k k0) eqn:E; cbn.
    + rewrite Hrefl. reflexivity.
    + rewrite E, IH. reflexivity.
Qed.

Lemma set_set (k : string) (v v' : pyval) (d : dict) :
  set k v' (set k v d) = set k v' d.
Proof. apply dict_set_set, String.eqb_refl. Qed.

Lemma set_same (k : string) (d : dict) :
  get k d <> VNone -> set k (get k d) d = d.
Proof.
  unfold get, set. induction d as [|[k0 v0] d IH]; cbn; [congruence|].
  destruct (String.eqb k k0) eqn:Ek.
  - apply String.eqb_eq in Ek. subst k0. reflexivity.
  - intros H. rewrite IH by exact H. reflexivity.
Qed.

Lemma mem_set_same (k : string) (v : pyval) (d : dict) : mem k (set k v d) = true.
Proof.
  unfold mem, dict_mem, set. rewrite (dict_get_set_eq _ String.eqb_spec).
  reflexivity.
Qed.

Lemma set_seq_mem (i : nat) (q : dict) : mem "seq" (meta_of (set_seq i q)) = true.
Proof.
  rewrite set_seq_meta. destruct (mem "seq" (meta_of q)) eqn:E; [exact E|].
  apply mem_set_same.
Qed.

Lemma set_seq_numbered (j : nat) (q : dict) :
  mem "seq" (meta_of q) = true -> set_seq j q = set "meta" (VDict (meta_of q)) q.
Proof.
  intros H. unfold set_seq.
  change (match get "meta" q with VDict m => m | _ => [] end) with (meta_of q).
  rewrite H. reflexivity.
Qed.

Lemma set_seq_idem (i j : nat) (q : dict) :
  set_seq j (set_seq i q) = set_seq i q.
Proof.
  rewrite (set_seq_numbered j) by apply set_seq_mem.
  rewrite set_seq_meta. unfold set_seq.
  change (match get "meta" q with VDict m => m | _ => [] end) with (meta_of q).
  rewrite set_set. reflexivity.
Qed.

Lemma ensure_seq_one_dict (i : nat) (q : dict) :
  ensure_seq_one (i, VDict q) = VDict (set_seq (S i) q).
Proof. reflexivity. Qed.

Lemma ensure_seq_one_idem (i j : nat) (v : pyval) :
  ensure_seq_one (j, ensure_seq_one (i, v)) = ensure_seq_one (i, v).
Proof.
  destruct v; try reflexivity.
  rewrite !ensure_seq_one_dict, set_seq_idem. reflexivity.
Qed.

Lemma map_enumerate_fixed {A : Type} (f : nat * A -> A) (l : list A) :
  (forall i x, l !! i = Some x -> f (i, x) = x) ->
  map f (enumerate l) = l.
Proof.
  intros H. apply (list_eq_same_length _ _ (length l)); [reflexivity| |].
  - rewrite length_map, enumerate_length. reflexivity.
  - intros i x y _ Hx Hy.
    rewrite (map_enumerate_lookup f l i y Hy) in Hx. injection Hx as <-.
    apply H. exact Hy.
Qed.

Lemma ensure_seq_questions (E : dict) :
  questions_of (_ensure_seq E)
  = map ensure_seq_one (enumerate (questions_of E)).
Proof.
  unfold _ensure_seq, questions_of.
  destruct (get "questions" E) as [| | | |qs| |] eqn:Hq;
    try (rewrite Hq; reflexivity).
  rewrite get_set_eq. reflexivity.
Qed.

Lemma ensure_seq_other_keys (E : dict) (key : string) :
  key <> "questions" -> get key (_ensure_seq E) = get key E.
Proof.
  intros Hne. unfold _ensure_seq.
  destruct (get "questions" E); try reflexivity. apply get_set_ne. exact Hne.
Qed.

(** X16: [_ensure_seq] numbers the questions once and for all: every
    question that is an object gets a sequence number in its meta record,
    the one it had or its 1-based place, and reads as before under every
    other key; running [_ensure_seq] again changes nothing. *)
Theorem ensure_seq_numbers_once (E : dict) (k : nat) (q : dict) :
  questions_of E !! k = Some (VDict q) ->
  _ensure_seq (_ensure_seq E) = _ensure_seq E
  /\ length (questions_of (_ensure_seq E)) = length (questions_of E)
  /\ exists q',
      questions_of (_ensure_seq E) !! k = Some (VDict q')
      /\ mem "seq" (meta_of q') = true
      /\ get "seq" (meta_of q')
         = (if mem "seq" (meta_of q) then get "seq" (meta_of q)
            else VInt (Z.of_nat (S k)))
      /\ forall key, key <> "meta" -> get key q' = get key q.
Proof.
  intros Hk. split; [|split].
  - destruct (get "questions" E) as [| | | |qs| |] eqn:Hq;
      try (assert (He : _ensure_seq E = E)
             by (unfold _ensure_seq; rewrite Hq; reflexivity);
           rewrite !He; reflexivity).
    assert (He : _ensure_seq E
                 = set "questions"
                       (VList (map ensure_seq_one (enumerate qs))) E)
      by (unfold _ensure_seq; rewrite Hq; reflexivity).
    rewrite He. unfold _ensure_seq. rewrite get_set_eq, set_set.
    f_equal. f_equal.
    apply map_enumerate_fixed. intros i x Hx.
    apply list_lookup_fmap_Some in Hx as ([j y] & -> & Hy).
    apply enumerate_lookup in Hy as [-> _]. apply ensure_seq_one_idem.
  - rewrite ensure_seq_questions, length_map, enumerate_length. reflexivity.
  - exists (set_seq (S k) q). rewrite ensure_seq_questions.
    split; [apply (map_enumerate_lookup ensure_seq_one _ k _ Hk)|].
    split; [apply set_seq_mem|]. split.
    + rewrite set_seq_meta. destruct (mem "seq" (meta_of q)); [reflexivity|].
      apply get_set_eq.
    + intros key Hne. apply set_seq_get. exact Hne.
Qed.

Section WithRandom.
Context (R : PyRandom).

(** The shuffle has numbered the questions already: the call of
    [_ensure_seq] that [get_exam_set_for_attempt] makes on the shuffled
    exam set changes nothing. *)
Lemma shuffled_is_numbered (E : dict) (seed : Z) :
  _ensure_seq (shuffle_exam_set R E seed) = shuffle_exam_set R E seed.
Proof.
  unfold shuffle_exam_set.
  destruct (get "questions" E) as [| | | |qs| |] eqn:Hq;
    try (unfold _ensure_seq; rewrite Hq; reflexivity).
  destruct qs as [|q0 qs].
  { unfold _ensure_seq. rewrite Hq. cbn [enumerate length seq combine map].
    rewrite <- Hq at 1. apply set_same. rewrite Hq. discriminate. }
  match goal with
  | |- _ensure_seq (set "questions" (VList ?final) E) = _ =>
      set (fin := final)
  end.
  unfold _ensure_seq. rewrite get_set_eq, set_set. f_equal. f_equal.
  apply map_enumerate_fixed. intros i x Hx. unfold fin in Hx.
  apply list_lookup_fmap_Some in Hx as ([j y] & -> & Hy).
  rewrite ensure_seq_one_dict, set_seq_idem. reflexivity.
Qed.

End WithRandom.

(** ** The summary question *)

Section WithFiles.
Context (R : PyRandom).
Context (count_passages : Z)
        (load_exam_set : Z -> result (dict * list warning))
        (load_q9 : string -> result (pyval * list warning))
        (q10_bank answer_keys : result pyval).

Lemma q10_choices_nonempty (raw : pyval) :
  Forall (fun c => fst c <> "" /\ snd c <> "") (q10_choices raw).
Proof.
  unfold q10_choices. destruct raw; try constructor.
  apply Forall_forall. intros c Hc.
  apply list_elem_of_In, in_flat_map in Hc as (item & _ & Hc).
  destruct item; try destruct Hc.
  destruct (negb (String.eqb _ "")) eqn:E1; [|destruct Hc].
  destruct (negb (String.eqb (_as_str _) "")) eqn:E2; [|destruct Hc].
  destruct Hc as [<-|[]]. cbn [fst snd].
  apply negb_true_iff in E1, E2. apply String.eqb_neq in E1, E2.
  split; assumption.
Qed.

Lemma lookup_q10_nonempty (n : Z) (ws : list warning) (s : string) :
  fst (_lookup_q10_correct_from_answer_keys answer_keys n ws) = Some s ->
  s <> ""
  /\ snd (_lookup_q10_correct_from_answer_keys answer_keys n ws) = ws.
Proof.
  unfold _lookup_q10_correct_from_answer_keys.
  destruct answer_keys as [[| | | |payload| |]|e]; try discriminate.
  destruct (ExamRoutes.find_row n payload) as [[|r0 row]|]; try discriminate.
  destruct (get "answers" _) as [| | | |answers| |]; try discriminate.
  destruct (length answers <? 10)%nat; [discriminate|].
  destruct (nth 9 answers VNone) as [| | |q10| | |]; try discriminate.
  destruct (String.eqb_spec (upper (strip q10)) ""); [discriminate|].
  intros [= <-]. split; [assumption|reflexivity].
Qed.

(** X18: when [_load_q10_question_for_passage] returns a question it is a
    summary question with six choices, each a pair of a non-empty letter
    and a non-empty text, its correct answer is the list of the characters
    of the non-empty answer that the key file holds for question 10 of the
    passage, and no warning was appended. *)
Theorem q10_question_is_built (passage_id : string) (ws ws' : list warning)
    (q : dict) :
  _load_q10_question_for_passage q10_bank answer_keys passage_id ws
  = (Ok (VDict q), ws') ->
  ws' = ws
  /\ get "type" q = VStr "summary"
  /\ (exists cs,
        get "choices" q
        = VList (map (fun c => VTuple [VStr (fst c); VStr (snd c)]) cs)
        /\ length cs = 6
        /\ Forall (fun c => fst c <> "" /\ snd c <> "") cs)
  /\ (exists n s,
        passage_no_of (_norm_pid (VStr passage_id)) = Some n
        /\ fst (_lookup_q10_correct_from_answer_keys answer_keys n ws) = Some s
        /\ s <> ""
        /\ get "correct" q = VList (map VStr (Grader.chars s))).
Proof.
  unfold _load_q10_question_for_passage.
  destruct (String.eqb _ ""); [discriminate|].
  destruct (passage_no_of _) as [n|]; [|discriminate].
  destruct (get_q10_question q10_bank n) as [[| | | | | |[|e0 q10]]|e];
    try discriminate.
  destruct (int_of _) as [max_sel|e]; [|discriminate].
  destruct (negb (length (q10_choices _) =? 6)%nat) eqn:El; [discriminate|].
  destruct (_lookup_q10_correct_from_answer_keys answer_keys n ws)
    as [[s|] ws1] eqn:Ek; [|discriminate].
  intros [= <- <-].
  destruct (lookup_q10_nonempty n ws s) as [Hs Hws]; [rewrite Ek; reflexivity|].
  rewrite Ek in Hws. cbn [snd] in Hws.
  split; [exact Hws|]. split; [reflexivity|]. split.
  - eexists. split; [reflexivity|].
    apply negb_false_iff, Nat.eqb_eq in El. split; [exact El|].
    apply q10_choices_nonempty.
  - exists n, s. split; [reflexivity|].
    split; [rewrite Ek; reflexivity|]. split; [exact Hs|reflexivity].
Qed.

(** X19: the question that [get_q10_question] (services/q10_repo.py)
    returns for a passage has the id [P<n>-Q10], whatever id the bank gave
    it, a non-empty type, a prompt when the bank gave a stem, and a meta
    record with a question number. *)
Theorem get_q10_question_shape (n : Z) (q : dict) :
  get_q10_question q10_bank n = Ok (VDict q) ->
  get "id" q = VStr ("P" +:+ str_of_int n +:+ "-Q10")
  /\ truthy (get "type" q) = true
  /\ (mem "stem" q = true -> mem "prompt" q = true)
  /\ mem "question_no" (meta_of q) = true.
Proof.
  unfold get_q10_question.
  destruct (get_q10_item q10_bank n) as [[| | | | | |[|e0 item]]|e];
    try discriminate.
  destruct (get "q10" _) as [| | | | | |q10]; try discriminate.
  set (q1 := set "id" (VStr ("P" +:+ str_of_int n +:+ "-Q10")) q10).
  set (q2 := if truthy (get "type" q1) then q1
             else set "type" (VStr "summary") q1).
  set (q3 := if negb (mem "prompt" q2) && mem "stem" q2
             then set "prompt" (py_or (get "stem" q2) (VStr "")) q2 else q2).
  intros [= <-].
  assert (H2 : get "id" q2 = VStr ("P" +:+ str_of_int n +:+ "-Q10")
               /\ truthy (get "type" q2) = true).
  { unfold q2. destruct (truthy (get "type" q1)) eqn:Et.
    - split; [apply get_set_eq|exact Et].
    - split; [rewrite get_set_ne by discriminate; apply get_set_eq|].
      rewrite get_set_eq. reflexivity. }
  destruct H2 as [Hid Hty].
  assert (H3 : get "id" q3 = VStr ("P" +:+ str_of_int n +:+ "-Q10")
               /\ truthy (get "type" q3) = true
               /\ (mem "stem" q3 = true -> mem "prompt" q3 = true)).
  { unfold q3. destruct (mem "prompt" q2) eqn:Ep; cbn [negb andb].
    - split; [exact Hid|]. split; [exact Hty|]. intros _. exact Ep.
    - destruct (mem "stem" q2) eqn:Es.
      + rewrite !get_set_ne by discriminate.
        split; [exact Hid|]. split; [exact Hty|]. intros _.
        apply mem_set_same.
      + split; [exact Hid|]. split; [exact Hty|]. rewrite Es. discriminate. }
  destruct H3 as (Hid3 & Hty3 & Hst3).
  rewrite !get_set_ne by discriminate. rewrite !mem_set_ne by discriminate.
  split; [exact Hid3|]. split; [exact Hty3|]. split; [exact Hst3|].
  unfold meta_of. rewrite get_set_eq.
  set (M := match get "meta" q3 with VDict m => m | _ => [] end).
  destruct (mem "question_no" M) eqn:Em; [exact Em|apply mem_set_same].
Qed.

(** ** The merges *)

Lemma merge_q9_appends (E : dict) (pid : string) (ws ws' : list warning)
    (E' : dict) :
  merge_q9 load_q9 E pid ws = (Ok E', ws') ->
  (forall key, key <> "questions" -> get key E' = get key E)
  /\ exists extra, length extra <= 1
                   /\ questions_of E' = questions_of E ++ extra.
Proof.
  unfold merge_q9.
  assert (Hsame : (forall key, key <> "questions" -> get key E = get key E)
                  /\ exists extra, length extra <= 1
                                   /\ questions_of E = questions_of E ++ extra).
  { split; [reflexivity|]. exists []. rewrite app_nil_r. split; [cbn; lia|].
    reflexivity. }
  destruct (load_q9 pid) as [[q9 ws9]|e]; [|discriminate].
  destruct q9 as [| | | | | |[|e0 q9]]; try (intros [= <- <-]; exact Hsame).
  destruct (subscript _ 0) as [c0|]; [|discriminate].
  destruct (subscript _ 1) as [c1|]; [|discriminate].
  destruct (subscript _ 2) as [c2|]; [|discriminate].
  destruct (subscript _ 3) as [c3|]; [|discriminate].
  destruct (has_question_id _ _); intros [= <- <-]; [exact Hsame|].
  split; [intros key Hne; apply get_set_ne; exact Hne|].
  eexists [_]. split; [reflexivity|].
  unfold questions_of at 1. rewrite get_set_eq. reflexivity.
Qed.

Lemma merge_q10_appends (E : dict) (pid : string) (ws ws' : list warning)
    (E' : dict) :
  merge_q10 q10_bank answer_keys E pid ws = (Ok E', ws') ->
  (forall key, key <> "questions" -> get key E' = get key E)
  /\ exists extra, length extra <= 1
                   /\ questions_of E' = questions_of E ++ extra.
Proof.
  unfold merge_q10.
  assert (Hsame : (forall key, key <> "questions" -> get key E = get key E)
                  /\ exists extra, length extra <= 1
                                   /\ questions_of E = questions_of E ++ extra).
  { split; [reflexivity|]. exists []. rewrite app_nil_r. split; [cbn; lia|].
    reflexivity. }
  destruct (_load_q10_question_for_passage q10_bank answer_keys pid ws)
    as [[q10|e] ws1]; [|discriminate].
  destruct q10 as [| | | | | |[|e0 q10]]; try (intros [= <- <-]; exact Hsame).
  destruct (has_question_id _ _); intros [= <- <-]; [exact Hsame|].
  split; [intros key Hne; apply get_set_ne; exact Hne|].
  eexists [_]. split; [reflexivity|].
  unfold questions_of at 1. rewrite get_set_eq. reflexivity.
Qed.

Local Abbreviation pick_full_exam_set_for_attempt :=
  (ExamServices.pick_full_exam_set_for_attempt
     R count_passages load_exam_set load_q9 q10_bank answer_keys).

(** X20: the merges only append. When [pick_full_exam_set_for_attempt]
    returns, the exam set is the one the bank loader gave with at most two
    questions appended, numbered by [_ensure_seq]: the questions of the
    bank keep their places and every other key of the exam set reads as
    the loader gave it. *)
Theorem pick_full_only_appends (seed : Z) (E0 E' : dict)
    (ws0 : list warning) :
  load_exam_set (_derive_passage_index R seed
                   (Z.min count_passages MAX_PASSAGES)) = Ok (E0, ws0) ->
  pick_full_exam_set_for_attempt seed = Ok E' ->
  (forall key, key <> "questions" -> get key E' = get key E0)
  /\ exists extra,
      length extra <= 2
      /\ questions_of E'
         = map ensure_seq_one (enumerate (questions_of E0 ++ extra)).
Proof.
  intros Hload. unfold ExamServices.pick_full_exam_set_for_attempt.
  rewrite Hload.
  destruct (String.eqb _ "").
  { intros [= <-]. split; [intros key; apply ensure_seq_other_keys|].
    exists []. rewrite app_nil_r. split; [cbn; lia|].
    apply ensure_seq_questions. }
  destruct (merge_q9 load_q9 E0 _ ws0) as [[E1|e] ws1] eqn:E9; [|discriminate].
  destruct (merge_q10 q10_bank answer_keys E1 _ ws1) as [[E2|e] ws2] eqn:E10;
    [|discriminate].
  intros [= <-].
  destruct (merge_q9_appends _ _ _ _ _ E9) as (Hk1 & x1 & Hl1 & Hq1).
  destruct (merge_q10_appends _ _ _ _ _ E10) as (Hk2 & x2 & Hl2 & Hq2).
  split.
  - intros key Hne. rewrite ensure_seq_other_keys by exact Hne.
    rewrite Hk2 by exact Hne. apply Hk1. exact Hne.
  - exists (x1 ++ x2). split; [rewrite length_app; lia|].
    rewrite ensure_seq_questions, Hq2, Hq1, <- app_assoc. reflexivity.
Qed.

(** ** The attempts *)

Local Abbreviation create_attempt :=
  (ExamServices.create_attempt
     R count_passages load_exam_set load_q9 q10_bank answer_keys).

(** X21: [create_attempt] takes the next number of the counter as the id
    also when the exam set cannot be picked: the counter is one higher and
    the generator one draw further after every call; when the call raises,
    the attempts are as they were; when it returns, the attempt stored
    under the new id is not submitted, has no answers and no shuffled exam
    set yet, its mode is [full] or [single], its single index is of 1..10,
    and every other id holds the attempt it held. *)
Theorem create_attempt_effects (minutes_ : Z) (mode_ single_index_ : pyval)
    (w : world R) :
  let r := create_attempt minutes_ mode_ single_index_ w in
  ATTEMPT_COUNTER (snd r) = (ATTEMPT_COUNTER w + 1)%Z
  /\ global_rng (snd r) = snd (randint R 1 (10 ^ 9) (global_rng w))
  /\ match fst r with
     | Raise _ => ATTEMPTS (snd r) = ATTEMPTS w
     | Ok attempt_id =>
         attempt_id = str_of_int (ATTEMPT_COUNTER w + 1)
         /\ (forall other, other <> attempt_id ->
               dict_get String.eqb other (ATTEMPTS (snd r))
               = dict_get String.eqb other (ATTEMPTS w))
         /\ exists a,
             dict_get String.eqb attempt_id (ATTEMPTS (snd r)) = Some a
             /\ minutes a = minutes_
             /\ submitted a = false /\ timed_out a = false
             /\ answers a = [] /\ shuffled_exam_set a = None
             /\ (mode a = "full" \/ mode a = "single")
             /\ (1 <= single_index a <= 10)%Z
             /\ _ensure_seq (raw_exam_set a) = raw_exam_set a
     end.
Proof.
  unfold ExamServices.create_attempt.
  destruct (randint R 1 (10 ^ 9) (global_rng w)) as [seed g].
  destruct (py_or mode_ (VStr "full")) as [| | |m| | |];
    try (cbn; repeat split; reflexivity).
  destruct (ExamServices.pick_full_exam_set_for_attempt _ _ _ _ _ _ seed)
    as [raw|e] eqn:Ep; [|cbn; repeat split; reflexivity].
  cbn [fst snd ATTEMPT_COUNTER global_rng ATTEMPTS].
  split; [reflexivity|]. split; [reflexivity|]. split; [reflexivity|].
  split.
  { intros other Hne. apply (dict_get_set_ne _ String.eqb_spec). exact Hne. }
  eexists. split; [apply (dict_get_set_eq _ String.eqb_spec)|].
  cbn [minutes submitted timed_out answers shuffled_exam_set mode
       single_index raw_exam_set].
  repeat (split; [reflexivity|]). split; [|split].
  - destruct (str_in (lower (strip m)) ["full"; "single"]) eqn:Em;
      [|left; reflexivity].
    cbn in Em. rewrite orb_false_r in Em.
    apply orb_true_iff in Em as [Em|Em]; apply String.eqb_eq in Em;
      [left|right]; exact Em.
  - lia.
  - destruct (get "questions" raw) as [| | | |qs| |] eqn:Hq;
      try (assert (He : _ensure_seq raw = raw)
             by (unfold _ensure_seq; rewrite Hq; reflexivity);
           rewrite !He; reflexivity).
    assert (He : _ensure_seq raw
                 = set "questions"
                       (VList (map ensure_seq_one (enumerate qs))) raw)
      by (unfold _ensure_seq; rewrite Hq; reflexivity).
    rewrite He. unfold _ensure_seq. rewrite get_set_eq, set_set.
    f_equal. f_equal.
    apply map_enumerate_fixed. intros i x Hx.
    apply list_lookup_fmap_Some in Hx as ([j y] & -> & Hy).
    apply enumerate_lookup in Hy as [-> _]. apply ensure_seq_one_idem.
Qed.

End WithFiles.

(** ** Instances on the samples *)

Lemma ensure_seq_numbers_once_witness :
  _ensure_seq (_ensure_seq sample_exam) = _ensure_seq sample_exam
  /\ length (questions_of (_ensure_seq sample_exam))
     = length (questions_of sample_exam)
  /\ exists q',
      questions_of (_ensure_seq sample_exam) !! 0 = Some (VDict q')
      /\ mem "seq" (meta_of q') = true
      /\ get "seq" (meta_of q')
         = (if mem "seq" (meta_of sample_q1) then get "seq" (meta_of sample_q1)
            else VInt (Z.of_nat 1))
      /\ forall key, key <> "meta" -> get key q' = get key sample_q1.
Proof.
  apply (ensure_seq_numbers_once sample_exam 0 sample_q1). reflexivity.
Defined.

Lemma q10_question_is_built_witness :
  get "type" MoreSamples.sample_q10 = VStr "summary"
  /\ (exists cs,
        get "choices" MoreSamples.sample_q10
        = VList (map (fun c => VTuple [VStr (fst c); VStr (snd c)]) cs)
        /\ length cs = 6
        /\ Forall (fun c => fst c <> "" /\ snd c <> "") cs)
  /\ (exists n s,
        passage_no_of (_norm_pid (VStr "P1")) = Some n
        /\ fst (_lookup_q10_correct_from_answer_keys sample_keys n []) = Some s
        /\ s <> ""
        /\ get "correct" MoreSamples.sample_q10 = VList (map VStr (Grader.chars s))).
Proof.
  apply (q10_question_is_built (Ok (VList [q10_item "F"])) sample_keys "P1"
           [] [] MoreSamples.sample_q10).
  vm_compute. reflexivity.
Defined.

Lemma get_q10_question_shape_witness :
  get "id" MoreSamples.sample_q10_repo = VStr ("P" +:+ str_of_int 1 +:+ "-Q10")
  /\ truthy (get "type" MoreSamples.sample_q10_repo) = true
  /\ (mem "stem" MoreSamples.sample_q10_repo = true -> mem "prompt" MoreSamples.sample_q10_repo = true)
  /\ mem "question_no" (meta_of MoreSamples.sample_q10_repo) = true.
Proof.
  apply (get_q10_question_shape (Ok (VList [q10_item "F"])) 1 MoreSamples.sample_q10_repo).
  vm_compute. reflexivity.
Defined.

Lemma pick_full_only_appends_witness :
  (forall key, key <> "questions" -> get key MoreSamples.sample_picked = get key sample_base)
  /\ exists extra,
      length extra <= 2
      /\ questions_of MoreSamples.sample_picked
         = map ensure_seq_one (enumerate (questions_of sample_base ++ extra)).
Proof.
  apply (pick_full_only_appends Lcg.R 1 one_passage no_q9
           (Ok (VList [q10_item "F"])) sample_keys 5 sample_base MoreSamples.sample_picked
           []).
  - reflexivity.
  - vm_compute. reflexivity.
Defined.

End ServicesMore.

(* ===================================================================== *)
(** * The bank loader *)
(* ===================================================================== *)

Module LoaderFacts.
Import Py ShuffleService ShuffleObs ExamServices Loader DictFacts ShuffleFacts
       ShuffleMore Samples.

(** ** The four choices *)

Lemma fill_length (out : list string) (label text : string) :
  length (fill out label text) = length out.
Proof.
  unfold fill. destruct (_LETTER_TO_INDEX label); [apply length_insert|].
  reflexivity.
Qed.

Lemma fold_fill_length {A : Type} (f : list string -> A -> list string)
    (l : list A) (out : list string) :
  (forall o x, length (f o x) = length o) ->
  length (fold_left f l out) = length out.
Proof.
  intros Hf. revert out. induction l as [|x l IH]; intros out; [reflexivity|].
  cbn. rewrite IH. apply Hf.
Qed.

Lemma normalize_choices_length (raw : pyval) (ws : list warning)
    (qid : string) :
  length (fst (_normalize_choices raw ws qid)) = 4.
Proof.
  unfold _normalize_choices.
  destruct raw as [| | | |l| |]; try reflexivity.
  destruct l as [|c0 [|c1 [|c2 [|c3 [|c4 l]]]]]; try reflexivity.
  destruct (forallb is_str _); [reflexivity|].
  destruct (forallb is_dict _).
  - destruct (any_text _); [|reflexivity]. cbn [fst].
    rewrite fold_fill_length; [reflexivity|].
    intros o x. destruct x; try reflexivity. apply fill_length.
  - destruct (forallb is_pair _); [|reflexivity].
    destruct (any_text _); [|reflexivity]. cbn [fst].
    rewrite fold_fill_length; [reflexivity|].
    intros o x.
    destruct x as [| | | |[|a [|b [|c r]]]|[|a [|b [|c r]]]|];
      try reflexivity; apply fill_length.
Qed.

Lemma letter_index_bound (label : string) (i : nat) :
  _LETTER_TO_INDEX label = Some i -> i < 4.
Proof.
  unfold _LETTER_TO_INDEX.
  repeat (destruct (String.eqb label _); [intros [= <-]; lia|]).
  discriminate.
Qed.

Lemma normalize_correct_index_range (q : dict) (ws : list warning)
    (qid : string) :
  (0 <= fst (_normalize_correct_index q ws qid) <= 3)%Z.
Proof.
  unfold _normalize_correct_index.
  destruct (as_int (get "correct_index" q)) as [ci|].
  - destruct ((0 <=? ci)%Z && (ci <=? 3)%Z) eqn:E.
    + apply andb_true_iff in E as [E1 E2].
      apply Z.leb_le in E1, E2. cbn [fst]. lia.
    + destruct (match get "correct" q with VList (x :: _) => _ | _ => None end)
        as [i|] eqn:E1.
      { cbn [fst]. destruct (get "correct" q) as [| | | |[|x r]| |];
          try discriminate.
        apply letter_index_bound in E1. lia. }
      destruct (match get "correct" q with VStr _ => _ | _ => None end)
        as [i|] eqn:E2; [|cbn; lia].
      cbn [fst]. destruct (get "correct" q); try discriminate.
      apply letter_index_bound in E2. lia.
  - destruct (match get "correct" q with VList (x :: _) => _ | _ => None end)
      as [i|] eqn:E1.
    { cbn [fst]. destruct (get "correct" q) as [| | | |[|x r]| |];
        try discriminate.
      apply letter_index_bound in E1. lia. }
    destruct (match get "correct" q with VStr _ => _ | _ => None end)
      as [i|] eqn:E2; [|cbn; lia].
    cbn [fst]. destruct (get "correct" q); try discriminate.
    apply letter_index_bound in E2. lia.
Qed.

(** ** A normalised question *)

(** The shape of the questions that [_normalize_passage_schema] builds *)
Local Abbreviation normal_question d :=
  (exists qid stem c0 c1 c2 c3 ci expl meta,
     d = [("id", VStr qid); ("stem", VStr stem);
          ("choices", VList [VStr c0; VStr c1; VStr c2; VStr c3]);
          ("correct_index", VInt ci); ("explanation", expl);
          ("meta", VDict meta)]
     /\ (0 <= ci <= 3)%Z).

Lemma normalize_question_at_shape (pid : string) (idx : nat) (q : pyval)
    (ws : list warning) (d : dict) :
  fst (normalize_question_at pid idx q ws) = Some d -> normal_question d.
Proof.
  unfold normalize_question_at. destruct q as [| | | | | |q]; try discriminate.
  match goal with
  | |- context [_normalize_choices ?raw ws ?qid] =>
      pose proof (normalize_choices_length raw ws qid) as Hlen;
      destruct (_normalize_choices raw ws qid) as [choices ws1]
  end.
  match goal with
  | |- context [_normalize_correct_index q ws1 ?qid] =>
      pose proof (normalize_correct_index_range q ws1 qid) as Hci;
      destruct (_normalize_correct_index q ws1 qid) as [ci ws2]
  end.
  cbn [fst] in *. intros [= <-].
  destruct choices as [|c0 [|c1 [|c2 [|c3 [|c4 r]]]]]; try discriminate.
  do 9 eexists. split; [reflexivity|exact Hci].
Qed.

Lemma normalize_questions_shape (pid : string) (qs : list pyval) (idx : nat)
    (ws : list warning) :
  Forall (fun d => normal_question d)
         (fst (normalize_questions pid idx qs ws))
  /\ length (fst (normalize_questions pid idx qs ws))
     = length (List.filter is_dict qs).
Proof.
  revert idx ws. induction qs as [|q qs IH]; intros idx ws;
    [split; [constructor|reflexivity]|].
  cbn [normalize_questions].
  destruct (normalize_question_at pid idx q ws) as [qn ws1] eqn:Eq.
  destruct (IH (S idx) ws1) as [IH1 IH2].
  destruct (normalize_questions pid (S idx) qs ws1) as [rest ws2].
  cbn [fst] in *.
  assert (Hd : is_dict q = match qn with Some _ => true | None => false end).
  { unfold normalize_question_at in Eq. destruct q; try (injection Eq as <- _; reflexivity).
    destruct (_normalize_choices _ _ _), (_normalize_correct_index _ _ _).
    injection Eq as <- _. reflexivity. }
  cbn [List.filter]. rewrite Hd. destruct qn as [d|].
  - split; [|cbn; rewrite IH2; reflexivity].
    constructor; [|exact IH1].
    apply (normalize_question_at_shape pid idx q ws). rewrite Eq. reflexivity.
  - split; assumption.
Qed.

(** ** The question of the exam set *)

Lemma index_letter (ci : Z) :
  (0 <= ci <= 3)%Z -> _INDEX_TO_LETTER ci = letter_at (Z.to_nat ci).
Proof.
  intros H.
  assert (Hc : (ci = 0 \/ ci = 1 \/ ci = 2 \/ ci = 3)%Z) by lia.
  destruct Hc as [->|[->|[->| ->]]]; reflexivity.
Qed.

(** What [_passage_to_exam_set] makes of a normalised question *)
Lemma exam_question_normal (d : dict) :
  normal_question d ->
  exists q ci,
    exam_question (VDict d) = Ok q
    /\ (0 <= ci <= 3)%Z
    /\ get "type" q = VStr "single"
    /\ four_choices q
    /\ map fst (parsed_choices q) = ShuffleService._LETTERS
    /\ get "correct_index" q = VInt ci
    /\ get "correct" q = VList [VStr (letter_at (Z.to_nat ci))]
    /\ _get_correct_letters q = [letter_at (Z.to_nat ci)].
Proof.
  intros (qid & stem & c0 & c1 & c2 & c3 & ci & expl & meta & -> & Hci).
  assert (Hc : (ci = 0 \/ ci = 1 \/ ci = 2 \/ ci = 3)%Z) by lia.
  destruct meta as [|m0 meta].
  - eexists. exists ci.
    destruct Hc as [->|[->|[->| ->]]];
      (split; [reflexivity|]); (split; [lia|]); (split; [reflexivity|]);
      (split; [do 4 eexists; reflexivity|]); repeat split.
  - eexists. exists ci.
    destruct Hc as [->|[->|[->| ->]]];
      (split; [reflexivity|]); (split; [lia|]); (split; [reflexivity|]);
      (split; [do 4 eexists; reflexivity|]); repeat split.
Qed.

Lemma exam_questions_normal (ds : list dict) :
  Forall (fun d => normal_question d) ds ->
  exists qs,
    exam_questions (map VDict ds) = Ok qs
    /\ length qs = length ds
    /\ Forall (fun q =>
                 exists ci,
                   (0 <= ci <= 3)%Z
                   /\ get "type" q = VStr "single"
                   /\ four_choices q
                   /\ map fst (parsed_choices q) = ShuffleService._LETTERS
                   /\ get "correct_index" q = VInt ci
                   /\ get "correct" q = VList [VStr (letter_at (Z.to_nat ci))]
                   /\ _get_correct_letters q = [letter_at (Z.to_nat ci)]) qs.
Proof.
  induction 1 as [|d ds Hd Hds IH].
  - exists []. split; [reflexivity|]. split; [reflexivity|constructor].
  - destruct (exam_question_normal d Hd) as (q & ci & Hq & Hrest).
    destruct IH as (qs & Hqs & Hlen & Hall).
    exists (q :: qs). cbn [map exam_questions]. rewrite Hq, Hqs.
    split; [reflexivity|]. split; [cbn; rewrite Hlen; reflexivity|].
    constructor; [exists ci; exact Hrest|exact Hall].
Qed.

Lemma dict_questions_of_dicts (E : dict) (qs : list dict) :
  get "questions" E = VList (map VDict qs) -> dict_questions E = qs.
Proof.
  unfold dict_questions. intros ->.
  induction qs as [|q qs IH]; [reflexivity|]. cbn. rewrite IH. reflexivity.
Qed.

(** The questions that [_normalize_passage_schema] reads from a passage *)
Local Abbreviation raw_questions p :=
  (match get "questions" p with VList l => l | _ => [] end).

Lemma loader_on_passage (p : dict) (ws : list warning) :
  exists pn ws' E qs,
    _normalize_passage_schema (VDict p) ws = Ok (pn, ws')
    /\ _passage_to_exam_set pn = Ok E
    /\ dict_questions E = qs
    /\ length qs = length (List.filter is_dict (raw_questions p))
    /\ Forall (fun q =>
                 exists ci,
                   (0 <= ci <= 3)%Z
                   /\ get "type" q = VStr "single"
                   /\ four_choices q
                   /\ map fst (parsed_choices q) = ShuffleService._LETTERS
                   /\ get "correct_index" q = VInt ci
                   /\ get "correct" q = VList [VStr (letter_at (Z.to_nat ci))]
                   /\ _get_correct_letters q = [letter_at (Z.to_nat ci)]) qs.
Proof.
  unfold _normalize_passage_schema.
  set (pid := _as_str (snd (_pick_first_key p ["id"; "passage_id"]))).
  set (title := _as_str (get "title" p)).
  set (content := _as_str (snd (_pick_first_key p ["content"; "text"; "passage"]))).
  set (ws1 := match get "questions" p with
              | VList _ => ws
              | _ => ws ++ [W_bank ("passage " +:+ pid_or_unknown pid
                     +:+ ": questions missing or not a list; replaced with empty list.")]
              end).
  assert (Hraw : (match get "questions" p with
                  | VList l => (l, ws)
                  | _ => ([], ws ++ [W_bank ("passage " +:+ pid_or_unknown pid
                     +:+ ": questions missing or not a list; replaced with empty list.")])
                  end) = (raw_questions p, ws1)).
  { unfold ws1. destruct (get "questions" p); reflexivity. }
  rewrite Hraw.
  destruct (normalize_questions_shape pid (raw_questions p) 0 ws1)
    as [Hshape Hlen].
  destruct (normalize_questions pid 0 (raw_questions p) ws1)
    as [qs_norm ws2].
  cbn [fst] in Hshape, Hlen.
  destruct (exam_questions_normal qs_norm Hshape) as (qs & Hqs & Hl & Hall).
  eexists. eexists. eexists. exists qs.
  split; [reflexivity|].
  unfold _passage_to_exam_set, get_default. cbn [dict_get String.eqb Ascii.eqb Bool.eqb iterate].
  rewrite Hqs.
  split; [reflexivity|].
  split; [apply dict_questions_of_dicts; reflexivity|].
  split; [rewrite Hl; exact Hlen|exact Hall].
Qed.

(** X22: the loader makes well-formed questions of whatever the bank
    holds. For every passage that is an object, [_normalize_passage_schema]
    and [_passage_to_exam_set] return; the exam set has one question per
    entry of the passage that is an object; every question is of type
    [single], has four choices lettered A, B, C, D in this order, and its
    correct answer is one of these letters, the one at its correct index. *)
Theorem loader_builds_well_formed_questions (p : dict) (ws : list warning) :
  exists pn ws' E,
    _normalize_passage_schema (VDict p) ws = Ok (pn, ws')
    /\ _passage_to_exam_set pn = Ok E
    /\ length (dict_questions E)
       = length (List.filter is_dict (raw_questions p))
    /\ forall k q,
        dict_questions E !! k = Some q ->
        get "type" q = VStr "single"
        /\ four_choices q
        /\ map fst (parsed_choices q) = ShuffleService._LETTERS
        /\ exists ci,
            (0 <= ci <= 3)%Z
            /\ get "correct_index" q = VInt ci
            /\ get "correct" q = VList [VStr (letter_at (Z.to_nat ci))]
            /\ _get_correct_letters q = [letter_at (Z.to_nat ci)].
Proof.
  destruct (loader_on_passage p ws) as (pn & ws' & E & qs & H1 & H2 & H3 & H4 & H5).
  exists pn, ws', E. split; [exact H1|]. split; [exact H2|].
  rewrite H3. split; [exact H4|].
  intros k q Hk. rewrite Forall_forall in H5.
  destruct (H5 q (list_elem_of_lookup_2 _ _ _ Hk))
    as (ci & Hci & Ht & H4c & Hl & Hi & Hc & Hg).
  split; [exact Ht|]. split; [exact H4c|]. split; [exact Hl|].
  exists ci. split; [exact Hci|]. split; [exact Hi|].
  split; [exact Hc|exact Hg].
Qed.

Section WithRandom.
Context (R : PyRandom).

(** X23: the questions of the bank keep their correct choice through the
    shuffle. For every passage that is an object, every seed and every
    question of the loaded exam set, the one text marked correct after
    [shuffle_exam_set] is the text marked correct before it. *)
Theorem loaded_questions_keep_correct_text (p : dict) (ws : list warning)
    (seed : Z) :
  shuffle_permutes R ->
  exists pn ws' E,
    _normalize_passage_schema (VDict p) ws = Ok (pn, ws')
    /\ _passage_to_exam_set pn = Ok E
    /\ forall k q,
        dict_questions E !! k = Some q ->
        exists q',
          dict_questions (shuffle_exam_set R E seed) !! k = Some q'
          /\ correct_texts q' = correct_texts q
          /\ length (correct_texts q) = 1.
Proof.
  intros Hperm.
  destruct (loader_on_passage p ws) as (pn & ws' & E & qs & H1 & H2 & H3 & _ & H5).
  exists pn, ws', E. split; [exact H1|]. split; [exact H2|].
  intros k q Hk. rewrite H3 in Hk. rewrite Forall_forall in H5.
  destruct (H5 q (list_elem_of_lookup_2 _ _ _ Hk))
    as (ci & Hci & _ & H4 & Hl & _ & _ & Hg).
  rewrite <- H3 in Hk.
  assert (Hwl : well_lettered q).
  { split; [rewrite Hl; apply LETTERS_nodup|].
    apply Forall_forall. intros x Hx. apply str_in_LETTERS.
    assert (Hin : fst x ∈ map fst (parsed_choices q))
      by (apply list_elem_of_fmap_2; exact Hx).
    rewrite Hl in Hin. apply list_elem_of_In in Hin. cbn in Hin.
    destruct Hin as [<-|[<-|[<-|[<-|[]]]]]; auto. }
  assert (Hi4 : Z.to_nat ci < 4) by lia.
  assert (Hne : _get_correct_letters q <> []) by (rewrite Hg; discriminate).
  assert (Hcb : Forall (fun x => str_in x ShuffleService._LETTERS = true)
                       (_get_correct_letters q)).
  { rewrite Hg. constructor; [apply letter_at_in; exact Hi4|constructor]. }
  eexists. split; [apply shuffle_exam_set_nth; exact Hk|].
  set (g := Random R (seed * 1000003 + Z.of_nat k)%Z).
  destruct (shuffle_one_preserves R Hperm q g H4 Hwl Hne Hcb)
    as (Hc & _ & Htexts).
  split.
  - unfold correct_texts at 1.
    rewrite (get_correct_letters_top _ (ShuffleService.new_letters_of R q g)).
    + unfold texts_at. rewrite set_seq_parsed. exact Htexts.
    + rewrite set_seq_correct_letters. exact Hc.
  - unfold correct_texts. rewrite Hg. cbn [flat_map]. rewrite app_nil_r.
    assert (Hp : exists txt,
               parsed_choices q !! Z.to_nat ci
               = Some (letter_at (Z.to_nat ci), txt)).
    { assert (Hlt : Z.to_nat ci < length (parsed_choices q))
        by (rewrite (four_choices_parsed q H4); exact Hi4).
      apply lookup_lt_is_Some_2 in Hlt as [[lab txt] Hx]. exists txt.
      assert (Hlab : map fst (parsed_choices q) !! Z.to_nat ci = Some lab)
        by (rewrite list_lookup_fmap, Hx; reflexivity).
      rewrite Hl in Hlab. unfold letter_at.
      rewrite (nth_lookup_Some _ _ "" _ Hlab). exact Hx. }
    destruct Hp as [txt Hp]. unfold texts_at.
    rewrite (texts_of_label _ _ _ _ (proj1 Hwl) Hp). reflexivity.
Qed.

End WithRandom.

(** ** Choices given with their labels *)

(** X25: choices given as four labelled objects, in any order, are put
    in the order of their labels: with pairwise different labels, the text
    of the choice labelled with the [i]-th letter of A-D is the [i]-th text
    that [_normalize_choices] returns. *)
Theorem labelled_choices_are_ordered (l : list dict) (ws : list warning)
    (qid : string) (d : dict) (i : nat) :
  length l = 4 ->
  NoDup (map (fun x => upper (_as_str (get "label" x))) l) ->
  In d l ->
  _LETTER_TO_INDEX (upper (_as_str (get "label" d))) = Some i ->
  fst (_normalize_choices (VList (map VDict l)) ws qid) !! i
  = Some (_as_str (get "text" d)).
Proof.
  intros Hlen Hnd Hin Hi.
  set (label := fun x : dict => upper (_as_str (get "label" x))) in *.
  set (text := fun x : dict => _as_str (get "text" x)).
  change (_LETTER_TO_INDEX (label d) = Some i) in Hi.
  assert (Hfold : forall (l : list dict) (out : list string),
            fold_left (fun out item =>
                         match item with
                         | VDict x => fill out (upper (_as_str (get "label" x)))
                                           (_as_str (get "text" x))
                         | _ => out
                         end) (map VDict l) out
            = fold_left (fun out x => fill out (label x) (text x)) l out).
  { intros l0. induction l0 as [|x l0 IH]; intros out; [reflexivity|].
    cbn. apply IH. }
  assert (Hinj : forall a b j, _LETTER_TO_INDEX a = Some j ->
                               _LETTER_TO_INDEX b = Some j -> a = b).
  { intros a b j. unfold _LETTER_TO_INDEX.
    destruct (String.eqb_spec a "A"); [|destruct (String.eqb_spec a "B");
      [|destruct (String.eqb_spec a "C"); [|destruct (String.eqb_spec a "D")]]];
    try discriminate; intros [= <-];
    (destruct (String.eqb_spec b "A"); [|destruct (String.eqb_spec b "B");
      [|destruct (String.eqb_spec b "C"); [|destruct (String.eqb_spec b "D")]]]);
    try discriminate; intros _; congruence. }
  assert (Hkeep : forall (l : list dict) (out : list string) (t : string),
            out !! i = Some t ->
            (forall x, In x l -> label x <> label d) ->
            fold_left (fun out x => fill out (label x) (text x)) l out !! i
            = Some t).
  { intros l0. induction l0 as [|x l0 IH]; intros out t Ht Hdiff; [exact Ht|].
    cbn. apply IH; [|intros y Hy; apply Hdiff; right; exact Hy].
    unfold fill. destruct (_LETTER_TO_INDEX (label x)) as [j|] eqn:Ej;
      [|exact Ht].
    rewrite list_lookup_insert_ne; [exact Ht|].
    intros ->. apply (Hdiff x); [left; reflexivity|].
    eapply Hinj; eassumption. }
  assert (Hput : forall (l : list dict) (out : list string),
            length out = 4 -> NoDup (map label l) -> In d l ->
            fold_left (fun out x => fill out (label x) (text x)) l out !! i
            = Some (text d)).
  { intros l0. induction l0 as [|x l0 IH]; intros out Ho Hn Hd; [destruct Hd|].
    cbn in Hn. apply NoDup_cons in Hn as [Hx Hn]. cbn.
    destruct Hd as [->|Hd].
    - apply Hkeep.
      + unfold fill. rewrite Hi. apply list_lookup_insert_eq.
        rewrite Ho. eapply letter_index_bound, Hi.
      + intros y Hy Heq. apply Hx. rewrite <- Heq.
        apply list_elem_of_In, in_map. exact Hy.
    - apply IH; [rewrite fill_length; exact Ho|exact Hn|exact Hd]. }
  destruct l as [|x0 [|x1 [|x2 [|x3 [|x4 l]]]]]; try discriminate.
  unfold _normalize_choices. cbn [map forallb is_str is_dict andb].
  change [VDict x0; VDict x1; VDict x2; VDict x3]
    with (map VDict [x0; x1; x2; x3]).
  rewrite Hfold.
  pose proof (Hput [x0; x1; x2; x3] blanks eq_refl Hnd Hin) as Hout.
  destruct (any_text _) eqn:Ea; [exact Hout|].
  cbn [fst]. unfold any_text in Ea.
  assert (Hb : text d = "").
  { apply list_elem_of_lookup_2, list_elem_of_In in Hout.
    destruct (String.eqb_spec (text d) "") as [|Hne]; [assumption|].
    assert (Ht : existsb (fun s => negb (String.eqb s ""))
                   (fold_left (fun out x => fill out (label x) (text x))
                              [x0; x1; x2; x3] blanks) = true).
    { apply existsb_exists. exists (text d). split; [exact Hout|].
      apply negb_true_iff, String.eqb_neq. exact Hne. }
    rewrite Ht in Ea. discriminate. }
  fold (text d). rewrite Hb.
  apply letter_index_bound in Hi.
  destruct i as [|[|[|[|i]]]]; try reflexivity; lia.
Qed.

(** ** Instances on the samples *)

Lemma loaded_questions_keep_correct_text_witness :
  exists pn ws' E,
    _normalize_passage_schema (VDict MoreSamples.sample_passage) [] = Ok (pn, ws')
    /\ _passage_to_exam_set pn = Ok E
    /\ forall k q,
        dict_questions E !! k = Some q ->
        exists q',
          dict_questions (shuffle_exam_set Lcg.R E 7) !! k = Some q'
          /\ correct_texts q' = correct_texts q
          /\ length (correct_texts q) = 1.
Proof.
  apply (loaded_questions_keep_correct_text Lcg.R MoreSamples.sample_passage [] 7).
  exact lcg_permutes.
Defined.

Lemma labelled_choices_are_ordered_witness :
  fst (_normalize_choices (VList (map VDict MoreSamples.labelled)) [] "P1-Q2") !! 3
  = Some "Stopping wind permanently".
Proof.
  apply (labelled_choices_are_ordered MoreSamples.labelled [] "P1-Q2"
           [("label", VStr " d "); ("text", VStr "Stopping wind permanently")]
           3).
  - reflexivity.
  - vm_compute.
    repeat (apply NoDup_cons_2;
            [rewrite ?elem_of_cons, elem_of_nil; intuition discriminate|]).
    apply NoDup_nil_2.
  - cbn. tauto.
  - reflexivity.
Defined.

End LoaderFacts.

(* ===================================================================== *)
(** * The picked exam set, from the banks to the attempt *)
(* ===================================================================== *)

Module PipelineFacts.
Import Py ShuffleService ShuffleObs ExamServices Loader Shapes AttemptStore.
Import DictFacts ShuffleFacts ShuffleMore ServicesMore LoaderFacts Samples.

(** The shape of the questions that [_normalize_passage_schema] builds *)
Local Abbreviation normal_question d :=
  (exists qid stem c0 c1 c2 c3 ci expl meta,
     d = [("id", VStr qid); ("stem", VStr stem);
          ("choices", VList [VStr c0; VStr c1; VStr c2; VStr c3]);
          ("correct_index", VInt ci); ("explanation", expl);
          ("meta", VDict meta)]
     /\ (0 <= ci <= 3)%Z).

(** ** The warnings are only appended to *)

Lemma normalize_choices_appends (raw : pyval) (ws : list warning)
    (qid : string) :
  _normalize_choices raw ws qid
  = (fst (_normalize_choices raw [] qid),
     ws ++ snd (_normalize_choices raw [] qid)).
Proof.
  unfold _normalize_choices.
  destruct raw as [| | | |l| |]; try reflexivity.
  destruct l as [|c0 [|c1 [|c2 [|c3 [|c4 l]]]]]; try reflexivity.
  destruct (forallb is_str _); [cbn; rewrite app_nil_r; reflexivity|].
  destruct (forallb is_dict _).
  { destruct (any_text _); [cbn; rewrite app_nil_r|]; reflexivity. }
  destruct (forallb is_pair _); [|reflexivity].
  destruct (any_text _); [cbn; rewrite app_nil_r|]; reflexivity.
Qed.

Lemma normalize_correct_index_appends (q : dict) (ws : list warning)
    (qid : string) :
  _normalize_correct_index q ws qid
  = (fst (_normalize_correct_index q [] qid),
     ws ++ snd (_normalize_correct_index q [] qid)).
Proof.
  unfold _normalize_correct_index.
  destruct (match as_int (get "correct_index" q) with
            | Some ci => if (0 <=? ci)%Z && (ci <=? 3)%Z then Some ci else None
            | None => None
            end); [cbn; rewrite app_nil_r; reflexivity|].
  cbv zeta.
  destruct (match get "correct" q with VList (x :: _) => _ | _ => None end);
    [cbn; rewrite app_nil_r; reflexivity|].
  destruct (match get "correct" q with VStr _ => _ | _ => None end);
    [cbn; rewrite app_nil_r; reflexivity|].
  reflexivity.
Qed.

Lemma normalize_question_at_appends (pid : string) (idx : nat) (q : pyval)
    (ws : list warning) :
  normalize_question_at pid idx q ws
  = (fst (normalize_question_at pid idx q []),
     ws ++ snd (normalize_question_at pid idx q [])).
Proof.
  unfold normalize_question_at. destruct q as [| | | | | |q]; try reflexivity.
  cbv zeta.
  match goal with
  | |- context [_normalize_choices ?raw ws ?qid] =>
      rewrite (normalize_choices_appends raw ws qid);
      destruct (_normalize_choices raw [] qid) as [choices w1];
      cbn [fst snd];
      rewrite (normalize_correct_index_appends q (ws ++ w1) qid);
      rewrite (normalize_correct_index_appends q w1 qid);
      destruct (_normalize_correct_index q [] qid) as [ci w2]
  end.
  cbn [fst snd]. rewrite app_assoc. reflexivity.
Qed.

Lemma normalize_questions_appends (pid : string) (qs : list pyval)
    (idx : nat) (ws : list warning) :
  normalize_questions pid idx qs ws
  = (fst (normalize_questions pid idx qs []),
     ws ++ snd (normalize_questions pid idx qs [])).
Proof.
  revert idx ws. induction qs as [|q qs IH]; intros idx ws.
  - cbn. rewrite app_nil_r. reflexivity.
  - cbn [normalize_questions].
    rewrite (normalize_question_at_appends pid idx q ws).
    destruct (normalize_question_at pid idx q []) as [qn w1]. cbn [fst snd].
    rewrite (IH (S idx) (ws ++ w1)), (IH (S idx) w1).
    destruct (normalize_questions pid (S idx) qs []) as [rest w2].
    cbn [fst snd]. rewrite app_assoc. reflexivity.
Qed.

Lemma normalize_passage_schema_appends (p : pyval) (ws : list warning) :
  _normalize_passage_schema p ws
  = match _normalize_passage_schema p [] with
    | Ok (pn, a) => Ok (pn, ws ++ a)
    | Raise e => Raise e
    end.
Proof.
  unfold _normalize_passage_schema. destruct p as [| | | | | |p]; try reflexivity.
  cbv zeta.
  destruct (get "questions" p) as [| | | |l| |];
    match goal with
    | |- context [normalize_questions ?pid 0 ?qs (ws ++ ?w)] =>
        rewrite (normalize_questions_appends pid qs 0 (ws ++ w));
        rewrite (normalize_questions_appends pid qs 0 ([] ++ w));
        destruct (normalize_questions pid 0 qs []) as [qn w2];
        cbn [fst snd app]; rewrite <- app_assoc; reflexivity
    | |- context [normalize_questions ?pid 0 ?qs ws] =>
        rewrite (normalize_questions_appends pid qs 0 ws);
        destruct (normalize_questions pid 0 qs []) as [qn w2];
        cbn [fst snd app]; reflexivity
    end.
Qed.

Lemma load_q9_appends (q9_bank : option (result pyval)) (pid : string)
    (ws : list warning) :
  _load_q9_question_for_passage q9_bank pid ws
  = (fst (_load_q9_question_for_passage q9_bank pid []),
     ws ++ snd (_load_q9_question_for_passage q9_bank pid [])).
Proof.
  unfold _load_q9_question_for_passage.
  destruct q9_bank as [[payload|e]|];
    [|cbn; rewrite app_nil_r; reflexivity|reflexivity].
  destruct payload as [| | | | | |payload];
    try (cbn; rewrite app_nil_r; reflexivity).
  destruct (get_default "passages" (VList []) payload) as [| | | |[|p0 ps]| |];
    try reflexivity.
  cbv zeta. destruct (String.eqb _ ""); [reflexivity|].
  destruct (find_q9_passage _ _) as [target|]; [|reflexivity].
  rewrite (normalize_passage_schema_appends (VDict target) ws).
  destruct (_normalize_passage_schema (VDict target) []) as [[pn a]|e];
    [|cbn; rewrite app_nil_r; reflexivity].
  destruct (get_default "questions" (VList []) pn) as [| | | |[|q qs]| |];
    cbn [fst snd app]; rewrite <- ?app_assoc; reflexivity.
Qed.

(** ** The Q9 question *)

Lemma normalize_passage_questions (p : dict) (ws ws' : list warning)
    (pn : dict) :
  _normalize_passage_schema (VDict p) ws = Ok (pn, ws') ->
  exists qs,
    get_default "questions" (VList []) pn = VList (map VDict qs)
    /\ Forall (fun d => normal_question d) qs.
Proof.
  unfold _normalize_passage_schema. cbv zeta.
  destruct (match get "questions" p with VList l => _ | _ => _ end)
    as [qs_raw ws1].
  match goal with
  | |- context [normalize_questions ?pid 0 qs_raw ws1] =>
      destruct (normalize_questions_shape pid qs_raw 0 ws1) as [Hshape _];
      destruct (normalize_questions pid 0 qs_raw ws1) as [qs_norm ws2]
  end.
  intros [= <- <-]. exists qs_norm. split; [reflexivity|exact Hshape].
Qed.

Lemma load_q9_normal (q9_bank : option (result pyval)) (pid : string)
    (ws ws' : list warning) (v : pyval) :
  _load_q9_question_for_passage q9_bank pid ws = (Ok v, ws') ->
  v = VNone \/ exists d, v = VDict d /\ normal_question d.
Proof.
  unfold _load_q9_question_for_passage.
  destruct q9_bank as [[payload|e]|]; [|discriminate|intros [= <- _]; auto].
  destruct payload as [| | | | | |payload]; try discriminate.
  destruct (get_default "passages" (VList []) payload) as [| | | |[|p0 ps]| |];
    try (intros [= <- _]; auto).
  cbv zeta. destruct (String.eqb _ ""); [intros [= <- _]; auto|].
  destruct (find_q9_passage _ _) as [target|]; [|intros [= <- _]; auto].
  destruct (_normalize_passage_schema (VDict target) ws) as [[pn a]|e] eqn:En;
    [|discriminate].
  destruct (normalize_passage_questions _ _ _ _ En) as (qs & -> & Hqs).
  destruct qs as [|d qs]; cbn [map]; [intros [= <- _]; auto|].
  intros [= <- _]. right. exists d. split; [reflexivity|].
  inversion Hqs; assumption.
Qed.

Lemma merge_q9_normal (load_q9 : string -> result (pyval * list warning))
    (E : dict) (pid : string) (ws ws9 : list warning) (d : dict) :
  load_q9 pid = Ok (VDict d, ws9) -> normal_question d ->
  exists q E',
    merge_q9 load_q9 E pid ws = (Ok E', ws ++ ws9)
    /\ single_question q
    /\ (E' = E
        \/ E' = set "questions" (VList (questions_of E ++ [VDict q])) E).
Proof.
  intros Hl (qid & stem & c0 & c1 & c2 & c3 & ci & expl & meta & -> & Hci).
  unfold merge_q9. rewrite Hl. cbn.
  match goal with
  | |- context [VDict (match meta with [] => ?a | _ :: _ => ?b end)] =>
      set (q9 := match meta with [] => a | _ :: _ => b end)
  end.
  assert (Hq9 : single_question q9).
  { assert (Hc : (ci = 0 \/ ci = 1 \/ ci = 2 \/ ci = 3)%Z) by lia.
    unfold single_question, q9.
    destruct meta as [|m0 meta];
      destruct Hc as [->|[->|[->| ->]]];
      (split; [reflexivity|]); (split; [do 4 eexists; reflexivity|]);
      (split; [reflexivity|]);
      eexists; (split; [|split; [reflexivity|split; reflexivity]]); lia. }
  exists q9.
  destruct (has_question_id _ _); eexists; (split; [reflexivity|]);
    (split; [exact Hq9|]); [left|right]; reflexivity.
Qed.

Lemma normalize_passage_schema_ok (p : dict) (ws : list warning) :
  exists pn ws', _normalize_passage_schema (VDict p) ws = Ok (pn, ws').
Proof.
  destruct (loader_on_passage p ws) as (pn & ws' & _ & _ & H & _).
  exists pn, ws'. exact H.
Qed.

(** X26: the Q9 loader and the normalisation of a passage only append to
    the warnings: what they return does not depend on the warnings handed
    in, and the warnings they leave are those handed in followed by the
    warnings of a call with none. *)
Theorem loaders_only_append_warnings (q9_bank : option (result pyval))
    (pid : string) (p : pyval) (ws : list warning) :
  fst (_load_q9_question_for_passage q9_bank pid ws)
  = fst (_load_q9_question_for_passage q9_bank pid [])
  /\ snd (_load_q9_question_for_passage q9_bank pid ws)
     = ws ++ snd (_load_q9_question_for_passage q9_bank pid [])
  /\ _normalize_passage_schema p ws
     = match _normalize_passage_schema p [] with
       | Ok (pn, a) => Ok (pn, ws ++ a)
       | Raise e => Raise e
       end.
Proof.
  rewrite (load_q9_appends q9_bank pid ws). cbn [fst snd].
  split; [reflexivity|]. split; [reflexivity|].
  apply normalize_passage_schema_appends.
Qed.

(** ** The bank loader *)

(** X24: any passage index loads a passage. From a bank of plain content
    that holds a non-empty list of passages, all of them objects,
    [_load_exam_set_from_passages] returns for every integer index, also a
    negative one or one beyond the list. It returns the exam set of the
    passage at the index modulo the number of passages, and these warnings
    and no others, in this order: that the index was wrapped, if it is not
    one of the list; the warnings of the normalisation of the passage; that
    the passage has no questions, if the exam set has none. *)
Theorem load_exam_set_wraps_index (d : dict) (ps : list pyval) (i : Z) :
  plain_val (VDict d) = true ->
  get "passages" d = VList ps -> ps <> [] ->
  Forall (fun p => is_dict p = true) ps ->
  let n := Z.of_nat (length ps) in
  exists pn a E,
    _normalize_passage_schema (nth (Z.to_nat (i mod n)) ps VNone) []
    = Ok (pn, a)
    /\ _passage_to_exam_set pn = Ok E
    /\ _load_exam_set_from_passages (Some (Ok (VDict d))) i
       = Ok (E,
             (if (0 <=? i)%Z && (i <? n)%Z then []
              else [W_bank "passage_index out of range; wrapped by modulo."])
             ++ a
             ++ (if truthy (get "questions" E) then []
                 else [W_bank
                         "Selected passage has zero questions after normalization."])).
Proof.
  intros _ Hps Hne Hall n.
  assert (Hn : (0 < n)%Z) by (unfold n; destruct ps; [contradiction|cbn; lia]).
  assert (Hi : Z.to_nat (i mod n) < length ps).
  { pose proof (Z.mod_pos_bound i n Hn). unfold n in *. lia. }
  apply lookup_lt_is_Some_2 in Hi as [p Hp].
  rewrite (nth_lookup_Some _ _ VNone _ Hp).
  rewrite Forall_forall in Hall.
  pose proof (Hall p (list_elem_of_lookup_2 _ _ _ Hp)) as Hd.
  destruct p as [| | | | | |p]; try discriminate.
  destruct (loader_on_passage p []) as (pn & a & E & qs & H1 & H2 & _).
  exists pn, a, E. split; [exact H1|]. split; [exact H2|].
  assert (Hw : (if negb (i mod n =? i)%Z
                then [W_bank "passage_index out of range; wrapped by modulo."]
                else [])
               = (if (0 <=? i)%Z && (i <? n)%Z then []
                  else [W_bank "passage_index out of range; wrapped by modulo."])).
  { destruct (Z.leb_spec 0 i), (Z.ltb_spec i n); cbn [andb].
    - rewrite Z.mod_small, Z.eqb_refl by lia. reflexivity.
    - pose proof (Z.mod_pos_bound i n Hn).
      destruct (Z.eqb_spec (i mod n) i); [lia|reflexivity].
    - pose proof (Z.mod_pos_bound i n Hn).
      destruct (Z.eqb_spec (i mod n) i); [lia|reflexivity].
    - pose proof (Z.mod_pos_bound i n Hn).
      destruct (Z.eqb_spec (i mod n) i); [lia|reflexivity]. }
  unfold _load_exam_set_from_passages, _validate_passages_payload_loose,
    get_default.
  assert (Hg : dict_get String.eqb "passages" d = Some (VList ps)).
  { unfold get in Hps. destruct (dict_get String.eqb "passages" d);
      [f_equal; exact Hps|discriminate]. }
  rewrite Hps, Hg. destruct ps as [|p0 ps']; [contradiction|].
  cbn [fst negb]. fold n.
  rewrite (nth_lookup_Some _ _ VNone _ Hp).
  rewrite normalize_passage_schema_appends, H1, H2, Hw.
  destruct (truthy (get "questions" E));
    rewrite ?app_nil_r, <- ?app_assoc; reflexivity.
Qed.

(** ** The Q9 merge *)

Lemma merge_q9_bank_ok (q9_bank : option (result pyval)) (E : dict)
    (pid : string) (ws ws' : list warning) (E' : dict) :
  merge_q9 (q9_loader q9_bank) E pid ws = (Ok E', ws') ->
  (exists a, ws' = ws ++ a)
  /\ (E' = E
      \/ exists q,
          single_question q
          /\ E' = set "questions" (VList (questions_of E ++ [VDict q])) E).
Proof.
  destruct (_load_q9_question_for_passage q9_bank pid []) as [[v|e] ws9]
    eqn:El.
  - assert (Hl : q9_loader q9_bank pid = Ok (v, ws9))
      by (unfold q9_loader; rewrite El; reflexivity).
    destruct (load_q9_normal _ _ _ _ _ El) as [->|(d & -> & Hd)].
    + unfold merge_q9. rewrite Hl. intros [= <- <-].
      split; [exists ws9; reflexivity|left; reflexivity].
    + destruct (merge_q9_normal _ E pid ws ws9 d Hl Hd)
        as (q & E1 & -> & Hq & HE).
      intros [= <- <-]. split; [exists ws9; reflexivity|].
      destruct HE as [->| ->]; [left; reflexivity|].
      right. exists q. split; [exact Hq|reflexivity].
  - unfold merge_q9, q9_loader. rewrite El. discriminate.
Qed.

(** X27: the Q9 merge on a Q9 bank, for a plain passage id and a bank
    whose content, when its file is read, is plain with short passage ids.
    The merge then raises only when the file of the bank cannot be read or
    its content is no object; otherwise it leaves the exam set as it is or
    appends one question, a well-formed single-choice question, and it only
    appends to the warnings. *)
Theorem merge_q9_from_bank (q9_bank : option (result pyval)) (E : dict)
    (pid : string) (ws : list warning) :
  plain_pid pid = true ->
  (forall payload, q9_bank = Some (Ok payload) -> plain_q9_bank payload = true) ->
  match merge_q9 (q9_loader q9_bank) E pid ws with
  | (Ok E', ws') =>
      (exists a, ws' = ws ++ a)
      /\ (E' = E
          \/ exists q,
              single_question q
              /\ E' = set "questions" (VList (questions_of E ++ [VDict q])) E)
  | (Raise e, ws') =>
      ws' = ws
      /\ (q9_bank = Some (Raise e)
          \/ e = AttributeError
             /\ exists v, q9_bank = Some (Ok v) /\ is_dict v = false)
  end.
Proof.
  intros _ _.
  destruct (merge_q9 (q9_loader q9_bank) E pid ws) as [[E'|e] ws'] eqn:Em.
  - apply (merge_q9_bank_ok _ _ _ _ _ _ Em).
  - destruct (_load_q9_question_for_passage q9_bank pid []) as [[v|e0] ws9]
      eqn:El.
    { exfalso.
      assert (Hl : q9_loader q9_bank pid = Ok (v, ws9))
        by (unfold q9_loader; rewrite El; reflexivity).
      destruct (load_q9_normal _ _ _ _ _ El) as [->|(d & -> & Hd)].
      - unfold merge_q9 in Em. rewrite Hl in Em. discriminate.
      - destruct (merge_q9_normal _ E pid ws ws9 d Hl Hd)
          as (q & E1 & Hm & _).
        rewrite Hm in Em. discriminate. }
    assert (Hl : q9_loader q9_bank pid = Raise e0)
      by (unfold q9_loader; rewrite El; reflexivity).
    unfold merge_q9 in Em. rewrite Hl in Em. injection Em as <- <-.
    split; [reflexivity|].
    revert El. unfold _load_q9_question_for_passage.
    destruct q9_bank as [[payload|e1]|];
      [|intros [= -> _]; left; reflexivity|discriminate].
    destruct payload as [| | | | | |payload];
      try (intros [= <- _]; right; split; [reflexivity|];
           eexists; split; reflexivity).
    destruct (get_default "passages" (VList []) payload)
      as [| | | |[|p0 ps]| |]; try discriminate.
    cbv zeta. destruct (String.eqb _ ""); [discriminate|].
    destruct (find_q9_passage _ _) as [target|]; [|discriminate].
    destruct (normalize_passage_schema_ok target []) as (pn & a & ->).
    destruct (get_default "questions" (VList []) pn) as [| | | |[|q qs]| |];
      discriminate.
Qed.

(** ** The summary question, merged *)

Lemma load_q10_summary (q10_bank answer_keys : result pyval) (pid : string)
    (ws ws' : list warning) (q : dict) :
  _load_q10_question_for_passage q10_bank answer_keys pid ws
  = (Ok (VDict q), ws') ->
  summary_question q.
Proof.
  unfold _load_q10_question_for_passage.
  destruct (String.eqb _ ""); [discriminate|].
  destruct (passage_no_of _) as [n|]; [|discriminate].
  destruct (get_q10_question q10_bank n) as [[| | | | | |[|e0 q10]]|e];
    try discriminate.
  destruct (int_of _) as [max_sel|e]; [|discriminate].
  destruct (negb (length (q10_choices _) =? 6)%nat) eqn:El; [discriminate|].
  destruct (_lookup_q10_correct_from_answer_keys answer_keys n ws)
    as [[s|] ws1] eqn:Ek; [|discriminate].
  intros [= <- <-].
  destruct (lookup_q10_nonempty answer_keys n ws s) as [Hs _];
    [rewrite Ek; reflexivity|].
  split; [reflexivity|]. eexists. exists s.
  split; [reflexivity|].
  apply negb_false_iff, Nat.eqb_eq in El. split; [exact El|].
  split; [apply q10_choices_nonempty|]. split; [exact Hs|reflexivity].
Qed.

Lemma merge_q10_summary (q10_bank answer_keys : result pyval) (E : dict)
    (pid : string) (ws ws' : list warning) (E' : dict) :
  merge_q10 q10_bank answer_keys E pid ws = (Ok E', ws') ->
  E' = E
  \/ exists q,
      summary_question q
      /\ E' = set "questions" (VList (questions_of E ++ [VDict q])) E.
Proof.
  unfold merge_q10.
  destruct (_load_q10_question_for_passage q10_bank answer_keys pid ws)
    as [[q10|e] ws1] eqn:El; [|discriminate].
  destruct q10 as [| | | | | |[|e0 q10]]; try (intros [= <- _]; left; reflexivity).
  destruct (has_question_id _ _); intros [= <- _]; [left; reflexivity|].
  right. eexists. split; [|reflexivity].
  apply (load_q10_summary _ _ _ _ _ _ El).
Qed.

(** ** The questions of the bank *)

Lemma passage_exam_set_questions (p : dict) (ws ws' : list warning)
    (pn E : dict) :
  _normalize_passage_schema (VDict p) ws = Ok (pn, ws') ->
  _passage_to_exam_set pn = Ok E ->
  exists qs,
    get "questions" E = VList (map VDict qs) /\ Forall single_question qs.
Proof.
  intros Hn. destruct (normalize_passage_questions _ _ _ _ Hn) as (ds & Hds & Hshape).
  destruct (exam_questions_normal ds Hshape) as (qs & Hqs & _ & Hall).
  unfold _passage_to_exam_set. rewrite Hds. cbn [iterate]. rewrite Hqs.
  intros [= <-]. exists qs. split; [reflexivity|].
  eapply Forall_impl; [exact Hall|].
  intros q (ci & Hr & Ht & H4 & Hl & Hci & Hc & Hg).
  split; [exact Ht|]. split; [exact H4|]. split; [exact Hl|].
  exists ci. auto.
Qed.

Lemma load_exam_set_questions (bank : option (result pyval)) (i : Z)
    (E : dict) (ws : list warning) :
  _load_exam_set_from_passages bank i = Ok (E, ws) ->
  exists qs,
    get "questions" E = VList (map VDict qs) /\ Forall single_question qs.
Proof.
  unfold _load_exam_set_from_passages.
  destruct bank as [[payload|e]|]; try discriminate.
  destruct (negb (fst (_validate_passages_payload_loose payload)));
    [discriminate|].
  destruct (match payload with VDict d => _ | _ => [] end) as [|p0 ps];
    [discriminate|].
  match goal with
  | |- context [_normalize_passage_schema ?x ?w] =>
      destruct x as [| | | | | |pd]; try (cbn; discriminate);
      destruct (_normalize_passage_schema (VDict pd) w) as [[pn ws1]|e] eqn:En;
      [|discriminate]
  end.
  destruct (_passage_to_exam_set pn) as [E0|e] eqn:Ep; [|discriminate].
  intros [= <- _].
  apply (passage_exam_set_questions _ _ _ _ _ En Ep).
Qed.

(** ** Numbering keeps the questions well-formed *)

Lemma single_question_letters (q : dict) :
  single_question q -> exists L, correct_letters_of q = Some L.
Proof.
  intros (_ & _ & _ & ci & Hr & Hci & _ & _).
  unfold correct_letters_of.
  destruct (first_letter_list ["correct_letters"] q); [|eexists; reflexivity].
  destruct (first_letter_list _ q); [|eexists; reflexivity].
  unfold correct_index_letter. rewrite Hci. cbn [as_int].
  replace ((0 <=? ci)%Z && (ci <? 4)%Z) with true; [eexists; reflexivity|].
  symmetry. apply andb_true_iff. split; [apply Z.leb_le|apply Z.ltb_lt]; lia.
Qed.

Lemma single_question_set_seq (i : nat) (q : dict) :
  single_question q -> single_question (set_seq i q).
Proof.
  intros Hq. destruct (single_question_letters q Hq) as [L HL].
  destruct Hq as (Ht & H4 & Hl & ci & Hr & Hci & Hc & Hg).
  split; [rewrite set_seq_get by discriminate; exact Ht|].
  split.
  { destruct H4 as (c0 & c1 & c2 & c3 & H4). exists c0, c1, c2, c3.
    rewrite set_seq_get by discriminate. exact H4. }
  split; [rewrite set_seq_parsed; exact Hl|].
  exists ci. split; [exact Hr|].
  split; [rewrite set_seq_get by discriminate; exact Hci|].
  split; [rewrite set_seq_get by discriminate; exact Hc|].
  rewrite <- Hg. rewrite (get_correct_letters_top q L HL).
  apply get_correct_letters_top. rewrite set_seq_correct_letters. exact HL.
Qed.

Lemma summary_question_set_seq (i : nat) (q : dict) :
  summary_question q -> summary_question (set_seq i q).
Proof.
  intros (Ht & cs & s & Hc & Hlen & Hall & Hs & Hk).
  split; [rewrite set_seq_get by discriminate; exact Ht|].
  exists cs, s. rewrite !set_seq_get by discriminate. auto.
Qed.

(** A question of a picked exam set *)
Local Abbreviation picked_question v :=
  (exists q, v = VDict q
             /\ mem "seq" (meta_of q) = true
             /\ (single_question q \/ summary_question q)).

Lemma ensure_seq_picked (l : list pyval) :
  Forall (fun v => exists q, v = VDict q
                             /\ (single_question q \/ summary_question q)) l ->
  Forall (fun v => picked_question v) (map ensure_seq_one (enumerate l)).
Proof.
  intros Hl. apply List.Forall_forall. intros v Hv.
  apply in_map_iff in Hv as ([i x] & <- & Hx).
  apply enumerate_In in Hx.
  rewrite List.Forall_forall in Hl.
  destruct (Hl x) as (q & -> & Hq).
  { apply list_elem_of_In. eapply list_elem_of_lookup_2. exact Hx. }
  exists (set_seq (S i) q). split; [apply ensure_seq_one_dict|].
  split; [apply set_seq_mem|].
  destruct Hq as [Hq|Hq];
    [left; apply single_question_set_seq|right; apply summary_question_set_seq];
    exact Hq.
Qed.

Lemma questions_of_set (l : list pyval) (E : dict) :
  questions_of (set "questions" (VList l) E) = l.
Proof. unfold questions_of. rewrite get_set_eq. reflexivity. Qed.

Section WithRandom.
Context (R : PyRandom).

(** X28: every question of a picked exam set is well-formed. When
    [pick_full_exam_set_for_attempt] returns on the files of the banks,
    whatever they hold, every question of the exam set is an object that
    carries a sequence number and is either a single-choice question with
    four choices lettered A, B, C, D whose correct letter is the one at its
    correct index, or a summary question with six lettered choices and a
    non-empty answer. *)
Theorem picked_questions_are_well_formed (bank q9_bank : option (result pyval))
    (q10_bank answer_keys : result pyval) (seed : Z) (E' : dict) :
  pick_full_from_files R bank q9_bank q10_bank answer_keys seed = Ok E' ->
  Forall (fun v => exists q, v = VDict q
                             /\ mem "seq" (meta_of q) = true
                             /\ (single_question q \/ summary_question q))
         (questions_of E').
Proof.
  unfold pick_full_from_files.
  destruct (_count_passages bank) as [count|e]; [|discriminate].
  unfold pick_full_exam_set_for_attempt.
  destruct (_load_exam_set_from_passages bank _) as [[E0 ws0]|e] eqn:El;
    [|discriminate].
  destruct (load_exam_set_questions _ _ _ _ El) as (qs & Hqs & Hall).
  assert (H0 : Forall (fun v => exists q, v = VDict q
                          /\ (single_question q \/ summary_question q))
                      (questions_of E0)).
  { unfold questions_of. rewrite Hqs. apply List.Forall_forall. intros v Hv.
    apply in_map_iff in Hv as (q & <- & Hq). exists q. split; [reflexivity|].
    left. rewrite List.Forall_forall in Hall. apply Hall. exact Hq. }
  destruct (String.eqb _ "").
  { intros [= <-]. rewrite ensure_seq_questions. apply ensure_seq_picked.
    exact H0. }
  destruct (merge_q9 _ E0 _ ws0) as [[E1|e] ws1] eqn:E9; [|discriminate].
  destruct (merge_q10 q10_bank answer_keys E1 _ ws1) as [[E2|e] ws2] eqn:E10;
    [|discriminate].
  intros [= <-]. rewrite ensure_seq_questions. apply ensure_seq_picked.
  assert (H1 : Forall (fun v => exists q, v = VDict q
                          /\ (single_question q \/ summary_question q))
                      (questions_of E1)).
  { destruct (merge_q9_bank_ok _ _ _ _ _ _ E9) as [_ [->|(q & Hq & ->)]];
      [exact H0|].
    rewrite questions_of_set. apply Forall_app. split; [exact H0|].
    constructor; [|constructor]. exists q. auto. }
  destruct (merge_q10_summary _ _ _ _ _ _ _ E10) as [->|(q & Hq & ->)];
    [exact H1|].
  rewrite questions_of_set. apply Forall_app. split; [exact H1|].
  constructor; [|constructor]. exists q. auto.
Qed.

(** ** The exam set of an attempt *)

(** X17: [get_exam_set_for_attempt] shuffles once. A call with the id of
    an attempt that holds no shuffled exam set returns
    [shuffle_exam_set(raw, seed)] as it is, with a seed of 0 read as 1, and
    stores it in the attempt; a call on an attempt that holds one returns
    it and leaves the store; an unknown id raises [ValueError]. A second
    call returns what the first returned and leaves the store as the first
    left it, and no call touches another attempt, the counter or the
    generator. *)
Theorem get_exam_set_for_attempt_caches (attempt_id : string) (w : world R) :
  let r := get_exam_set_for_attempt R attempt_id w in
  get_exam_set_for_attempt R attempt_id (snd r) = r
  /\ ATTEMPT_COUNTER (snd r) = ATTEMPT_COUNTER w
  /\ global_rng (snd r) = global_rng w
  /\ (forall other, other <> attempt_id ->
        dict_get String.eqb other (ATTEMPTS (snd r))
        = dict_get String.eqb other (ATTEMPTS w))
  /\ match dict_get String.eqb attempt_id (ATTEMPTS w) with
     | None => r = (Raise ValueError, w)
     | Some a =>
         match shuffled_exam_set a with
         | Some cached => r = (Ok cached, w)
         | None =>
             let seed :=
               if (shuffle_seed a =? 0)%Z then 1%Z else shuffle_seed a in
             let shuffled := shuffle_exam_set R (raw_exam_set a) seed in
             fst r = Ok shuffled
             /\ dict_get String.eqb attempt_id (ATTEMPTS (snd r))
                = Some (with_shuffled a shuffled)
         end
     end.
Proof.
  unfold get_exam_set_for_attempt.
  destruct (dict_get String.eqb attempt_id (ATTEMPTS w)) as [a|] eqn:Ea.
  - destruct (shuffled_exam_set a) as [cached|] eqn:Ec.
    + cbn [fst snd]. rewrite Ea, Ec. auto.
    + cbv zeta. rewrite shuffled_is_numbered.
      cbn [fst snd ATTEMPTS ATTEMPT_COUNTER global_rng].
      rewrite (dict_get_set_eq _ String.eqb_spec).
      cbn [shuffled_exam_set with_shuffled].
      split; [reflexivity|]. split; [reflexivity|]. split; [reflexivity|].
      split; [|split; reflexivity].
      intros other Hne. apply (dict_get_set_ne _ String.eqb_spec). exact Hne.
  - cbn [fst snd]. rewrite Ea. auto.
Qed.

End WithRandom.

Section WithFiles.
Context (R : PyRandom).
Context (count_passages : Z)
        (load_exam_set : Z -> result (dict * list warning))
        (load_q9 : string -> result (pyval * list warning))
        (q10_bank answer_keys : result pyval).

Local Abbreviation create_attempt :=
  (ExamServices.create_attempt
     R count_passages load_exam_set load_q9 q10_bank answer_keys).

(** X29: the exam set of a fresh attempt. With a generator whose [randint]
    keeps to its range, the first call of [get_exam_set_for_attempt] on an
    attempt that [create_attempt] has just stored returns the shuffle of
    the attempt's raw exam set under the seed drawn for the attempt, with
    as many questions as the raw exam set has, and the next call returns
    the same exam set from the store. *)
Theorem fresh_attempt_serves_the_shuffle (minutes_ : Z)
    (mode_ single_index_ : pyval) (w w1 : world R) (attempt_id : string) :
  randint_in_range R ->
  create_attempt minutes_ mode_ single_index_ w = (Ok attempt_id, w1) ->
  exists a w2,
    dict_get String.eqb attempt_id (ATTEMPTS w1) = Some a
    /\ shuffle_seed a = fst (randint R 1 (10 ^ 9) (global_rng w))
    /\ get_exam_set_for_attempt R attempt_id w1
       = (Ok (shuffle_exam_set R (raw_exam_set a) (shuffle_seed a)), w2)
    /\ get_exam_set_for_attempt R attempt_id w2
       = (Ok (shuffle_exam_set R (raw_exam_set a) (shuffle_seed a)), w2)
    /\ length (dict_questions
                 (shuffle_exam_set R (raw_exam_set a) (shuffle_seed a)))
       = length (dict_questions (raw_exam_set a)).
Proof.
  intros Hrange. unfold ExamServices.create_attempt.
  pose proof (Hrange 1%Z (10 ^ 9)%Z (global_rng w) ltac:(lia)) as Hseed.
  destruct (randint R 1 (10 ^ 9) (global_rng w)) as [seed g].
  cbn [fst] in Hseed.
  destruct (py_or mode_ (VStr "full")) as [| | |m| | |]; try discriminate.
  destruct (ExamServices.pick_full_exam_set_for_attempt _ _ _ _ _ _ seed)
    as [raw|e]; [|discriminate].
  intros [= <- <-].
  eexists. eexists.
  split; [apply (dict_get_set_eq _ String.eqb_spec)|].
  cbn [shuffle_seed raw_exam_set fst].
  split; [reflexivity|].
  assert (Hz : (seed =? 0)%Z = false) by (apply Z.eqb_neq; lia).
  split; [|split].
  - unfold get_exam_set_for_attempt. cbn [ATTEMPTS].
    rewrite (dict_get_set_eq _ String.eqb_spec).
    cbn [shuffled_exam_set shuffle_seed raw_exam_set]. rewrite Hz.
    cbv zeta. rewrite shuffled_is_numbered. reflexivity.
  - unfold get_exam_set_for_attempt. cbn [ATTEMPTS].
    rewrite (dict_get_set_eq _ String.eqb_spec).
    cbn [shuffled_exam_set with_shuffled]. reflexivity.
  - apply dict_questions_length.
Qed.

End WithFiles.

Lemma lcg_randint_in_range : randint_in_range Lcg.R.
Proof.
  intros a b g Hab. cbn. unfold Lcg.randint. cbn [fst].
  pose proof (Z.mod_pos_bound (Lcg.next g) (b - a + 1) ltac:(lia)). lia.
Qed.

(** ** Instances on the samples *)

Lemma load_exam_set_wraps_index_witness :
  exists pn a E,
    _normalize_passage_schema (VDict MoreSamples.sample_passage) [] = Ok (pn, a)
    /\ _passage_to_exam_set pn = Ok E
    /\ _load_exam_set_from_passages
         (Some (Ok (VDict MoreSamples.sample_bank))) 5
       = Ok (E,
             [W_bank "passage_index out of range; wrapped by modulo."]
             ++ a
             ++ (if truthy (get "questions" E) then []
                 else [W_bank
                         "Selected passage has zero questions after normalization."])).
Proof.
  apply (load_exam_set_wraps_index MoreSamples.sample_bank
           [VDict MoreSamples.sample_passage] 5).
  - vm_compute. reflexivity.
  - reflexivity.
  - discriminate.
  - repeat constructor.
Defined.

Lemma merge_q9_from_bank_witness :
  match merge_q9 (q9_loader (Some (Ok (VDict MoreSamples.sample_q9_bank))))
          MoreSamples.sample_picked "P1" [] with
  | (Ok E', ws') =>
      (exists a, ws' = [] ++ a)
      /\ (E' = MoreSamples.sample_picked
          \/ exists q,
              single_question q
              /\ E' = set "questions"
                        (VList (questions_of MoreSamples.sample_picked
                                ++ [VDict q]))
                        MoreSamples.sample_picked)
  | (Raise e, ws') =>
      ws' = []
      /\ (Some (Ok (VDict MoreSamples.sample_q9_bank)) = Some (Raise e)
          \/ e = AttributeError
             /\ exists v, Some (Ok (VDict MoreSamples.sample_q9_bank))
                          = Some (Ok v) /\ is_dict v = false)
  end.
Proof.
  apply (merge_q9_from_bank (Some (Ok (VDict MoreSamples.sample_q9_bank)))
           MoreSamples.sample_picked "P1" []).
  - reflexivity.
  - intros payload [= <-]. vm_compute. reflexivity.
Defined.

Lemma picked_questions_are_well_formed_witness :
  Forall (fun v => exists q, v = VDict q
                             /\ mem "seq" (meta_of q) = true
                             /\ (single_question q \/ summary_question q))
         (questions_of MoreSamples.sample_picked_files).
Proof.
  apply (picked_questions_are_well_formed Lcg.R
           (Some (Ok (VDict MoreSamples.sample_bank)))
           (Some (Ok (VDict MoreSamples.sample_q9_bank)))
           (Ok (VList [q10_item "F"])) sample_keys 5).
  vm_compute. reflexivity.
Defined.

Lemma fresh_attempt_serves_the_shuffle_witness :
  exists a w2,
    dict_get String.eqb "1" (ATTEMPTS (snd (sample_create sample_world)))
    = Some a
    /\ shuffle_seed a
       = fst (randint Lcg.R 1 (10 ^ 9) (global_rng sample_world))
    /\ get_exam_set_for_attempt Lcg.R "1" (snd (sample_create sample_world))
       = (Ok (shuffle_exam_set Lcg.R (raw_exam_set a) (shuffle_seed a)), w2)
    /\ get_exam_set_for_attempt Lcg.R "1" w2
       = (Ok (shuffle_exam_set Lcg.R (raw_exam_set a) (shuffle_seed a)), w2)
    /\ length (dict_questions
                 (shuffle_exam_set Lcg.R (raw_exam_set a) (shuffle_seed a)))
       = length (dict_questions (raw_exam_set a)).
Proof.
  apply (fresh_attempt_serves_the_shuffle Lcg.R 1 one_passage no_q9
           (Ok (VList [q10_item "F"])) sample_keys 18 (VStr "full") (VInt 1)
           sample_world (snd (sample_create sample_world)) "1").
  - exact lcg_randint_in_range.
  - apply ServicesFacts.pair_fst. vm_compute. reflexivity.
Defined.

End PipelineFacts.
